(** * Aura RAG context engine: chunking, embedding, retrieval, confidence

    A shallow embedding of the Python services under
    [backend/app/services] (chunk_processor.py, embedding_service.py,
    vector_search_service.py, vector_search_service_fixed.py,
    rag_pipeline.py) and the properties their specification states.

    Conventions of the embedding.
    - Python [str] is [string]; the character classes are those of the
      ASCII range (code points below 128).
    - Python [float] in the confidence, similarity and token
      arithmetic is idealised as [Q] (literals such as [0.9] and [1.3]
      denote the rationals 9/10 and 13/10). What is stated of such a
      value is an order between values that the code compares, or a
      bound that leaves room for the rounding of the doubles; no
      statement rests on the digits of a value.
    - The cosine similarity is computed on binary64 as the code does,
      with the primitive floats of the kernel.
    - [f"{x:.2f}"] prints the binary double: the formatter is a
      parameter of the functions that print a similarity.
    - [dict] is stdpp's [gmap]; dictionary values of type [Any] are
      rendered as strings.
    - A call that may raise returns an [outcome]; [try ... except
      Exception] is [try_except].
    - The external collaborators (tokenizer, embedding backend, database,
      training-data service) are parameters of the functions that call
      them. *)

From Stdlib Require Import String Ascii List ZArith QArith Qminmax Qabs Qround.
From Stdlib Require Import Lia Lqa Floats DecimalString Sorted Bool.
From stdpp Require Import gmap strings.

Set Default Proof Using "Type".

(* ================================================================== *)
(** * Python primitives *)
(* ================================================================== *)

Module Py.

(** ** Exceptions *)

Inductive outcome (A : Type) : Type :=
  | Ok (a : A)
  | Raise.
Global Arguments Ok {A} a.
Global Arguments Raise {A}.

Definition bind {A B} (m : outcome A) (k : A -> outcome B) : outcome B :=
  match m with
  | Ok a => k a
  | Raise => Raise
  end.

(** [try: body except Exception: handler] *)
Definition try_except {A} (body : outcome A) (handler : A) : A :=
  match body with
  | Ok a => a
  | Raise => handler
  end.

(** ** Truthiness *)

Definition truthy (s : string) : bool :=
  match s with
  | EmptyString => false
  | String _ _ => true
  end.

(** ** Characters *)

Definition code (c : ascii) : N := N_of_ascii c.

Definition in_range (lo hi : N) (c : ascii) : bool :=
  (lo <=? code c)%N && (code c <=? hi)%N.

(** [str.isspace] on the ASCII range: TAB LF VT FF CR, FS GS RS US and
    the space; it is the class [\s] of [re] too. *)
Definition isspace (c : ascii) : bool :=
  in_range 9 13 c || in_range 28 32 c.

Definition isdigit (c : ascii) : bool := in_range 48 57 c.
Definition isupper (c : ascii) : bool := in_range 65 90 c.
Definition islower (c : ascii) : bool := in_range 97 122 c.

(** The class [\w] of [re]. *)
Definition isword (c : ascii) : bool :=
  isdigit c || isupper c || islower c || (code c =? 95)%N.

Definition lower_char (c : ascii) : ascii :=
  if isupper c then ascii_of_N (code c + 32) else c.

Definition is_char (x c : ascii) : bool := (code x =? code c)%N.

(** Line feed and carriage return *)
Definition LF : ascii := "010"%char.
Definition CR : ascii := "013"%char.

(** ** Strings *)

(** The string of one line feed *)
Definition nl : string := String LF EmptyString.

Fixpoint lower (s : string) : string :=
  match s with
  | EmptyString => EmptyString
  | String c s' => String (lower_char c) (lower s')
  end.

Fixpoint lstrip (s : string) : string :=
  match s with
  | EmptyString => EmptyString
  | String c s' => if isspace c then lstrip s' else s
  end.

Definition rstrip (s : string) : string :=
  String.rev (lstrip (String.rev s)).

Definition strip (s : string) : string := rstrip (lstrip s).

(** [s.split()]: the maximal runs of non-space characters. [cur] is
    the word being read, reversed. *)
Fixpoint split_go (cur : option string) (s : string) : list string :=
  match s with
  | EmptyString =>
      match cur with
      | Some w => [String.rev w]
      | None => []
      end
  | String c s' =>
      if isspace c then
        match cur with
        | Some w => String.rev w :: split_go None s'
        | None => split_go None s'
        end
      else
        split_go (Some (String c (default EmptyString cur))) s'
  end.

Definition split (s : string) : list string := split_go None s.

(** [sep.join(l)] *)
Fixpoint join (sep : string) (l : list string) : string :=
  match l with
  | [] => EmptyString
  | x :: l' =>
      match l' with
      | [] => x
      | _ :: _ => x +:+ sep +:+ join sep l'
      end
  end.

(** [sub in s] *)
Fixpoint contains (sub s : string) : bool :=
  String.prefix sub s ||
  match s with
  | EmptyString => false
  | String _ s' => contains sub s'
  end.

(** [s.count(sub)]: occurrences that do not overlap, read from the
    left; [skip] characters of the last occurrence are still to pass.
    The empty [sub] occurs [len(s) + 1] times. *)
Fixpoint count_go (sub s : string) (skip : nat) : nat :=
  match s with
  | EmptyString => 0
  | String _ s' =>
      match skip with
      | S k => count_go sub s' k
      | O =>
          if String.prefix sub s
          then S (count_go sub s' (String.length sub - 1))
          else count_go sub s' 0
      end
  end.

Definition count (s sub : string) : nat :=
  match sub with
  | EmptyString => S (String.length s)
  | String _ _ => count_go sub s 0
  end.

(** [l[:k]] for an integer [k] of either sign. *)
Definition slice_to {A} (l : list A) (k : Z) : list A :=
  if (0 <=? k)%Z then firstn (Z.to_nat k) l
  else firstn (length l - Z.to_nat (- k)) l.

(** [l[-k:]] for a positive literal [k]. *)
Definition last_n {A} (k : nat) (l : list A) : list A :=
  skipn (length l - k) l.

(** ** Numbers *)

Definition of_nat (n : nat) : Q := inject_Z (Z.of_nat n).

(** [int(x)]: truncation towards zero. *)
Definition int (x : Q) : Z := Z.quot (Qnum x) (Zpos (Qden x)).

Definition sum (l : list Q) : Q := fold_left Qplus l 0%Q.

Definition le (x y : Q) : bool := Qle_bool x y.
Definition lt (x y : Q) : bool := negb (Qle_bool y x).

(** [min(a, b)], [max(a, b)] *)
Definition min (a b : Q) : Q := if lt b a then b else a.
Definition max (a b : Q) : Q := if lt a b then b else a.

(** [sorted(l, key=key, reverse=True)]: stable, so an element stays in
    front of the later elements of the same key. *)
Fixpoint insert_desc {A} (key : A -> Q) (x : A) (l : list A) : list A :=
  match l with
  | [] => [x]
  | y :: l' =>
      if lt (key x) (key y) then y :: insert_desc key x l'
      else x :: l
  end.

Definition sorted_desc {A} (key : A -> Q) (l : list A) : list A :=
  fold_right (insert_desc key) [] l.

(** Rounding to the nearest integer, ties to even *)
Definition round_half_even (x : Q) : Z :=
  let fl := Qfloor x in
  let r := (x - inject_Z fl)%Q in
  if lt r 0.5 then fl
  else if lt 0.5 r then (fl + 1)%Z
  else if Z.even fl then fl else (fl + 1)%Z.

End Py.

Import Py.
Notation "'call' x <- m ; k" := (Py.bind m (fun x => k))
  (at level 10, x name, m at level 100, k at level 200).

(* ================================================================== *)
(** * Regular expressions of the chunker *)
(* ================================================================== *)

(** Each pattern of chunk_processor.py is a matcher: given the character
    in front of the position ([None] at the start of the text) and the
    text from the position on, it returns the length of the match that
    [re] finds there. None of the patterns matches the empty string, and
    none needs backtracking: every greedy run is followed by a character
    outside its class. *)
Module Re.

Definition matcher : Type := option ascii -> string -> option nat.

(** [^] under [re.MULTILINE] *)
Definition at_line_start (prev : option ascii) : bool :=
  match prev with
  | None => true
  | Some c => is_char c LF
  end.

(** Length of the longest prefix in the class [p], and the rest. *)
Fixpoint span (p : ascii -> bool) (s : string) : nat * string :=
  match s with
  | EmptyString => (0, EmptyString)
  | String c s' =>
      if p c then let '(n, r) := span p s' in (S n, r) else (0, s)
  end.

Definition one (p : ascii -> bool) (s : string) : option string :=
  match s with
  | EmptyString => None
  | String c s' => if p c then Some s' else None
  end.

(** [finditer]/[findall]: the matches from left to right, without
    overlap, as (start, length); [skip] characters of the last match
    are still to pass. *)
Fixpoint finditer_go (m : matcher) (prev : option ascii) (pos skip : nat)
    (s : string) : list (nat * nat) :=
  match s with
  | EmptyString => []
  | String c s' =>
      match skip with
      | S k => finditer_go m (Some c) (S pos) k s'
      | O =>
          match m prev s with
          | Some (S n) => (pos, S n) :: finditer_go m (Some c) (S pos) n s'
          | _ => finditer_go m (Some c) (S pos) 0 s'
          end
      end
  end.

Definition finditer (m : matcher) (s : string) : list (nat * nat) :=
  finditer_go m None 0 0 s.

(** [pattern.split(s)] for a pattern without groups: the text between
    the matches, empty pieces included. *)
Fixpoint pieces (s : string) (from : nat) (ms : list (nat * nat))
    : list string :=
  match ms with
  | [] => [substring from (String.length s - from) s]
  | (start, len) :: ms' =>
      substring from (start - from) s :: pieces s (start + len) ms'
  end.

Definition split (m : matcher) (s : string) : list string :=
  pieces s 0 (finditer m s).

(** [re.search] of a pattern anchored by [^] without [re.MULTILINE] *)
Definition search_at_start (m : matcher) (s : string) : bool :=
  match m None s with
  | Some _ => true
  | None => false
  end.

Definition is_hash (c : ascii) : bool := is_char c "#"%char.
Definition is_bullet (c : ascii) : bool :=
  is_char c "-"%char || is_char c "*"%char || is_char c "+"%char.
Definition is_terminator (c : ascii) : bool :=
  is_char c "."%char || is_char c "!"%char || is_char c "?"%char.
Definition is_clause_mark (c : ascii) : bool :=
  is_char c ","%char || is_char c ";"%char.
Definition is_qa (c : ascii) : bool :=
  is_char (lower_char c) "q"%char || is_char (lower_char c) "a"%char.
Definition is_colon (c : ascii) : bool := is_char c ":"%char.
Definition not_LF (c : ascii) : bool := negb (is_char c LF).

(** [[.!?]+\s+] *)
Definition sentence_endings : matcher := fun _ s =>
  let '(n, r) := span is_terminator s in
  let '(w, _) := span isspace r in
  if (0 <? n) && (0 <? w) then Some (n + w) else None.

(** [^#{1,6}\s+] *)
Definition header_prefix : matcher := fun prev s =>
  let '(h, r) := span is_hash s in
  let '(w, _) := span isspace r in
  if at_line_start prev && (0 <? h) && (h <=? 6) && (0 <? w)
  then Some (h + w) else None.

(** [^#{1,6}\s+.*$] under [re.MULTILINE] *)
Definition header_pattern : matcher := fun prev s =>
  let '(h, r) := span is_hash s in
  let '(w, r') := span isspace r in
  let '(d, _) := span not_LF r' in
  if at_line_start prev && (0 <? h) && (h <=? 6) && (0 <? w)
  then Some (h + w + d) else None.

(** [^\s*[-*+]\s+] (the bullet sign of the source pattern lies outside
    the ASCII range) *)
Definition list_prefix : matcher := fun prev s =>
  let '(w0, r) := span isspace s in
  match one is_bullet r with
  | Some r' =>
      let '(w, _) := span isspace r' in
      if at_line_start prev && (0 <? w) then Some (w0 + 1 + w) else None
  | None => None
  end.

(** [^\s*[-*+]\s+.*$] under [re.MULTILINE] *)
Definition list_pattern : matcher := fun prev s =>
  let '(w0, r) := span isspace s in
  match one is_bullet r with
  | Some r' =>
      let '(w, r'') := span isspace r' in
      let '(d, _) := span not_LF r'' in
      if at_line_start prev && (0 <? w) then Some (w0 + 1 + w + d) else None
  | None => None
  end.

(** [[QA]:\s*] under [re.IGNORECASE] *)
Definition qa_marker : matcher := fun _ s =>
  match one is_qa s with
  | Some r =>
      match one is_colon r with
      | Some r' => let '(w, _) := span isspace r' in Some (2 + w)
      | None => None
      end
  | None => None
  end.

(** [^\s*[QA]:\s*] under [re.IGNORECASE] *)
Definition qa_prefix : matcher := fun prev s =>
  let '(w0, r) := span isspace s in
  match qa_marker None r with
  | Some n => if at_line_start prev then Some (w0 + n) else None
  | None => None
  end.

(** [^\s*[A-Z][a-z]+:\s+] under [re.MULTILINE] *)
Definition dialogue_marker : matcher := fun prev s =>
  let '(w0, r) := span isspace s in
  match one isupper r with
  | Some r' =>
      let '(l, r'') := span islower r' in
      match one is_colon r'' with
      | Some r''' =>
          let '(w, _) := span isspace r''' in
          if at_line_start prev && (0 <? l) && (0 <? w)
          then Some (w0 + 1 + l + 1 + w) else None
      | None => None
      end
  | None => None
  end.

(** The lookahead [(?=[QA]:|$)]: a marker follows, or the text ends
    here, or only its last line break is left. *)
Definition qa_ahead (s : string) : bool :=
  match s with
  | EmptyString => true
  | String c s' =>
      match s' with
      | EmptyString => is_char c LF
      | String c' _ => is_qa c && is_colon c'
      end
  end.

(** [[^QA]*?(?=[QA]:|$)]: the shortest run of characters other than
    q and a after which the lookahead holds. *)
Fixpoint qa_body (s : string) : option nat :=
  if qa_ahead s then Some 0
  else
    match s with
    | EmptyString => None
    | String c s' =>
        if is_qa c then None
        else match qa_body s' with
             | Some n => Some (S n)
             | None => None
             end
    end.

(** [[QA]:\s*([^QA]*?)(?=[QA]:|$)] under [re.IGNORECASE | re.DOTALL] *)
Definition qa_pair : matcher := fun _ s =>
  match one is_qa s with
  | Some r =>
      match one is_colon r with
      | Some r' =>
          let '(w, r'') := span isspace r' in
          match qa_body r'' with
          | Some n => Some (2 + w + n)
          | None => None
          end
      | None => None
      end
  | None => None
  end.

(** [\b\d+\b] *)
Definition number_token : matcher := fun prev s =>
  let '(n, r) := span isdigit s in
  let left := match prev with None => true | Some c => negb (isword c) end in
  let right := match r with
               | EmptyString => true
               | String c _ => negb (isword c)
               end in
  if (0 <? n) && left && right then Some n else None.

(** [re.split(r'[,;]', s)] and the like: split at every character of
    the class; [cur] is the piece being read, reversed. *)
Fixpoint split_chars (p : ascii -> bool) (cur : string) (s : string)
    : list string :=
  match s with
  | EmptyString => [String.rev cur]
  | String c s' =>
      if p c then String.rev cur :: split_chars p EmptyString s'
      else split_chars p (String c cur) s'
  end.

(** [re.sub(r'\s+', ' ', s)] *)
Fixpoint collapse_spaces (in_run : bool) (s : string) : string :=
  match s with
  | EmptyString => EmptyString
  | String c s' =>
      if isspace c then
        if in_run then collapse_spaces true s'
        else String " "%char (collapse_spaces true s')
      else String c (collapse_spaces false s')
  end.

(** [re.sub(r'\r\n|\r|\n', '\n', s)] *)
Fixpoint normalize_breaks (s : string) : string :=
  match s with
  | EmptyString => EmptyString
  | String c s' =>
      if is_char c CR then
        match s' with
        | EmptyString => String LF EmptyString
        | String c' s'' =>
            if is_char c' LF then String LF (normalize_breaks s'')
            else String LF (normalize_breaks s')
        end
      else String c (normalize_breaks s')
  end.

(** [re.sub(r'[x]{3,}', 'xxx', s)]: [n] counts the [x] just read. *)
Fixpoint squeeze_runs (x : ascii) (n : nat) (s : string) : string :=
  match s with
  | EmptyString => EmptyString
  | String c s' =>
      if is_char c x then
        if n <? 3 then String c (squeeze_runs x (S n) s')
        else squeeze_runs x (S n) s'
      else String c (squeeze_runs x 0 s')
  end.

(** [re.sub(r'[x]', 'y', s)] *)
Fixpoint replace_char (x y : ascii) (s : string) : string :=
  match s with
  | EmptyString => EmptyString
  | String c s' =>
      String (if is_char c x then y else c) (replace_char x y s')
  end.

End Re.

(* ================================================================== *)
(** * chunk_processor.py *)
(* ================================================================== *)

Module ChunkProcessor.

Record DocumentChunk : Type := {
  text : string;
  chunk_index : nat;
  token_count : Q;
  metadata : gmap string string;
  chunk_type : string;
  start_char : nat;
  end_char : nat
}.

(** What the chunking strategies hand to [smart_chunk_document]: a
    plain string, or a dictionary with the keys text, metadata,
    start_char and end_char. *)
Inductive raw_chunk : Type :=
  | RawStr (s : string)
  | RawDict (s : string) (md : gmap string string) (start_char end_char : nat).

Definition max_chunk_tokens : Q := 500.
Definition overlap_tokens : Q := 50.
Definition min_chunk_tokens : Q := 50.

Definition space : string := " ".
Definition double_quote : ascii := "034"%char.
Definition single_quote : ascii := "039"%char.

Section WithEncoding.

(** [self.encoding]: the tiktoken encoding, [None] when it could not
    be loaded; [encode] may raise. Only the number of tokens of the
    encoded text is used. *)
Variable encoding : option (string -> outcome nat).

(** [_count_tokens] *)
Definition count_tokens (s : string) : Q :=
  if negb (truthy s) then 0
  else
    let fallback := (Py.of_nat (length (Py.split s)) * 1.3)%Q in
    match encoding with
    | Some encode => try_except (call n <- encode s; Ok (Py.of_nat n)) fallback
    | None => fallback
    end.

(** [_clean_text] *)
Definition clean_text (s : string) : string :=
  let s := Re.collapse_spaces false s in
  let s := Re.normalize_breaks s in
  let s := Re.squeeze_runs "."%char 0 s in
  let s := Re.squeeze_runs "-"%char 0 s in
  let s := Re.replace_char double_quote double_quote s in
  let s := Re.replace_char single_quote single_quote s in
  Py.strip s.

Inductive strategy : Type := Structured | Conversational | Semantic.

(** [_determine_strategy] (the count of paragraph breaks is computed
    by the source and never used) *)
Definition determine_strategy (s : string) : strategy :=
  let header_count := length (Re.finditer Re.header_pattern s) in
  let list_count := length (Re.finditer Re.list_pattern s) in
  let qa_patterns := length (Re.finditer Re.qa_marker s) in
  let dialogue_patterns := length (Re.finditer Re.dialogue_marker s) in
  if (3 <? qa_patterns) || (5 <? dialogue_patterns) then Conversational
  else if (2 <? header_count) || (5 <? list_count) then Structured
  else Semantic.

(** *** [_chunk_by_sentences] *)

Record sentence_state : Type := {
  chunks : list string;
  current_chunk : list string;
  current_tokens : Q
}.

(** One round of the loop over the parts of an over-long sentence;
    the state is (chunks, temp_chunk, temp_tokens). *)
Definition part_step (st : sentence_state) (part : string) : sentence_state :=
  let part_tokens := count_tokens part in
  if Py.le (current_tokens st + part_tokens)%Q max_chunk_tokens then
    {| chunks := chunks st;
       current_chunk := current_chunk st ++ [Py.strip part];
       current_tokens := (current_tokens st + part_tokens)%Q |}
  else
    {| chunks := if current_chunk st is [] then chunks st
                 else chunks st ++ [Py.join space (current_chunk st)];
       current_chunk := [Py.strip part];
       current_tokens := part_tokens |}.

(** One round of the loop over the sentences. *)
Definition sentence_step (st : sentence_state) (sentence : string)
    : sentence_state :=
  let sentence_tokens := count_tokens sentence in
  if Py.lt max_chunk_tokens sentence_tokens then
    let saved := if current_chunk st is [] then chunks st
                 else chunks st ++ [Py.join space (current_chunk st)] in
    let sub_parts := Re.split_chars Re.is_clause_mark EmptyString sentence in
    let tmp := fold_left part_step sub_parts
                 {| chunks := saved; current_chunk := []; current_tokens := 0 |} in
    if current_chunk tmp is [] then
      {| chunks := chunks tmp; current_chunk := []; current_tokens := 0 |}
    else tmp
  else if Py.lt max_chunk_tokens (current_tokens st + sentence_tokens)%Q
          && negb (if current_chunk st is [] then true else false) then
    let overlap_sentences :=
      if 2 <? length (current_chunk st) then Py.last_n 2 (current_chunk st)
      else current_chunk st in
    let next := overlap_sentences ++ [sentence] in
    {| chunks := chunks st ++ [Py.join space (current_chunk st)];
       current_chunk := next;
       current_tokens := count_tokens (Py.join space next) |}
  else
    {| chunks := chunks st;
       current_chunk := current_chunk st ++ [sentence];
       current_tokens := (current_tokens st + sentence_tokens)%Q |}.

Definition sentences_of (s : string) : list string :=
  filter (fun x => truthy x) (map Py.strip (Re.split Re.sentence_endings s)).

Definition chunk_by_sentences (s : string) : list string :=
  let st := fold_left sentence_step (sentences_of s)
              {| chunks := []; current_chunk := []; current_tokens := 0 |} in
  if current_chunk st is [] then chunks st
  else chunks st ++ [Py.join space (current_chunk st)].

(** *** [_chunk_by_structure] *)

Definition method (name : string) : gmap string string :=
  {[ "chunk_method" := name ]}.

(** One round of the loop over the sections; the state is (chunks,
    current_position). [_chunk_by_sentences] returns strings only, so
    every sub-chunk takes the [isinstance(sub_chunk, str)] branch. *)
Definition section_step (st : list raw_chunk * nat) (section_text : string)
    : list raw_chunk * nat :=
  let '(acc, current_position) := st in
  if negb (truthy (Py.strip section_text)) then
    (acc, current_position + String.length section_text)
  else if Py.le (count_tokens section_text) max_chunk_tokens then
    (acc ++ [RawDict (Py.strip section_text) (method "structural")
               current_position
               (current_position + String.length section_text)],
     current_position + String.length section_text)
  else
    (acc ++ map (fun sub_chunk =>
                   RawDict sub_chunk (method "structural_subdivided")
                     current_position
                     (current_position + String.length sub_chunk))
                (chunk_by_sentences section_text),
     current_position + String.length section_text).

Definition chunk_by_structure (s : string) : list raw_chunk :=
  fst (fold_left section_step (Re.split Re.header_pattern s) ([], 0)).

(** *** [_chunk_by_dialogue] *)

Record dialogue_state : Type := {
  d_chunks : list raw_chunk;
  d_current_chunk : string;
  d_current_tokens : Q;
  d_current_position : nat
}.

Definition dialogue_flush (st : dialogue_state) : list raw_chunk :=
  if truthy (d_current_chunk st) then
    d_chunks st ++
    [RawDict (d_current_chunk st) (method "dialogue")
       (d_current_position st)
       (d_current_position st + String.length (d_current_chunk st))]
  else d_chunks st.

(** One round of the loop over the matches, each given by its start
    and length in [s]. *)
Definition dialogue_step (s : string) (st : dialogue_state)
    (m : nat * nat) : dialogue_state :=
  let qa_text := Py.strip (substring (fst m) (snd m) s) in
  let qa_tokens := count_tokens qa_text in
  if Py.le (d_current_tokens st + qa_tokens)%Q max_chunk_tokens then
    {| d_chunks := d_chunks st;
       d_current_chunk :=
         if truthy (d_current_chunk st)
         then d_current_chunk st +:+ (nl +:+ nl +:+ qa_text)
         else qa_text;
       d_current_tokens := (d_current_tokens st + qa_tokens)%Q;
       d_current_position := d_current_position st |}
  else
    {| d_chunks := dialogue_flush st;
       d_current_chunk := qa_text;
       d_current_tokens := qa_tokens;
       d_current_position := fst m |}.

Definition chunk_by_dialogue (s : string) : list raw_chunk :=
  match Re.finditer Re.qa_pair s with
  | [] => map RawStr (chunk_by_sentences s)
  | qa_matches =>
      dialogue_flush
        (fold_left (dialogue_step s) qa_matches
           {| d_chunks := []; d_current_chunk := EmptyString;
              d_current_tokens := 0; d_current_position := 0 |})
  end.

(** *** [_identify_chunk_type] *)

Definition any_in (words : list string) (s : string) : bool :=
  existsb (fun w => Py.contains w s) words.

Definition identify_chunk_type (s : string) : string :=
  let text_lower := Py.lower s in
  if Re.search_at_start Re.qa_prefix s then "qa_pair"
  else if any_in ["step"; "process"; "procedure"; "method"] text_lower
  then "process"
  else if any_in ["definition"; "means"; "refers to"; "is defined as"] text_lower
  then "definition"
  else if 0 <? Py.count s "?" then "question"
  else if 3 <? length (Re.finditer Re.number_token s) then "data"
  else if any_in ["example"; "instance"; "such as"; "for example"] text_lower
  then "example"
  else if Re.search_at_start Re.list_prefix s then "list"
  else if Re.search_at_start Re.header_prefix s then "header"
  else "general".

(** *** [smart_chunk_document] *)

Definition raw_text (c : raw_chunk) : string :=
  match c with
  | RawStr s => s
  | RawDict s _ _ _ => s
  end.

(** The body of the loop over [enumerate(raw_chunks)]: [None] is the
    [continue] of a chunk below [min_chunk_tokens]. In
    [{**metadata, **chunk_data['metadata']}] the keys of the chunk
    win. *)
Definition make_chunk (md : gmap string string) (i : nat)
    (chunk_data : raw_chunk) : option DocumentChunk :=
  let chunk_text := raw_text chunk_data in
  if Py.lt (count_tokens chunk_text) min_chunk_tokens then None
  else
    Some {|
      text := Py.strip chunk_text;
      chunk_index := i;
      token_count := count_tokens chunk_text;
      metadata := match chunk_data with
                  | RawStr _ => md
                  | RawDict _ cmd _ _ => cmd ∪ md
                  end;
      chunk_type := identify_chunk_type chunk_text;
      start_char := match chunk_data with
                    | RawStr _ => 0
                    | RawDict _ _ a _ => a
                    end;
      end_char := match chunk_data with
                  | RawStr s => String.length s
                  | RawDict _ _ _ b => b
                  end
    |}.

Fixpoint process_chunks (md : gmap string string) (i : nat)
    (raw_chunks : list raw_chunk) : list DocumentChunk :=
  match raw_chunks with
  | [] => []
  | chunk_data :: rest =>
      match make_chunk md i chunk_data with
      | Some chunk => chunk :: process_chunks md (S i) rest
      | None => process_chunks md (S i) rest
      end
  end.

Definition raw_chunks_of (s : string) : list raw_chunk :=
  let clean := clean_text s in
  match determine_strategy clean with
  | Structured => chunk_by_structure clean
  | Conversational => chunk_by_dialogue clean
  | Semantic => map RawStr (chunk_by_sentences clean)
  end.

(** [metadata=None] is the empty dictionary. *)
Definition smart_chunk_document (s : string)
    (md : option (gmap string string)) : list DocumentChunk :=
  if negb (truthy s) || negb (truthy (Py.strip s)) then []
  else process_chunks (default ∅ md) 0 (raw_chunks_of s).

End WithEncoding.

End ChunkProcessor.

(* ================================================================== *)
(** * embedding_service.py *)
(* ================================================================== *)

Module EmbeddingService.

Definition embedding : Type := list Q.

Definition dimensions : nat := 1536.
Definition max_batch_size : Z := 100.

(** [[0.0] * self.dimensions] *)
Definition zero_vector : embedding := replicate dimensions 0%Q.

(** The mutable fields of the service. The cache is keyed by the hash
    of the stripped text. *)
Record state : Type := {
  embedding_cache : gmap Z embedding;
  cache_hits : nat;
  cache_misses : nat
}.

(** One call of [self.client.embeddings.create] on a list of texts:
    the embeddings of [response.data], or an exception. *)
Definition backend : Type := list string -> outcome (list embedding).

Section WithHash.

(** Python's built-in [hash] on strings. *)
Variable hash : string -> Z.

(** [[text.strip() for text in batch if text and text.strip()]] *)
Definition valid_texts (batch : list string) : list string :=
  map Py.strip (filter (fun t => truthy t && truthy (Py.strip t)) batch).

(** One round of the loop that looks each valid text up in the
    cache; the state is (cached_embeddings, uncached_texts,
    cache_hits). *)
Definition cache_step (cache : gmap Z embedding)
    (acc : gmap string embedding * list string * nat) (t : string)
    : gmap string embedding * list string * nat :=
  let '(cached_embeddings, uncached_texts, hits) := acc in
  match cache !! hash t with
  | Some e => (<[t := e]> cached_embeddings, uncached_texts, S hits)
  | None => (cached_embeddings, uncached_texts ++ [t], hits)
  end.

Definition cache_partition (st : state) (batch : list string)
    : gmap string embedding * list string * nat :=
  fold_left (cache_step (embedding_cache st)) (valid_texts batch)
    (∅, [], cache_hits st).

(** The texts sent to the backend for a batch. *)
Definition uncached_texts (st : state) (batch : list string) : list string :=
  snd (fst (cache_partition st batch)).

(** One round of the loop over [zip(uncached_texts, response.data)];
    the state is (new_embeddings, cache, cache_misses). *)
Definition store_step
    (acc : gmap string embedding * gmap Z embedding * nat)
    (p : string * embedding)
    : gmap string embedding * gmap Z embedding * nat :=
  let '(new_embeddings, cache, misses) := acc in
  (<[fst p := snd p]> new_embeddings, <[hash (fst p) := snd p]> cache, S misses).

(** The result for one text of the batch. *)
Definition pick (cached_embeddings new_embeddings : gmap string embedding)
    (original_text : string) : embedding :=
  let t := if truthy original_text then Py.strip original_text
           else EmptyString in
  match cached_embeddings !! t with
  | Some e => e
  | None =>
      match new_embeddings !! t with
      | Some e => e
      | None => zero_vector
      end
  end.

(** [_process_batch]. The call of the backend is the one statement
    of the body that raises, and the inner [try] handles it; the
    handler of the outer [try] returns the same zero vectors as the
    first branch. *)
Definition process_batch (api : backend) (st : state) (batch : list string)
    : list embedding * state :=
  match valid_texts batch with
  | [] => (replicate (length batch) zero_vector, st)
  | _ :: _ =>
      let '(cached_embeddings, uncached, hits) := cache_partition st batch in
      let st1 := {| embedding_cache := embedding_cache st;
                    cache_hits := hits;
                    cache_misses := cache_misses st |} in
      let '(new_embeddings, cache, misses) :=
        match uncached with
        | [] => (∅, embedding_cache st1, cache_misses st1)
        | _ :: _ =>
            try_except
              (call data <- api uncached;
               Ok (fold_left store_step (zip uncached data)
                     (∅, embedding_cache st1, cache_misses st1)))
              (fold_left (fun m t => <[t := zero_vector]> m) uncached ∅,
               embedding_cache st1, cache_misses st1)
        end in
      (map (pick cached_embeddings new_embeddings) batch,
       {| embedding_cache := cache;
          cache_hits := hits;
          cache_misses := misses |})
  end.

(** The first [k] multiples of [size]: the starts of the first [k]
    batches *)
Definition batch_starts (size k : nat) : list nat :=
  map (fun i => i * size) (seq 0 k).

(** [range(0, n, step)] for a step other than zero *)
Definition range_step (n : nat) (step : Z) : list nat :=
  if (0 <? step)%Z then
    batch_starts (Z.to_nat step) ((n + Z.to_nat step - 1) / Z.to_nat step)
  else [].

(** [batch_size or self.max_batch_size] *)
Definition effective_batch_size (batch_size : option Z) : Z :=
  match batch_size with
  | Some b => if (b =? 0)%Z then max_batch_size else b
  | None => max_batch_size
  end.

(** The loop of [generate_batch_embeddings] over the batch starts;
    [client i] is the behaviour of the backend at the call made for
    the batch that starts at [i]. The pause between two batches has
    no effect on the result. *)
Fixpoint batch_loop (client : nat -> backend) (texts : list string)
    (size : nat) (starts : list nat) (embeddings : list embedding)
    (st : state) : list embedding * state :=
  match starts with
  | [] => (embeddings, st)
  | i :: rest =>
      let batch := firstn size (skipn i texts) in
      let '(batch_embeddings, st') := process_batch (client i) st batch in
      batch_loop client texts size rest (embeddings ++ batch_embeddings) st'
  end.


(** [generate_batch_embeddings] *)
Definition generate_batch_embeddings (client : nat -> backend) (st : state)
    (texts : list string) (batch_size : option Z)
    : list embedding * state :=
  match texts with
  | [] => ([], st)
  | _ :: _ =>
      let size := effective_batch_size batch_size in
      batch_loop client texts (Z.to_nat size)
        (range_step (length texts) size) [] st
  end.

End WithHash.

End EmbeddingService.

(* ================================================================== *)
(** * vector_search_service.py *)
(* ================================================================== *)

Module VectorSearchService.

Record SearchResult : Type := {
  chunk_id : option Z;
  doc_id : option string;
  content : string;
  similarity : Q;
  metadata : gmap string string;
  source : string;
  chunk_type : option string
}.

(** A row of the table document_chunks as the keyword query selects
    it: chunk_id, doc_id, chunk_text, metadata. *)
Record chunk_row : Type := {
  row_chunk_id : option Z;
  row_doc_id : option string;
  row_chunk_text : string;
  row_metadata : gmap string string
}.

(** [assistant_key and metadata.get('assistant_key') != assistant_key] *)
Definition other_assistant (assistant_key : option string)
    (md : gmap string string) : bool :=
  match assistant_key with
  | Some k => truthy k && negb (bool_decide (md !! "assistant_key" = Some k))
  | None => false
  end.

(** The body of the loop of [_keyword_search] over the rows; [None]
    is its [continue]. *)
Definition keyword_result (query : string) (assistant_key : option string)
    (item : chunk_row) : option SearchResult :=
  let content := row_chunk_text item in
  let query_lower := Py.lower query in
  let content_lower := Py.lower content in
  let keyword_count := Py.count content_lower query_lower in
  let relevance := Py.min (Py.of_nat keyword_count / 10)%Q 1.0%Q in
  if other_assistant assistant_key (row_metadata item) then None
  else
    Some {| chunk_id := row_chunk_id item;
            doc_id := row_doc_id item;
            content := content;
            similarity := relevance;
            metadata := row_metadata item;
            source := "keyword_search";
            chunk_type := None |}.

(** [_keyword_search]; [db] is the outcome of the query on the table
    (the rows whose text contains the query, limited by the store). *)
Definition keyword_search (db : outcome (list chunk_row)) (query : string)
    (assistant_key : option string) : list SearchResult :=
  try_except
    (call data <- db; Ok (omap (keyword_result query assistant_key) data))
    [].

(** ** Cosine similarity, on binary64 *)









End VectorSearchService.

(* ================================================================== *)
(** * vector_search_service_fixed.py *)
(* ================================================================== *)

Module VectorSearchServiceFixed.

Import VectorSearchService.

(** The body of the loop of [_keyword_search_document_chunks] *)
Definition keyword_chunk_result (query : string) (assistant_key : option string)
    (item : chunk_row) : option SearchResult :=
  if other_assistant assistant_key (row_metadata item) then None
  else
    let content_lower := Py.lower (row_chunk_text item) in
    let query_lower := Py.lower query in
    let matches :=
      length (filter (fun word => Py.contains word content_lower)
                     (Py.split query_lower)) in
    let similarity :=
      (Py.of_nat matches / Py.of_nat (Nat.max (length (Py.split query)) 1)
       * 0.5)%Q in
    Some {| chunk_id := row_chunk_id item;
            doc_id := row_doc_id item;
            content := row_chunk_text item;
            similarity := similarity;
            metadata := row_metadata item;
            source := "document_chunks";
            chunk_type := row_metadata item !! "chunk_type" |}.

(** [_keyword_search_document_chunks] *)
Definition keyword_search_document_chunks (db : outcome (list chunk_row))
    (query : string) (assistant_key : option string) : list SearchResult :=
  try_except
    (call data <- db; Ok (omap (keyword_chunk_result query assistant_key) data))
    [].

End VectorSearchServiceFixed.

(* ================================================================== *)
(** * rag_pipeline.py *)
(* ================================================================== *)

Module RAGPipeline.

Import VectorSearchService.

Record RAGContext : Type := {
  query : string;
  retrieved_chunks : list SearchResult;
  context_text : string;
  source_count : nat;
  confidence_score : Q;
  processing_time : Q;
  context_sources : list string;
  token_count : Z
}.

Definition max_context_tokens : Z := 3000.
Definition max_chunks_per_source : Z := 5.
Definition confidence_threshold : Q := 0.3.

Definition is_nil {A} (l : list A) : bool :=
  match l with
  | [] => true
  | _ :: _ => false
  end.

Section WithFormat.

(** [f"{x:.2f}"]: how Python prints a double with two decimals. *)
Variable format_2f : Q -> string.

(** [_format_source_info] *)
Definition format_source_info (result : SearchResult) : string :=
  let source_parts := ["Source: " +:+ source result] in
  let source_parts :=
    if bool_decide (metadata result = ∅) then source_parts
    else
      let filename :=
        match metadata result !! "filename" with
        | Some f => Some f
        | None => metadata result !! "original_filename"
        end in
      let source_parts :=
        match filename with
        | Some f =>
            if truthy f then source_parts ++ ["Document: " +:+ f]
            else source_parts
        | None => source_parts
        end in
      match metadata result !! "chunk_type" with
      | Some t =>
          if truthy t then source_parts ++ ["Type: " +:+ t] else source_parts
      | None => source_parts
      end in
  let source_parts :=
    source_parts ++ ["Relevance: " +:+ format_2f (similarity result)] in
  "[" +:+ Py.join " | " source_parts +:+ "]".

(** [_truncate_content] *)
Definition truncate_content (content : string) (max_words : Z) : string :=
  let words := Py.split content in
  if (Z.of_nat (length words) <=? max_words)%Z then content
  else Py.join " " (Py.slice_to words max_words) +:+ "... [truncated]".

(** The word count of a text times 1.3 *)
Definition approx_tokens (s : string) : Q :=
  (Py.of_nat (length (Py.split s)) * 1.3)%Q.

(** The loop of [_build_comprehensive_context] over the sorted
    results, with its two [break]s; the state is (vector_content,
    current_tokens). *)
Fixpoint add_results (max_tokens : Q) (results : list SearchResult)
    (vector_content : list string) (current_tokens : Q) : list string :=
  match results with
  | [] => vector_content
  | result :: rest =>
      if Py.le (max_tokens * 0.9)%Q current_tokens then vector_content
      else
        let source_info := format_source_info result in
        let content_block := source_info +:+ nl +:+ content result in
        let content_tokens := approx_tokens content_block in
        if Py.le (current_tokens + content_tokens)%Q max_tokens then
          add_results max_tokens rest (vector_content ++ [content_block])
            (current_tokens + content_tokens)%Q
        else
          let remaining_tokens := (max_tokens - current_tokens)%Q in
          if Py.lt 50%Q remaining_tokens then
            vector_content ++
            [truncate_content content_block
               (Py.int (remaining_tokens / 1.3)%Q)]
          else vector_content
  end.

Definition training_section_of (training_context : string) : string :=
  "EXACT TRAINING DATA:" +:+ nl +:+ training_context.

Definition separator : string :=
  nl +:+ nl +:+ "=== CONTEXT SEPARATOR ===" +:+ nl +:+ nl.

(** [_build_comprehensive_context] *)
Definition build_comprehensive_context (query training_context : string)
    (search_results : list SearchResult) (max_tokens : Z) : string :=
  let limit := inject_Z max_tokens in
  let '(context_parts, current_tokens) :=
    if truthy training_context then
      let training_section := training_section_of training_context in
      let training_tokens := approx_tokens training_section in
      if Py.le (0 + training_tokens)%Q limit
      then ([training_section], (0 + training_tokens)%Q)
      else ([], 0%Q)
    else ([], 0%Q) in
  let context_parts :=
    if negb (is_nil search_results) && Py.lt current_tokens (limit * 0.8)%Q
    then
      let sorted_results := Py.sorted_desc similarity search_results in
      let vector_content := add_results limit sorted_results [] current_tokens in
      if is_nil vector_content then context_parts
      else
        context_parts ++
        ["SEMANTIC SEARCH RESULTS:" +:+ nl +:+ Py.join (nl +:+ nl) vector_content]
    else context_parts in
  Py.join separator context_parts.

Definition weights : list Q := [0.4; 0.3; 0.2; 0.1]%Q.

(** [while len(confidence_factors) < len(weights):
       confidence_factors.append(0.0)] *)
Definition pad (factors : list Q) (n : nat) : list Q :=
  factors ++ replicate (n - length factors) 0.0%Q.

Definition simplicity_factor (query : string) : Q :=
  let query_complexity :=
    Py.min (Py.of_nat (length (Py.split query)) / 10)%Q 1.0%Q in
  (1.0 - query_complexity * 0.3)%Q.

(** The factors in the order in which the source appends them. *)
Definition confidence_factors (training_context : string)
    (search_results : list SearchResult) (query : string) : list Q :=
  let factors := if truthy training_context then [0.9%Q] else [] in
  let factors :=
    match search_results with
    | [] => factors
    | _ :: _ =>
        let top_results := firstn 5 search_results in
        let avg_similarity :=
          (Py.sum (map similarity top_results)
           / Py.of_nat (length top_results))%Q in
        let high_quality_count :=
          length (filter (fun r => Py.lt 0.8%Q (similarity r)) search_results) in
        let diversity_bonus :=
          Py.min (Py.of_nat high_quality_count / 10)%Q 0.2%Q in
        factors ++ [avg_similarity; diversity_bonus]
    end in
  factors ++ [simplicity_factor query].

(** [_calculate_confidence]. The weighted sum is carried out in [Q];
    the double that the code computes differs from it by the rounding
    of a few operations on values of at most 1. *)
Definition calculate_confidence (training_context : string)
    (search_results : list SearchResult) (query : string) : Q :=
  let factors := confidence_factors training_context search_results query in
  if is_nil factors then 0.0%Q
  else
    let factors := pad factors (length weights) in
    let factors := firstn (length weights) factors in
    let weighted_confidence := Py.sum (zip_with Qmult factors weights) in
    Py.min (Py.max weighted_confidence 0.0%Q) 1.0%Q.

(** The collaborators of [retrieve_context]. The training-data service
    is called once in the body of the [try] (call 0) and once more in
    its handler (call 1). *)
Record services : Type := {
  get_training_context :
    nat -> string -> option string -> option string -> outcome string;
  hybrid_search :
    string -> option string -> option string -> Z -> Q -> Q ->
    outcome (list SearchResult);
  semantic_search :
    string -> option string -> option string -> Z -> Q ->
    outcome (list SearchResult)
}.

(** A step of the pipeline itself may fail on data that the embedding
    does not type (a similarity that is not a number, say). *)
Record faults : Type := {
  assemble_raises : bool;
  score_raises : bool
}.

Definition step {A} (raises : bool) (v : A) : outcome A :=
  if raises then Raise else Ok v.

(** Step 2 of [retrieve_context]: hybrid search with the weights 0.7
    and 0.3, or semantic search with the threshold 0.6. *)
Definition search_documents (sv : services) (q : string)
    (assistant_key tenant_id : option string) (use_hybrid_search : bool)
    (max_chunks : Z) : outcome (list SearchResult) :=
  if use_hybrid_search
  then hybrid_search sv q assistant_key tenant_id max_chunks 0.7%Q 0.3%Q
  else semantic_search sv q assistant_key tenant_id max_chunks 0.6%Q.

(** The body of the [try] of [retrieve_context] *)
Definition retrieve_body (sv : services) (f : faults) (elapsed : Q)
    (q : string) (assistant_key tenant_id : option string)
    (use_hybrid_search : bool) (max_chunks : Z) : outcome RAGContext :=
  call training_context <- get_training_context sv 0 q assistant_key tenant_id;
  let sources := if truthy training_context then ["training_data"] else [] in
  call vector_results <-
    search_documents sv q assistant_key tenant_id use_hybrid_search max_chunks;
  let search_method := if use_hybrid_search then "hybrid" else "vector" in
  let all_results := vector_results in
  let sources :=
    if is_nil vector_results then sources else sources ++ [search_method] in
  call text <-
    step (assemble_raises f)
      (build_comprehensive_context q training_context all_results
         max_context_tokens);
  call confidence <-
    step (score_raises f)
      (calculate_confidence training_context all_results q);
  Ok {| query := q;
        retrieved_chunks := all_results;
        context_text := text;
        source_count := length all_results;
        confidence_score := confidence;
        processing_time := elapsed;
        context_sources := sources;
        token_count := Py.int (approx_tokens text) |}.

(** The handler of the [try]: the training context alone, and when
    fetching it fails too, the empty context. *)
Definition retrieve_fallback (sv : services) (elapsed : Q) (q : string)
    (assistant_key tenant_id : option string) : RAGContext :=
  try_except
    (call fallback_context <- get_training_context sv 1 q assistant_key tenant_id;
     Ok {| query := q;
           retrieved_chunks := [];
           context_text := fallback_context;
           source_count := 0;
           confidence_score := if truthy fallback_context then 0.5%Q else 0.1%Q;
           processing_time := elapsed;
           context_sources :=
             if truthy fallback_context then ["training_data_fallback"] else [];
           token_count :=
             if truthy fallback_context
             then Z.of_nat (length (Py.split fallback_context)) else 0%Z |})
    {| query := q;
       retrieved_chunks := [];
       context_text := EmptyString;
       source_count := 0;
       confidence_score := 0.0%Q;
       processing_time := elapsed;
       context_sources := [];
       token_count := 0%Z |}.

(** [retrieve_context] *)
Definition retrieve_context (sv : services) (f : faults) (elapsed : Q)
    (q : string) (assistant_key tenant_id : option string)
    (use_hybrid_search : bool) (max_chunks : Z) : RAGContext :=
  try_except
    (retrieve_body sv f elapsed q assistant_key tenant_id
       use_hybrid_search max_chunks)
    (retrieve_fallback sv elapsed q assistant_key tenant_id).

End WithFormat.

End RAGPipeline.

(* ================================================================== *)
(** * embedding_service.py: single texts, queries, statistics *)
(* ================================================================== *)

Module EmbeddingQueries.

Import EmbeddingService.

(** One call of [self.client.embeddings.create] on a single text: the
    embedding of [response.data[0]], or an exception. *)
Definition single_backend : Type := string -> outcome embedding.

Section WithHash.

Variable hash : string -> Z.

(** [generate_embedding] *)
Definition generate_embedding (api : single_backend) (st : state)
    (text : string) : embedding * state :=
  if negb (truthy text) || negb (truthy (Py.strip text)) then (zero_vector, st)
  else
    let text_hash := hash (Py.strip text) in
    match embedding_cache st !! text_hash with
    | Some e =>
        (e, {| embedding_cache := embedding_cache st;
               cache_hits := S (cache_hits st);
               cache_misses := cache_misses st |})
    | None =>
        try_except
          (call e <- api (Py.strip text);
           Ok (e, {| embedding_cache := <[text_hash := e]> (embedding_cache st);
                     cache_hits := cache_hits st;
                     cache_misses := S (cache_misses st) |}))
          (zero_vector, st)
    end.

(** The words that [embed_query] removes from a query *)
Definition question_words : list string :=
  ["what"; "who"; "when"; "where"; "why"; "how"; "is"; "are"; "the"].

(** [filtered_words] of [embed_query] *)
Definition filtered_words (query : string) : list string :=
  filter (fun word => negb (bool_decide (word ∈ question_words)))
         (Py.split (Py.lower (Py.strip query))).

(** [final_query] of [embed_query]: the query itself when the filter
    leaves less than 0.3 of its words *)
Definition final_query (query : string) : string :=
  let query_words := Py.split (Py.lower (Py.strip query)) in
  if Py.lt (Py.of_nat (length (filtered_words query)))
           (Py.of_nat (length query_words) * 0.3)%Q
  then query
  else Py.join " " (filtered_words query).

(** [embed_query] *)
Definition embed_query (api : single_backend) (st : state) (query : string)
    : embedding * state :=
  generate_embedding api st (final_query query).

End WithHash.

(** The dictionary that [get_cache_stats] returns *)
Record cache_stats : Type := {
  stat_cache_hits : nat;
  stat_cache_misses : nat;
  hit_rate : Q;
  cache_size : nat
}.

(** [round(x, 2)] on the rational [x], ties to even *)
Definition round2 (x : Q) : Q :=
  (inject_Z (Py.round_half_even (x * 100)) / 100)%Q.

(** [get_cache_stats] *)
Definition get_cache_stats (st : state) : cache_stats :=
  let total_requests := cache_hits st + cache_misses st in
  let rate :=
    if 0 <? total_requests
    then (Py.of_nat (cache_hits st) / Py.of_nat total_requests * 100)%Q
    else 0%Q in
  {| stat_cache_hits := cache_hits st;
     stat_cache_misses := cache_misses st;
     hit_rate := round2 rate;
     cache_size := size (embedding_cache st) |}.

(** [clear_cache] *)
Definition clear_cache (st : state) : state :=
  {| embedding_cache := ∅; cache_hits := 0; cache_misses := 0 |}.

End EmbeddingQueries.

(* ================================================================== *)
(** * chunk_processor.py: statistics *)
(* ================================================================== *)

Module ChunkStatistics.

Import ChunkProcessor.

Record summary : Type := {
  total_chunks : nat;
  avg_tokens_per_chunk : Q;
  min_tokens : Q;
  max_tokens : Q;
  chunk_types : gmap string nat;
  total_tokens : Q
}.

(** What [get_chunk_statistics] returns: the dictionary with the one key
    total_chunks, at 0, for no chunks, the full dictionary otherwise. *)
Inductive statistics : Type :=
  | NoChunks
  | Summary (s : summary).

(** [min(l)] and [max(l)] of a list that starts with [x] *)
Definition min_list (x : Q) (l : list Q) : Q :=
  fold_left (fun m y => if Py.lt y m then y else m) l x.

Definition max_list (x : Q) (l : list Q) : Q :=
  fold_left (fun m y => if Py.lt m y then y else m) l x.

(** The loop that counts the chunk types *)
Definition count_types (types : list string) : gmap string nat :=
  fold_left (fun counts t => <[t := default 0 (counts !! t) + 1]> counts)
            types ∅.

(** [get_chunk_statistics]. The minimum and the maximum are token
    counts of chunks, found by comparisons; the sum and the average
    are carried out in [Q], and the doubles that the code computes
    differ from them by rounding. *)
Definition get_chunk_statistics (chunks : list DocumentChunk) : statistics :=
  match map token_count chunks with
  | [] => NoChunks
  | first :: others =>
      let token_counts := first :: others in
      Summary {|
        total_chunks := length chunks;
        avg_tokens_per_chunk :=
          (Py.sum token_counts / Py.of_nat (length token_counts))%Q;
        min_tokens := min_list first others;
        max_tokens := max_list first others;
        chunk_types := count_types (map chunk_type chunks);
        total_tokens := Py.sum token_counts
      |}
  end.

End ChunkStatistics.

(* ================================================================== *)
(** * vector_search_service.py: semantic and hybrid search *)
(* ================================================================== *)

Module HybridSearch.

Import VectorSearchService EmbeddingService EmbeddingQueries.

(** The key of [combined_map]: [(result.chunk_id, result.doc_id)] *)
Definition result_key : Type := (option Z * option string)%type.

Definition key_of (r : SearchResult) : result_key := (chunk_id r, doc_id r).

(** A value of [combined_map] *)
Record scored : Type := {
  hit : SearchResult;
  vector_score : Q;
  keyword_score : Q
}.

(** [combined_map] is a dictionary read in the order in which its keys
    were first set. *)
Definition ordered_dict : Type := list (result_key * scored).

(** [d.get(k)] *)
Fixpoint dict_get (k : result_key) (d : ordered_dict) : option scored :=
  match d with
  | [] => None
  | (k', v) :: d' => if bool_decide (k = k') then Some v else dict_get k d'
  end.

(** [d[k] = v]: a key that is there keeps its place. *)
Fixpoint dict_set (k : result_key) (v : scored) (d : ordered_dict)
    : ordered_dict :=
  match d with
  | [] => [(k, v)]
  | (k', v') :: d' =>
      if bool_decide (k = k') then (k, v) :: d'
      else (k', v') :: dict_set k v d'
  end.

(** One round of the loop over the vector results *)
Definition add_vector_result (d : ordered_dict) (result : SearchResult)
    : ordered_dict :=
  dict_set (key_of result)
    {| hit := result; vector_score := similarity result;
       keyword_score := 0.0 |} d.

(** One round of the loop over the keyword results *)
Definition add_keyword_result (d : ordered_dict) (result : SearchResult)
    : ordered_dict :=
  match dict_get (key_of result) d with
  | Some data =>
      dict_set (key_of result)
        {| hit := hit data; vector_score := vector_score data;
           keyword_score := similarity result |} d
  | None =>
      dict_set (key_of result)
        {| hit := result; vector_score := 0.0;
           keyword_score := similarity result |} d
  end.

(** [combined_map] after both loops *)
Definition combined_map (vector_results keyword_results : list SearchResult)
    : ordered_dict :=
  fold_left add_keyword_result keyword_results
    (fold_left add_vector_result vector_results []).

Definition combined_score (vector_weight keyword_weight : Q) (data : scored)
    : Q :=
  (vector_score data * vector_weight + keyword_score data * keyword_weight)%Q.

(** A row that the stored function match_document_chunks returns *)
Record match_row : Type := {
  match_chunk_id : option Z;
  match_doc_id : option string;
  match_chunk_text : string;
  match_similarity : Q;
  match_metadata : gmap string string
}.

(** The parameters of the call of match_document_chunks; a filter is
    sent when its value is not empty. *)
Record rpc_params : Type := {
  rpc_query_embedding : embedding;
  rpc_match_threshold : Q;
  rpc_match_count : Z;
  rpc_tenant_filter : option string;
  rpc_assistant_key_filter : option string
}.

Definition given (o : option string) : option string :=
  match o with
  | Some s => if truthy s then Some s else None
  | None => None
  end.

(** The body of the loop of [_search_document_chunks] over the rows *)
Definition document_result (assistant_key : option string) (item : match_row)
    : option SearchResult :=
  if other_assistant assistant_key (match_metadata item) then None
  else
    Some {| chunk_id := match_chunk_id item;
            doc_id := match_doc_id item;
            content := match_chunk_text item;
            similarity := match_similarity item;
            metadata := match_metadata item;
            source := "document_chunks";
            chunk_type := match_metadata item !! "chunk_type" |}.

(** [_search_document_chunks] *)
Definition search_document_chunks (rpc : rpc_params -> outcome (list match_row))
    (query_embedding : embedding) (assistant_key tenant_id : option string)
    (limit : Z) (similarity_threshold : Q) : list SearchResult :=
  try_except
    (call data <-
       rpc {| rpc_query_embedding := query_embedding;
              rpc_match_threshold := similarity_threshold;
              rpc_match_count := limit;
              rpc_tenant_filter := given tenant_id;
              rpc_assistant_key_filter := given assistant_key |};
     Ok (omap (document_result assistant_key) data))
    [].

Definition default_similarity_threshold : Q := 0.7.

(** [x == 0.0] *)
Definition is_zero (x : Q) : bool := Qeq_bool x 0.

(** [similarity_threshold or self.default_similarity_threshold] *)
Definition effective_threshold (similarity_threshold : option Q) : Q :=
  match similarity_threshold with
  | Some t => if is_zero t then default_similarity_threshold else t
  | None => default_similarity_threshold
  end.

(** [search_sources or ['document_chunks']] *)
Definition effective_sources (search_sources : option (list string))
    : list string :=
  match search_sources with
  | Some (s :: l) => s :: l
  | _ => ["document_chunks"]
  end.

Section WithServices.

(** Python's [hash], the embedding backend at the call for the query,
    the stored function match_document_chunks, and
    [_search_training_data], whose similarities are cosines. *)
Variable hash : string -> Z.
Variable api : single_backend.
Variable rpc : rpc_params -> outcome (list match_row).
Variable search_training_data :
  embedding -> option string -> option string -> Z -> Q -> list SearchResult.

(** How a float is shown as a value of a metadata dictionary *)
Variable render : Q -> string.

(** [semantic_search]; every statement of its [try] returns. *)
Definition semantic_search (st : state) (query : string)
    (assistant_key tenant_id : option string) (limit : Z)
    (similarity_threshold : option Q) (search_sources : option (list string))
    : list SearchResult * state :=
  let '(query_embedding, st') := embed_query hash api st query in
  if RAGPipeline.is_nil query_embedding || forallb is_zero query_embedding
  then ([], st')
  else
    let threshold := effective_threshold similarity_threshold in
    let sources := effective_sources search_sources in
    let doc_results :=
      if bool_decide ("document_chunks" ∈ sources)
      then search_document_chunks rpc query_embedding assistant_key tenant_id
             (limit * 2) threshold
      else [] in
    let training_results :=
      if bool_decide ("training_data" ∈ sources)
      then search_training_data query_embedding assistant_key tenant_id
             limit threshold
      else [] in
    let all_results := doc_results ++ training_results in
    (Py.slice_to (Py.sorted_desc similarity all_results) limit, st').

(** The result that [_combine_search_results] makes of a value of
    [combined_map] *)
Definition final_result (vector_weight keyword_weight : Q) (data : scored)
    : SearchResult :=
  {| chunk_id := chunk_id (hit data);
     doc_id := doc_id (hit data);
     content := content (hit data);
     similarity := combined_score vector_weight keyword_weight data;
     metadata :=
       <["search_method" := "hybrid"]>
         (<["keyword_score" := render (keyword_score data)]>
            (<["vector_score" := render (vector_score data)]>
               (metadata (hit data))));
     source := "hybrid_search";
     chunk_type := chunk_type (hit data) |}.

(** [_combine_search_results] *)
Definition combine_search_results
    (vector_results keyword_results : list SearchResult)
    (vector_weight keyword_weight : Q) : list SearchResult :=
  Py.sorted_desc similarity
    (map (fun p => final_result vector_weight keyword_weight (snd p))
         (combined_map vector_results keyword_results)).

(** [hybrid_search]; [db] is the outcome of the keyword query. Both
    legs and the combination return, so the handler of the [try] is not
    entered. *)
Definition hybrid_search (db : outcome (list chunk_row)) (st : state)
    (query : string) (assistant_key tenant_id : option string) (limit : Z)
    (vector_weight keyword_weight : Q) : list SearchResult * state :=
  let '(vector_results, st') :=
    semantic_search st query assistant_key tenant_id (limit * 2)
      (Some 0.5%Q) None in
  let keyword_results := keyword_search db query assistant_key in
  let combined_results :=
    combine_search_results vector_results keyword_results
      vector_weight keyword_weight in
  (Py.slice_to combined_results limit, st').

(** [search_similar_chunks]; [api0] is the embedding backend at the
    call for the reference text, whose result is not used. *)
Definition search_similar_chunks (api0 : single_backend) (st : state)
    (reference_text : string) (assistant_key tenant_id : option string)
    (limit : Z) (exclude_doc_id : option string)
    : list SearchResult * state :=
  let '(reference_embedding, st0) :=
    generate_embedding hash api0 st reference_text in
  let '(results, st') :=
    semantic_search st0 reference_text assistant_key tenant_id (limit + 5)
      (Some 0.6%Q) None in
  let results :=
    match given exclude_doc_id with
    | Some d =>
        List.filter (fun r => negb (bool_decide (doc_id r = Some d))) results
    | None => results
    end in
  (Py.slice_to results limit, st').

End WithServices.

End HybridSearch.

(* ================================================================== *)
(** * Words *)
(* ================================================================== *)

Module Words.

(** A text without white space *)
Fixpoint no_space (s : string) : bool :=
  match s with
  | EmptyString => true
  | String c s' => negb (Py.isspace c) && no_space s'
  end.

(** What [str.split] yields: a text that is not empty and holds no
    white space *)
Definition is_word (w : string) : bool := truthy w && no_space w.

(** A text whose characters are all in the class [p] *)
Fixpoint all_chars (p : ascii -> bool) (s : string) : bool :=
  match s with
  | EmptyString => true
  | String c s' => p c && all_chars p s'
  end.

(** A character that is the space or no white space: what
    [re.sub(r'\s+', ' ', text)] leaves *)
Definition inline_char (c : ascii) : bool :=
  negb (Py.isspace c) || Py.is_char c " "%char.

End Words.

(* ================================================================== *)
(** * Orders *)
(* ================================================================== *)

Module Orders.

(** A list whose keys never grow from an element to a later one *)
Definition descending {A} (key : A -> Q) : list A -> Prop :=
  StronglySorted (fun a b => (key b <= key a)%Q).

End Orders.

(* ================================================================== *)
(** * What the fusion records *)
(* ================================================================== *)

Module Fusion.

Import VectorSearchService HybridSearch.

(** The score [s] that an entry of key [k] holds for one leg: the
    similarity of a result of that leg with the key [k], or 0.0 when
    the leg has no result of that key. *)
Definition leg_score (leg : list SearchResult) (k : result_key) (s : Q)
    : Prop :=
  (exists r, r ∈ leg /\ key_of r = k /\ s = similarity r) \/
  (s = 0.0%Q /\ k ∉ key_of <$> leg).

(** An entry of [combined_map] for the two legs *)
Definition entry_ok (vector_results keyword_results : list SearchResult)
    (p : result_key * scored) : Prop :=
  key_of (hit p.2) = p.1 /\
  hit p.2 ∈ vector_results ++ keyword_results /\
  leg_score vector_results p.1 (vector_score p.2) /\
  leg_score keyword_results p.1 (keyword_score p.2).

(** The state of [combined_map] in terms of the results read so far:
    one entry for each key of the two legs. *)
Definition map_ok (vs ks : list SearchResult) (d : ordered_dict) : Prop :=
  NoDup d.*1 /\
  (forall k, k ∈ d.*1 <-> k ∈ key_of <$> (vs ++ ks)) /\
  Forall (entry_ok vs ks) d.

End Fusion.

(* ================================================================== *)
(** * rag_pipeline.py: document upload *)
(* ================================================================== *)

Module Ingestion.

Import ChunkProcessor EmbeddingService.

Record RAGProcessingResult : Type := {
  success : bool;
  doc_id : option string;
  filename : string;
  chunks_created : nat;
  chunks_stored : nat;
  embeddings_generated : nat;
  processing_time : Q;
  error_message : option string
}.

(** The record that [_store_document_with_chunks] inserts into the
    table documents *)
Record document_row : Type := {
  row_filename : string;
  row_tenant_id : option string;
  row_user_id : option string;
  row_file_size : nat;
  row_file_type : string;
  row_content_preview : string;
  row_chunks_count : nat;
  row_metadata : gmap string string;
  row_is_processed : bool;
  row_processing_status : string
}.

(** A record that it inserts into the table document_chunks *)
Record chunk_record : Type := {
  rec_doc_id : string;
  rec_tenant_id : option string;
  rec_chunk_text : string;
  rec_chunk_index : nat;
  rec_embedding : embedding;
  rec_metadata : gmap string string
}.

(** The store. [insert_document] answers with the doc_id of each row
    of [doc_result.data], or raises (a row without doc_id counts as
    raising); [insert_chunks i records] is the insert of the batch that
    starts at [i] and answers with the number of rows of
    [batch_result.data], or raises. *)
Record store : Type := {
  insert_document : document_row -> outcome (list string);
  insert_chunks : nat -> list chunk_record -> outcome nat
}.

Definition storage_batch_size : Z := 50.

Definition is_dot (c : ascii) : bool := Py.is_char c "."%char.

(** [s[:n]] on a text *)
Definition prefix (n : nat) (s : string) : string := substring 0 n s.

(** [file_type or filename.split('.')[-1].lower()] *)
Definition effective_file_type (file_type : option string) (name : string)
    : string :=
  let extension :=
    Py.lower (List.last (Re.split_chars is_dot EmptyString name) EmptyString) in
  match file_type with
  | Some t => if truthy t then t else extension
  | None => extension
  end.

Section WithServices.

(** The tokenizer, Python's [hash], the embedding backend at the call
    for the batch that starts at [i], and the store. *)
Variable encoding : option (string -> outcome nat).
Variable hash : string -> Z.
Variable client : nat -> backend.
Variable db : store.

(** How a number is shown as a value of a metadata dictionary *)
Variable show_float : Q -> string.
Variable show_int : nat -> string.

(** [_chunk_document]; [now] is [datetime.now().isoformat()]. *)
Definition chunk_document (now content name assistant_key : string)
    : list DocumentChunk :=
  let metadata : gmap string string :=
    <["filename" := name]>
      (<["assistant_key" := assistant_key]>
         (<["processed_at" := now]> ∅)) in
  smart_chunk_document encoding content (Some metadata).

Definition document_row_of (now : string) (chunks : list DocumentChunk)
    (name content assistant_key : string) (tenant_id file_type : option string)
    : document_row :=
  {| row_filename := name;
     row_tenant_id := tenant_id;
     row_user_id := tenant_id;
     row_file_size := String.length content;
     row_file_type := effective_file_type file_type name;
     row_content_preview := prefix 1000 content;
     row_chunks_count := length chunks;
     row_metadata :=
       <["assistant_key" := assistant_key]>
         (<["processed_at" := now]>
            (<["processing_method" := "rag_pipeline"]> ∅));
     row_is_processed := true;
     row_processing_status := "completed" |}.

Definition chunk_record_of (new_doc_id : string) (tenant_id : option string)
    (chunk : DocumentChunk) (e : embedding) : chunk_record :=
  {| rec_doc_id := new_doc_id;
     rec_tenant_id := tenant_id;
     rec_chunk_text := text chunk;
     rec_chunk_index := chunk_index chunk;
     rec_embedding := e;
     rec_metadata :=
       <["end_char" := show_int (end_char chunk)]>
         (<["start_char" := show_int (start_char chunk)]>
            (<["token_count" := show_float (token_count chunk)]>
               (<["chunk_type" := chunk_type chunk]> (metadata chunk)))) |}.

(** The loop over the batches of 50 chunks; an insert that raises
    ends it. *)
Fixpoint store_loop (new_doc_id : string) (tenant_id : option string)
    (chunks : list DocumentChunk) (embeddings : list embedding)
    (starts : list nat) (stored_count : nat) : outcome nat :=
  match starts with
  | [] => Ok stored_count
  | i :: rest =>
      let size := Z.to_nat storage_batch_size in
      let batch_chunks := firstn size (skipn i chunks) in
      let batch_embeddings := firstn size (skipn i embeddings) in
      let chunk_records :=
        zip_with (chunk_record_of new_doc_id tenant_id)
                 batch_chunks batch_embeddings in
      call n <- insert_chunks db i chunk_records;
      store_loop new_doc_id tenant_id chunks embeddings rest (stored_count + n)
  end.

(** [_store_document_with_chunks] *)
Definition store_document_with_chunks (now : string)
    (chunks : list DocumentChunk) (embeddings : list embedding)
    (name content assistant_key : string) (tenant_id file_type : option string)
    : option string * nat :=
  try_except
    (call rows <-
       insert_document db
         (document_row_of now chunks name content assistant_key tenant_id
            file_type);
     match rows with
     | [] => Raise
     | new_doc_id :: _ =>
         call stored_count <-
           store_loop new_doc_id tenant_id chunks embeddings
             (range_step (length chunks) storage_batch_size) 0;
         Ok (Some new_doc_id, stored_count)
     end)
    (None, 0).

(** [any(x != 0.0 for x in e)] *)
Definition nonzero (e : embedding) : bool :=
  existsb (fun x => negb (Qeq_bool x 0)) e.

(** [process_document_upload]; [now_chunking] and [now_storing] are
    the two readings of the clock for the metadata, [elapsed] the
    seconds between start and end. Chunking, embedding and storing
    return, so the handler of the [try] is not entered. *)
Definition process_document_upload (now_chunking now_storing : string)
    (elapsed : Q) (st : state) (content name assistant_key : string)
    (tenant_id file_type : option string) : RAGProcessingResult * state :=
  match chunk_document now_chunking content name assistant_key with
  | [] =>
      ({| success := false;
          doc_id := None;
          filename := name;
          chunks_created := 0;
          chunks_stored := 0;
          embeddings_generated := 0;
          processing_time := 0.0;
          error_message := Some "No chunks created from document" |}, st)
  | first :: others =>
      let chunks := first :: others in
      let chunk_texts := map text chunks in
      let '(embeddings, st') :=
        generate_batch_embeddings hash client st chunk_texts None in
      let '(new_doc_id, stored_count) :=
        store_document_with_chunks now_storing chunks embeddings name content
          assistant_key tenant_id file_type in
      ({| success := true;
          doc_id := new_doc_id;
          filename := name;
          chunks_created := length chunks;
          chunks_stored := stored_count;
          embeddings_generated := length (List.filter nonzero embeddings);
          processing_time := elapsed;
          error_message := None |}, st')
  end.

End WithServices.

End Ingestion.

(* ================================================================== *)
(** * The blocks of the assembled context *)
(* ================================================================== *)

Module ContextBlocks.

Import VectorSearchService RAGPipeline.

(** [content_block] of the loop of [_build_comprehensive_context]: the
    source line of a result, a line break, its content *)
Definition content_block (format_2f : Q -> string) (result : SearchResult)
    : string :=
  format_source_info format_2f result +:+ nl +:+ content result.

(** [current_tokens] of the loop after the blocks of the first [k]
    results were added to [current_tokens] at its start *)
Definition tokens_after (format_2f : Q -> string)
    (results : list SearchResult) (current_tokens : Q) (k : nat) : Q :=
  fold_left Qplus
    (map (fun r => approx_tokens (content_block format_2f r))
         (firstn k results))
    current_tokens.

End ContextBlocks.

(* ================================================================== *)
(** * Reference definitions that follow the specification *)
(* ================================================================== *)

Module Specification.

Import VectorSearchService RAGPipeline.

(** The four factor slots in their fixed order: presence of exact
    training data, average similarity of the top five results,
    diversity bonus, simplicity of the query. A factor that is missing
    is 0 in its own slot. The value of a factor that is present is the
    one the source computes; the slots are the specification's. *)
Definition slot_factors (training_context : string)
    (search_results : list SearchResult) (query : string) : list Q :=
  let exact := if truthy training_context then 0.9%Q else 0%Q in
  let top_results := firstn 5 search_results in
  let average :=
    if is_nil search_results then 0%Q
    else (Py.sum (map similarity top_results)
          / Py.of_nat (length top_results))%Q in
  let diversity :=
    if is_nil search_results then 0%Q
    else Py.min
           (Py.of_nat (length (filter (fun r => Py.lt 0.8%Q (similarity r))
                                      search_results)) / 10)%Q 0.2%Q in
  [exact; average; diversity; simplicity_factor query].

(** The weighted sum over the four slots, clamped to [0, 1]. *)
Definition slotted_confidence (training_context : string)
    (search_results : list SearchResult) (query : string) : Q :=
  Py.min
    (Py.max
       (Py.sum (zip_with Qmult
                  (slot_factors training_context search_results query)
                  weights))
       0.0%Q)
    1.0%Q.





End Specification.

(* ================================================================== *)
(** * Sample inputs *)
(* ================================================================== *)

Module Samples.

Import VectorSearchService RAGPipeline.

(** [n] words, one space between two of them *)
Fixpoint words (n : nat) : string :=
  match n with
  | 0 => EmptyString
  | S k =>
      match k with
      | 0 => "w"
      | S _ => "w " +:+ words k
      end
  end.

(** Collaborators that find nothing: no training data, no search
    result. *)
Definition empty_services : services := {|
  get_training_context := fun _ _ _ _ => Ok EmptyString;
  hybrid_search := fun _ _ _ _ _ _ => Ok [];
  semantic_search := fun _ _ _ _ _ => Ok []
|}.

(** Collaborators that are down: every call raises. *)
Definition failing_services : services := {|
  get_training_context := fun _ _ _ _ => Raise;
  hybrid_search := fun _ _ _ _ _ _ => Raise;
  semantic_search := fun _ _ _ _ _ => Raise
|}.

Definition no_faults : faults :=
  {| assemble_raises := false; score_raises := false |}.

(** A formatter for the samples: the rational rounded to two
    decimals, ties to even. On the similarities of the samples it
    prints what Python prints for the double (0.90 for 0.9). *)
Definition digits (n : Z) : string :=
  NilZero.string_of_uint (N.to_uint (Z.to_N n)).

Definition two_digits (n : Z) : string :=
  if (n <? 10)%Z then "0" +:+ digits n else digits n.

Definition two_decimals (x : Q) : string :=
  let n := Py.round_half_even (Qabs x * 100) in
  (if Py.lt x 0 then "-" else "") +:+
  digits (n / 100) +:+ "." +:+ two_digits (n mod 100).

Definition passage : SearchResult := {|
  chunk_id := Some 1%Z;
  doc_id := Some "doc-1";
  content := "retrieved passage";
  similarity := 0.9%Q;
  metadata := ∅;
  source := "hybrid_search";
  chunk_type := None
|}.

(** Training data of 2400 words, and one retrieved passage *)
Definition large_training : string := words 2400.

Definition large_training_services : services := {|
  get_training_context := fun _ _ _ _ => Ok large_training;
  hybrid_search := fun _ _ _ _ _ _ => Ok [passage];
  semantic_search := fun _ _ _ _ _ => Ok [passage]
|}.

(** Training data is there, the search fails. *)
Definition search_down_services : services := {|
  get_training_context := fun _ _ _ _ => Ok "Q: hours? A: nine to five";
  hybrid_search := fun _ _ _ _ _ _ => Raise;
  semantic_search := fun _ _ _ _ _ => Raise
|}.

(** Three sentences of 190 words each: 247 tokens a sentence at 1.3
    tokens a word, 190 at one token a word. *)
Definition sentence : string := words 190.
Definition last_sentence : string := words 190 +:+ ".".
Definition three_sentences : string :=
  sentence +:+ ". " +:+ sentence +:+ ". " +:+ last_sentence.

(** A sentence of 10 words, then one of 390 words. *)
Definition short_then_long : string :=
  words 10 +:+ ". " +:+ words 390 +:+ ".".

(** A tokenizer that yields one token a word. *)
Definition word_tokenizer : option (string -> outcome nat) :=
  Some (fun s => Ok (length (Py.split s))).

(** A stored chunk that holds the word tea ten times. *)
Definition tea_row : chunk_row := {|
  row_chunk_id := Some 7%Z;
  row_doc_id := Some "doc-1";
  row_chunk_text :=
    "Tea: green tea, black tea, white tea, mint tea, iced tea, " +:+
    "chai tea, herbal tea, oolong tea, tea.";
  row_metadata := ∅
|}.

(** A hash without collisions *)
Definition sample_hash (s : string) : Z := Z.pos (encode s).

Definition ones : EmbeddingService.embedding :=
  replicate EmbeddingService.dimensions 1%Q.

Definition empty_state : EmbeddingService.state := {|
  EmbeddingService.embedding_cache := ∅;
  EmbeddingService.cache_hits := 0;
  EmbeddingService.cache_misses := 0
|}.




End Samples.

(* ================================================================== *)
(** * Further sample data *)
(* ================================================================== *)

Module MoreSamples.

Import VectorSearchService RAGPipeline.

(** Training data answers the question, the search finds nothing. *)
Definition exact_only_services : services := {|
  get_training_context := fun _ _ _ _ => Ok "Q: hours? A: nine to five";
  hybrid_search := fun _ _ _ _ _ _ => Ok [];
  semantic_search := fun _ _ _ _ _ => Ok []
|}.

(** A result that has nothing in common with the query, and a query
    of ten words *)
Definition cold_passage : SearchResult := {|
  chunk_id := Some 2%Z;
  doc_id := Some "doc-2";
  content := "unrelated passage";
  similarity := 0%Q;
  metadata := ∅;
  source := "hybrid_search";
  chunk_type := None
|}.

Definition ten_words : string :=
  "when does the shop on the main square open today".

(** A result of 100 words *)
Definition long_passage : SearchResult := {|
  chunk_id := Some 3%Z;
  doc_id := Some "doc-3";
  content := Samples.words 100;
  similarity := 0.8%Q;
  metadata := ∅;
  source := "hybrid_search";
  chunk_type := None
|}.

(** A backend that answers every text of a request *)
Definition answering_backend : EmbeddingService.backend :=
  fun request => Ok (map (fun _ => Samples.ones) request).

(** A backend for single texts that answers, and one that is down *)
Definition answering_single : EmbeddingQueries.single_backend :=
  fun _ => Ok Samples.ones.

Definition failing_single : EmbeddingQueries.single_backend :=
  fun _ => Raise.

(** A store whose vector function is down *)
Definition rpc_down
    : HybridSearch.rpc_params -> outcome (list HybridSearch.match_row) :=
  fun _ => Raise.

(** A store whose vector function returns four chunks of three
    documents, in no order; the chunk 7 of doc-1 is the one that
    holds the word tea ten times. *)
Definition match_rows : list HybridSearch.match_row := [
  {| HybridSearch.match_chunk_id := Some 11%Z;
     HybridSearch.match_doc_id := Some "doc-1";
     HybridSearch.match_chunk_text := "opening hours of the tea room";
     HybridSearch.match_similarity := 0.6%Q;
     HybridSearch.match_metadata := ∅ |};
  {| HybridSearch.match_chunk_id := Some 12%Z;
     HybridSearch.match_doc_id := Some "doc-2";
     HybridSearch.match_chunk_text := "how green tea is made";
     HybridSearch.match_similarity := 0.9%Q;
     HybridSearch.match_metadata := ∅ |};
  {| HybridSearch.match_chunk_id := Some 7%Z;
     HybridSearch.match_doc_id := Some "doc-1";
     HybridSearch.match_chunk_text := row_chunk_text Samples.tea_row;
     HybridSearch.match_similarity := 0.8%Q;
     HybridSearch.match_metadata := ∅ |};
  {| HybridSearch.match_chunk_id := Some 13%Z;
     HybridSearch.match_doc_id := Some "doc-3";
     HybridSearch.match_chunk_text := "the history of tea";
     HybridSearch.match_similarity := 0.7%Q;
     HybridSearch.match_metadata := ∅ |}
].

Definition rpc_up
    : HybridSearch.rpc_params -> outcome (list HybridSearch.match_row) :=
  fun _ => Ok match_rows.

(** A stored chunk that holds the word tea once *)
Definition mint_row : chunk_row := {|
  row_chunk_id := Some 8%Z;
  row_doc_id := Some "doc-2";
  row_chunk_text := "Mint tea is served hot.";
  row_metadata := ∅
|}.

(** No training data with embeddings *)
Definition no_training_search
    : EmbeddingService.embedding -> option string -> option string -> Z -> Q ->
      list SearchResult :=
  fun _ _ _ _ _ => [].

(** Scores are not shown *)
Definition render_blank : Q -> string := fun _ => EmptyString.

(** Three chunks, as the chunker hands them on *)
Definition chunk_of (i : nat) (tokens : Q) (kind body : string)
    : ChunkProcessor.DocumentChunk := {|
  ChunkProcessor.text := body;
  ChunkProcessor.chunk_index := i;
  ChunkProcessor.token_count := tokens;
  ChunkProcessor.metadata := ∅;
  ChunkProcessor.chunk_type := kind;
  ChunkProcessor.start_char := 0;
  ChunkProcessor.end_char := String.length body
|}.

Definition three_chunks : list ChunkProcessor.DocumentChunk := [
  chunk_of 0 75.5 "general" "the tea room and its hours";
  chunk_of 1 60 "qa_pair" "Q: hours? A: nine to five";
  chunk_of 2 120 "general" "the history of the tea room"
].

(** A store that is down, and one that stores what it is given *)
Definition store_down : Ingestion.store := {|
  Ingestion.insert_document := fun _ => Raise;
  Ingestion.insert_chunks := fun _ _ => Raise
|}.


(** An embedding backend that answers every batch *)
Definition answering_client : nat -> EmbeddingService.backend :=
  fun _ => answering_backend.

End MoreSamples.

(* ================================================================== *)
(** * Properties *)
(* ================================================================== *)

(** ** Comparisons and clamping in [Q] *)

Section PyNumbers.

Lemma le_spec (x y : Q) : Py.le x y = true <-> (x <= y)%Q.
Proof. unfold Py.le. apply Qle_bool_iff. Qed.

Lemma lt_spec (x y : Q) : Py.lt x y = true <-> (x < y)%Q.
Proof.
  unfold Py.lt. rewrite negb_true_iff. split.
  - intros H. apply Qnot_le_lt. intros Hle.
    apply Qle_bool_iff in Hle. congruence.
  - intros H. destruct (Qle_bool y x) eqn:E; [|reflexivity].
    apply Qle_bool_iff in E. exfalso. exact (Qlt_not_le _ _ H E).
Qed.

Lemma lt_false (x y : Q) : Py.lt x y = false <-> (y <= x)%Q.
Proof.
  split.
  - intros H. apply Qnot_lt_le. intros Hlt. apply lt_spec in Hlt. congruence.
  - intros H. destruct (Py.lt x y) eqn:E; [|reflexivity].
    apply lt_spec in E. exfalso. exact (Qlt_not_le _ _ E H).
Qed.

Lemma min_cases (a b : Q) :
  (Py.min a b = a /\ (a <= b)%Q) \/ (Py.min a b = b /\ (b < a)%Q).
Proof.
  unfold Py.min. destruct (Py.lt b a) eqn:E.
  - right. split; [reflexivity|]. now apply lt_spec.
  - left. split; [reflexivity|]. now apply lt_false.
Qed.

Lemma max_cases (a b : Q) :
  (Py.max a b = a /\ (b <= a)%Q) \/ (Py.max a b = b /\ (a < b)%Q).
Proof.
  unfold Py.max. destruct (Py.lt a b) eqn:E.
  - right. split; [reflexivity|]. now apply lt_spec.
  - left. split; [reflexivity|]. now apply lt_false.
Qed.

Lemma clamp_bounds (w : Q) :
  (0 <= Py.min (Py.max w 0.0) 1.0 <= 1)%Q.
Proof.
  destruct (max_cases w 0.0%Q) as [[-> Hm]|[-> Hm]];
    destruct (min_cases w 1.0%Q) as [[Hn ?]|[Hn ?]];
    destruct (min_cases 0.0%Q 1.0%Q) as [[Hz ?]|[Hz ?]];
    rewrite ?Hn, ?Hz; split; Lqa.lra.
Qed.

Lemma clamp_id (w : Q) :
  (0 <= w <= 1)%Q -> (Py.min (Py.max w 0.0) 1.0 == w)%Q.
Proof.
  intros [H0 H1].
  destruct (max_cases w 0.0%Q) as [[-> Hm]|[-> Hm]].
  - destruct (min_cases w 1.0%Q) as [[-> ?]|[-> ?]]; Lqa.lra.
  - destruct (min_cases 0.0%Q 1.0%Q) as [[-> ?]|[-> ?]]; Lqa.lra.
Qed.

Lemma of_nat_nonneg (n : nat) : (0 <= Py.of_nat n)%Q.
Proof.
  unfold Py.of_nat, Qle. simpl. lia.
Qed.

End PyNumbers.

(** ** The confidence score *)

Section Confidence.

Import VectorSearchService RAGPipeline Specification.

Lemma simplicity_bounds (q : string) :
  (0.7 <= simplicity_factor q <= 1)%Q.
Proof.
  unfold simplicity_factor.
  assert (Hd : (0 <= Py.of_nat (length (Py.split q)) / 10)%Q).
  { apply Qle_shift_div_l; [reflexivity|].
    pose proof (of_nat_nonneg (length (Py.split q))). Lqa.lra. }
  set (d := (Py.of_nat (length (Py.split q)) / 10)%Q) in *.
  destruct (min_cases d 1.0%Q) as [[-> H]|[-> H]]; split; Lqa.lra.
Qed.

(** Without training data and without results the one factor is the
    simplicity of the query, and it sits in the first slot. *)
Lemma confidence_no_data (q : string) :
  (calculate_confidence EmptyString [] q == 0.4 * simplicity_factor q)%Q.
Proof.
  pose proof (simplicity_bounds q) as Hs.
  unfold calculate_confidence, confidence_factors. cbn -[simplicity_factor Py.min Py.max].
  unfold Py.sum. cbn -[simplicity_factor Py.min Py.max].
  rewrite clamp_id; Lqa.lra.
Qed.

Lemma slotted_no_data (q : string) :
  (slotted_confidence EmptyString [] q == 0.1 * simplicity_factor q)%Q.
Proof.
  pose proof (simplicity_bounds q) as Hs.
  unfold slotted_confidence, slot_factors.
  cbn -[simplicity_factor Py.min Py.max].
  unfold Py.sum. cbn -[simplicity_factor Py.min Py.max].
  rewrite clamp_id; Lqa.lra.
Qed.

Lemma calculate_confidence_bounds (t : string) (rs : list SearchResult)
    (q : string) : (0 <= calculate_confidence t rs q <= 1)%Q.
Proof.
  unfold calculate_confidence.
  destruct (is_nil _).
  - split; Lqa.lra.
  - apply clamp_bounds.
Qed.

(** With training data and with results all four factors are there,
    and the source's positional weighting is the slot weighting. *)
Lemma confidence_all_factors (t : string) (r : SearchResult)
    (rs : list SearchResult) (q : string) :
  truthy t = true ->
  calculate_confidence t (r :: rs) q = slotted_confidence t (r :: rs) q.
Proof.
  intros Ht. unfold calculate_confidence, slotted_confidence,
    confidence_factors, slot_factors. rewrite Ht. reflexivity.
Qed.

End Confidence.

(** ** Context retrieval *)

Section Retrieval.

Import VectorSearchService RAGPipeline Specification Samples.

Variables (fmt : Q -> string) (sv : services) (f : faults).
Variables (elapsed : Q) (q : string).
Variables (assistant_key tenant_id : option string).
Variables (use_hybrid_search : bool) (max_chunks : Z).

Local Abbreviation body :=
  (retrieve_body fmt sv f elapsed q assistant_key tenant_id
     use_hybrid_search max_chunks).
Local Abbreviation result :=
  (retrieve_context fmt sv f elapsed q assistant_key tenant_id
     use_hybrid_search max_chunks).
Local Abbreviation training n :=
  (get_training_context sv n q assistant_key tenant_id).
Local Abbreviation search :=
  (search_documents sv q assistant_key tenant_id use_hybrid_search max_chunks).

(** The body of the [try] raises exactly when one of its steps does. *)
Lemma body_raises_iff :
  body = Raise <->
  training 0 = Raise \/ search = Raise \/
  assemble_raises f = true \/ score_raises f = true.
Proof.
  unfold retrieve_body, step.
  destruct (training 0) as [t|]; cbn; [|tauto].
  destruct search as [rs|]; cbn; [|tauto].
  destruct (assemble_raises f); cbn; [tauto|].
  destruct (score_raises f); cbn; [tauto|].
  split; [discriminate|]. intros [H|[H|[H|H]]]; discriminate.
Qed.

Lemma result_of_failure :
  body = Raise ->
  result = retrieve_fallback sv elapsed q assistant_key tenant_id.
Proof. unfold retrieve_context. intros ->. reflexivity. Qed.

Lemma fallback_confidence_bounds :
  (0 <= confidence_score
          (retrieve_fallback sv elapsed q assistant_key tenant_id) <= 1)%Q.
Proof.
  unfold retrieve_fallback.
  destruct (training 1) as [t|]; cbn; [destruct (truthy t)|]; cbn;
    split; Lqa.lra.
Qed.

Lemma body_confidence_bounds (ctx : RAGContext) :
  body = Ok ctx -> (0 <= confidence_score ctx <= 1)%Q.
Proof.
  unfold retrieve_body, step.
  destruct (training 0) as [t|]; cbn; [|discriminate].
  destruct search as [rs|]; cbn; [|discriminate].
  destruct (assemble_raises f); cbn; [discriminate|].
  destruct (score_raises f); cbn; [discriminate|].
  intros [= <-]. cbn. apply calculate_confidence_bounds.
Qed.

(** C1, as amended. When the training service returns the empty
    context and the search returns no result, the context text is
    empty, no source is counted, and the confidence is positive: the
    simplicity of the query always counts, so the confidence lies
    between 0.07 and 0.4. *)
Theorem C1_no_data_scenario :
  get_training_context sv 0 q assistant_key tenant_id = Ok EmptyString ->
  search_documents sv q assistant_key tenant_id use_hybrid_search max_chunks
  = Ok [] ->
  assemble_raises f = false ->
  score_raises f = false ->
  let r := retrieve_context fmt sv f elapsed q assistant_key tenant_id
             use_hybrid_search max_chunks in
  context_text r = EmptyString /\
  source_count r = 0 /\
  retrieved_chunks r = [] /\
  context_sources r = [] /\
  (0.07 <= confidence_score r <= 0.4)%Q.
Proof.
  intros Ht Hs Ha Hc. cbv zeta.
  unfold retrieve_context, retrieve_body, step.
  rewrite Ht, Hs, Ha, Hc. cbn -[calculate_confidence].
  repeat split; try reflexivity.
  - rewrite confidence_no_data.
    pose proof (simplicity_bounds q). Lqa.lra.
  - rewrite confidence_no_data.
    pose proof (simplicity_bounds q). Lqa.lra.
Qed.

(** C3, as amended. When a step of the pipeline raises, the exception
    stays inside [retrieve_context], which fetches the training
    context once more: if that call returns, the result holds that
    text alone, with confidence 0.5 when the text is not empty and 0.1
    when it is; if that call raises too, the result is the empty
    context with confidence 0.0. *)
Theorem C3_failure_fallback :
  get_training_context sv 0 q assistant_key tenant_id = Raise \/
  search_documents sv q assistant_key tenant_id use_hybrid_search max_chunks
  = Raise \/
  assemble_raises f = true \/ score_raises f = true ->
  let r := retrieve_context fmt sv f elapsed q assistant_key tenant_id
             use_hybrid_search max_chunks in
  retrieved_chunks r = [] /\
  source_count r = 0 /\
  match get_training_context sv 1 q assistant_key tenant_id with
  | Ok exact =>
      context_text r = exact /\
      confidence_score r = (if truthy exact then 0.5 else 0.1)%Q
  | Raise =>
      context_text r = EmptyString /\
      confidence_score r = 0.0%Q
  end.
Proof.
  intros H. apply body_raises_iff in H. cbv zeta.
  rewrite (result_of_failure H). unfold retrieve_fallback.
  destruct (training 1) as [t|]; cbn; auto.
Qed.

(** C9. On every path of [retrieve_context] (the body of the [try]
    completes, a step fails and the training context is fetched again,
    that fetch fails too) the confidence lies in [0, 1]. *)
Theorem C9_confidence_in_unit_interval :
  (0 <= confidence_score
          (retrieve_context fmt sv f elapsed q assistant_key tenant_id
             use_hybrid_search max_chunks) <= 1)%Q.
Proof.
  unfold retrieve_context.
  destruct body as [ctx|] eqn:E; cbn.
  - now apply body_confidence_bounds.
  - apply fallback_confidence_bounds.
Qed.

End Retrieval.

Section RetrievalInstances.

Import VectorSearchService RAGPipeline Specification Samples.

Lemma C1_no_data_scenario_witness :
  let r := retrieve_context two_decimals empty_services no_faults 0 "hello" None None true 15 in
  context_text r = EmptyString /\
  source_count r = 0 /\
  retrieved_chunks r = [] /\
  context_sources r = [] /\
  (0.07 <= confidence_score r <= 0.4)%Q.
Proof.
  apply (C1_no_data_scenario two_decimals empty_services no_faults 0 "hello" None None
           true 15); reflexivity.
Defined.

(** The scenario of C1 as the specification states it fails: for the
    query "hello" the confidence is 0.388, not 0.0. *)
Lemma C1_counterexample :
  let r := retrieve_context two_decimals empty_services no_faults 0 "hello" None None true 15 in
  (confidence_score r == 0.388)%Q /\
  ~ (context_text r = EmptyString /\
     (confidence_score r == 0.0)%Q /\
     source_count r = 0).
Proof.
  cbv zeta. split.
  - vm_compute. reflexivity.
  - intros [_ [H _]]. vm_compute in H. discriminate.
Qed.

(** C2. The source appends the factors that are present one after the
    other and pairs them with the weights by position, so a factor
    that is missing vacates its slot and the later factors move up:
    without training data and without results the simplicity of the
    query is weighted 0.4, where its own slot weighs 0.1. *)
Theorem C2_weights_follow_position :
  forall q : string,
    (calculate_confidence EmptyString [] q == 0.4 * simplicity_factor q)%Q /\
    (slotted_confidence EmptyString [] q == 0.1 * simplicity_factor q)%Q /\
    ~ (calculate_confidence EmptyString [] q
       == slotted_confidence EmptyString [] q)%Q.
Proof.
  intros q. pose proof (simplicity_bounds q) as Hs.
  pose proof (confidence_no_data q) as Hc.
  pose proof (slotted_no_data q) as Hd.
  repeat split; try assumption.
  rewrite Hc, Hd. intros H. Lqa.lra.
Qed.

(** The failing input of C2, evaluated: the query "hi" without
    training data and without results. *)
Lemma C2_failing_input :
  (calculate_confidence EmptyString [] "hi" == 0.388)%Q /\
  (slotted_confidence EmptyString [] "hi" == 0.097)%Q.
Proof. split; vm_compute; reflexivity. Qed.

Lemma C3_failure_fallback_witness :
  let r := retrieve_context two_decimals search_down_services no_faults 0 "hours" None None
             true 15 in
  retrieved_chunks r = [] /\
  source_count r = 0 /\
  context_text r = "Q: hours? A: nine to five" /\
  confidence_score r = 0.5%Q.
Proof.
  apply (C3_failure_fallback two_decimals search_down_services no_faults 0 "hours" None
           None true 15).
  right. left. reflexivity.
Defined.

(** The claim C3 as the specification states it fails when both calls
    of the training service raise: the confidence is 0.0, neither 0.5
    nor 0.1. *)
Lemma C3_counterexample :
  let r := retrieve_context two_decimals failing_services no_faults 0 "hours" None None
             true 15 in
  get_training_context failing_services 0 "hours" None None = Raise /\
  confidence_score r = 0.0%Q /\
  ~ ((confidence_score r == 0.5)%Q \/ (confidence_score r == 0.1)%Q).
Proof.
  cbv zeta. repeat split.
  intros [H|H]; vm_compute in H; discriminate.
Qed.

End RetrievalInstances.

(** ** Context assembly *)

Section Assembly.

Import VectorSearchService RAGPipeline Samples.

Lemma append_empty_r (s : string) : s +:+ EmptyString = s.
Proof.
  induction s as [|c s IH]; [reflexivity|].
  change (String c (s +:+ EmptyString) = String c s). now rewrite IH.
Qed.

Lemma join_head (sep x : string) (l : list string) :
  exists rest, Py.join sep (x :: l) = x +:+ rest.
Proof.
  destruct l as [|y l].
  - exists EmptyString. cbn. now rewrite append_empty_r.
  - exists (sep +:+ Py.join sep (y :: l)). reflexivity.
Qed.

Lemma le_zero_plus (x y : Q) : Py.le (0 + x)%Q y = Py.le x y.
Proof.
  destruct (Py.le x y) eqn:E.
  - apply le_spec. apply le_spec in E. Lqa.lra.
  - destruct (Py.le (0 + x)%Q y) eqn:E'; [|reflexivity].
    apply le_spec in E'. assert (Py.le x y = true) by (apply le_spec; Lqa.lra).
    congruence.
Qed.

(** C6, as amended. For training text that is not empty: when its
    section (the heading and the text) fits the token budget, counted
    as 1.3 tokens a word, the assembled context starts with the
    section, before any retrieved result; when the section exceeds the
    budget it is left out, and the context is the one assembled
    without training text. *)
Theorem C6_training_first_within_budget (fmt : Q -> string)
    (q training_context : string)
    (search_results : list SearchResult) (max_tokens : Z) :
  truthy training_context = true ->
  if Py.le (approx_tokens (training_section_of training_context))
           (inject_Z max_tokens)
  then exists rest,
      build_comprehensive_context fmt q training_context search_results max_tokens
      = training_section_of training_context +:+ rest
  else build_comprehensive_context fmt q training_context search_results max_tokens
       = build_comprehensive_context fmt q EmptyString search_results max_tokens.
Proof.
  intros Ht. unfold build_comprehensive_context. rewrite Ht.
  rewrite le_zero_plus.
  destruct (Py.le _ _); cbn [truthy]; [|reflexivity].
  match goal with
  | |- context [Py.join separator (if ?c then ?a else ?b)] => destruct c
  end.
  - match goal with
    | |- context [if ?c then _ else _] => destruct c
    end; apply join_head.
  - apply join_head.
Qed.

Lemma C6_training_first_within_budget_witness :
  exists rest,
    build_comprehensive_context two_decimals "hours" "Q: hours? A: nine to five" [passage] 3000
    = training_section_of "Q: hours? A: nine to five" +:+ rest.
Proof.
  apply (C6_training_first_within_budget two_decimals "hours" "Q: hours? A: nine to five"
           [passage] 3000).
  reflexivity.
Defined.

(** The claim C6 as the specification states it fails for training
      text beyond the budget: with 2400 words of training data (a section
      of 2403 words, 3123.9 tokens against a budget of 3000) and one
      retrieved passage, the context holds the passage and nothing of the
      training text. *)
Lemma C6_counterexample :
  let r := retrieve_context two_decimals large_training_services no_faults 0 "hello" None
             None true 15 in
  truthy large_training = true /\
  context_text r
  = "SEMANTIC SEARCH RESULTS:" +:+ nl +:+
    "[Source: hybrid_search | Relevance: 0.90]" +:+ nl +:+
    "retrieved passage" /\
  String.prefix (training_section_of large_training) (context_text r) = false /\
  Py.contains large_training (context_text r) = false.
Proof.
  cbv zeta. split; [|split; [|split]]; vm_compute; reflexivity.
Qed.

End Assembly.
(** ** Cosine similarity *)

Section Cosine.

Import VectorSearchService Specification.








End Cosine.

(** ** Chunking *)

Section Chunking.

Import ChunkProcessor Samples.

Variable encoding : option (string -> outcome nat).




End Chunking.

Section ChunkingInstances.

Import ChunkProcessor Samples.



(** C4. A document of three sentences, each well inside the budget of
    500 tokens, chunked by sentences: the second chunk is seeded with
    both sentences of the first and then takes the third, and its 570
    words come to 741 tokens at 1.3 tokens a word, so not every chunk
    made of splittable sentences stays within the budget. *)
Theorem C4_overlap_chunk_over_budget :
  clean_text three_sentences = three_sentences /\
  determine_strategy three_sentences = Semantic /\
  sentences_of three_sentences = [sentence; sentence; last_sentence] /\
  Forall (fun s => Py.le (count_tokens None s) max_chunk_tokens = true)
         [sentence; sentence; last_sentence] /\
  map (fun c => (text c, Qred (token_count c)))
      (smart_chunk_document None three_sentences None)
  = [(Py.join " " [sentence; sentence], 494%Q);
     (Py.join " " [sentence; sentence; last_sentence], 741%Q)] /\
  ~ Forall (fun c => Py.le (count_tokens None (text c)) max_chunk_tokens = true)
           (smart_chunk_document None three_sentences None).
Proof.
  split; [vm_compute; reflexivity|].
  split; [vm_compute; reflexivity|].
  split; [vm_compute; reflexivity|].
  split.
  { repeat (apply List.Forall_cons; [vm_compute; reflexivity|]).
    apply List.Forall_nil. }
  split; [vm_compute; reflexivity|].
  intros H.
  assert (E : map (fun c => Py.le (count_tokens None (text c)) max_chunk_tokens)
                  (smart_chunk_document None three_sentences None)
              = [true; false]) by (vm_compute; reflexivity).
  destruct (smart_chunk_document None three_sentences None) as [|c1 [|c2 cs]];
    try discriminate.
  inversion H as [|? ? _ H2]; subst. inversion H2 as [|? ? Hc2 _]; subst.
  cbn in E. congruence.
Qed.

(** The same document under a tokenizer of one token a word: the second
    chunk has 570 tokens. *)
Lemma overlap_chunk_over_budget_word_tokens :
  map (fun c => (chunk_index c, Qred (token_count c)))
      (smart_chunk_document word_tokenizer three_sentences None)
  = [(0, 380%Q); (1, 570%Q)].
Proof. vm_compute. reflexivity. Qed.

End ChunkingInstances.

(** ** The keyword leg *)

Section Keyword.

Import VectorSearchService Samples.

Lemma of_nat_le (m n : nat) : m <= n -> (Py.of_nat m <= Py.of_nat n)%Q.
Proof. intros H. unfold Py.of_nat, Qle. cbn. lia. Qed.

Lemma omap_Forall {A B} (g : A -> option B) (P : B -> Prop) (l : list A) :
  (forall x y, g x = Some y -> P y) -> Forall P (omap g l).
Proof.
  intros H. induction l as [|x l IH]; cbn; [constructor|].
  destruct (g x) as [y|] eqn:E; [|assumption].
  constructor; [eapply H; eassumption|assumption].
Qed.

Lemma keyword_result_bounds (query : string) (assistant_key : option string)
    (item : chunk_row) (r : SearchResult) :
  keyword_result query assistant_key item = Some r ->
  (0 <= similarity r <= 1)%Q.
Proof.
  unfold keyword_result. destruct (other_assistant _ _); [discriminate|].
  intros [= <-]. cbn.
  set (k := Py.count _ _).
  assert (Hk : (0 <= Py.of_nat k / 10)%Q).
  { apply Qle_shift_div_l; [reflexivity|].
    pose proof (of_nat_nonneg k). Lqa.lra. }
  destruct (min_cases (Py.of_nat k / 10)%Q 1.0%Q) as [[-> H]|[-> H]];
    split; Lqa.lra.
Qed.

(** Lower-casing keeps the white space of a text, hence its words. *)
Lemma isspace_lower_char (c : ascii) :
  Py.isspace (Py.lower_char c) = Py.isspace c.
Proof. destruct c as [[] [] [] [] [] [] [] []]; reflexivity. Qed.

Lemma split_go_lower_length (s : string) :
  forall cur cur' : option string,
    (cur = None <-> cur' = None) ->
    length (Py.split_go cur' (Py.lower s)) = length (Py.split_go cur s).
Proof.
  induction s as [|c s IH]; intros cur cur' H; cbn.
  - destruct cur, cur'; cbn; try reflexivity;
      exfalso; destruct H as [H1 H2]; (now discriminate H1) || (now discriminate H2).
  - rewrite isspace_lower_char. destruct (Py.isspace c).
    + destruct cur, cur'; cbn; try (f_equal; now apply IH); try (now apply IH);
        exfalso; destruct H as [H1 H2];
        (now discriminate H1) || (now discriminate H2).
    + apply IH. split; discriminate.
Qed.

Lemma split_lower_length (s : string) :
  length (Py.split (Py.lower s)) = length (Py.split s).
Proof. apply split_go_lower_length. tauto. Qed.

Lemma fixed_keyword_result_bounds (query : string)
    (assistant_key : option string) (item : chunk_row) (r : SearchResult) :
  VectorSearchServiceFixed.keyword_chunk_result query assistant_key item = Some r ->
  (0 <= similarity r <= 0.5)%Q.
Proof.
  unfold VectorSearchServiceFixed.keyword_chunk_result.
  destruct (other_assistant _ _); [discriminate|].
  intros [= <-]. cbn.
  set (m := length (filter _ _)).
  set (d := Nat.max (length (Py.split query)) 1).
  assert (Hmd : m <= d).
  { unfold m, d. etransitivity; [apply length_filter|].
    rewrite split_lower_length. lia. }
  assert (Hd : (1 <= Py.of_nat d)%Q).
  { change 1%Q with (Py.of_nat 1). apply of_nat_le. unfold d. lia. }
  pose proof (of_nat_nonneg m) as Hm. pose proof (of_nat_le _ _ Hmd) as Hle.
  assert (H0 : (0 <= Py.of_nat m / Py.of_nat d)%Q).
  { apply Qle_shift_div_l; Lqa.lra. }
  assert (H1 : (Py.of_nat m / Py.of_nat d <= 1)%Q).
  { apply Qle_shift_div_r; Lqa.lra. }
  split; Lqa.lra.
Qed.

(** C5, as amended. The score that [_keyword_search] of
    vector_search_service.py gives a result is the number of occurrences
    of the query over ten, capped at 1: it lies in [0, 1]. The score of
    the variant of vector_search_service_fixed.py, matched query words
    over query words times 0.5, lies in [0, 0.5]. *)
Theorem C5_keyword_score_range (db : outcome (list chunk_row))
    (query : string) (assistant_key : option string) :
  Forall (fun r => (0 <= similarity r <= 1)%Q)
         (keyword_search db query assistant_key) /\
  Forall (fun r => (0 <= similarity r <= 0.5)%Q)
         (VectorSearchServiceFixed.keyword_search_document_chunks
            db query assistant_key).
Proof.
  unfold keyword_search,
    VectorSearchServiceFixed.keyword_search_document_chunks.
  destruct db as [data|]; cbn; [|split; constructor].
  split; apply omap_Forall.
  - apply keyword_result_bounds.
  - apply fixed_keyword_result_bounds.
Qed.

(** The claim C5 as the specification states it fails for
    [_keyword_search]: a chunk that holds the query ten times scores
    1.0. *)
Lemma C5_counterexample :
  let results := keyword_search (Ok [tea_row]) "tea" None in
  map (fun r => (content r, similarity r)) results
  = [(row_chunk_text tea_row, 10 # 10)] /\
  ~ Forall (fun r => (0 <= similarity r <= 0.5)%Q) results.
Proof.
  cbv zeta.
  assert (E : map (fun r => (content r, similarity r))
                  (keyword_search (Ok [tea_row]) "tea" None)
              = [(row_chunk_text tea_row, 10 # 10)])
    by (vm_compute; reflexivity).
  split; [exact E|]. intros H.
  destruct (keyword_search (Ok [tea_row]) "tea" None) as [|r rs];
    [discriminate|].
  cbn [map] in E. injection E as _ E _. inversion H as [|? ? [_ Hr] _]; subst.
  rewrite E in Hr. vm_compute in Hr. now apply Hr.
Qed.

End Keyword.

(** ** Batch embedding *)

Section Embedding.

Import EmbeddingService Specification.

Lemma pick_key (c n : gmap string embedding) (t : string) :
  pick c n t = match c !! Py.strip t with
               | Some e => e
               | None => default zero_vector (n !! Py.strip t)
               end.
Proof. unfold pick. destruct t; reflexivity. Qed.


Variable hash : string -> Z.


Lemma strip_truthy (t : string) :
  truthy (Py.strip t) = true -> truthy t = true.
Proof. destruct t; [discriminate|reflexivity]. Qed.

(** The valid texts of a batch are the stripped texts that are not
    blank. *)
Lemma valid_texts_spec (batch : list string) (k : string) :
  k ∈ valid_texts batch <->
  exists t, t ∈ batch /\ truthy (Py.strip t) = true /\ k = Py.strip t.
Proof.
  unfold valid_texts. rewrite list_elem_of_fmap. split.
  - intros (t & -> & Hin). apply list_elem_of_filter in Hin as [Hp Hin].
    exists t. apply Is_true_true in Hp. apply andb_true_iff in Hp as [_ Hp].
    auto.
  - intros (t & Hin & Ht & ->). exists t. split; [reflexivity|].
    apply list_elem_of_filter. split; [|assumption].
    apply Is_true_true. now rewrite Ht, (strip_truthy _ Ht).
Qed.



(** The loop over the valid texts: a text is cached under its own name
    when the cache knows its hash, and listed as uncached otherwise. *)
Lemma cache_fold_spec (cache : gmap Z embedding) (l : list string) :
  forall (c0 : gmap string embedding) (u0 : list string) (h0 : nat),
    let '(c, u, _) := fold_left (cache_step hash cache) l (c0, u0, h0) in
    (forall t, c !! t = match (if bool_decide (t ∈ l) then cache !! hash t
                                else None) with
                        | Some e => Some e
                        | None => c0 !! t
                        end) /\
    (forall t, t ∈ u <-> t ∈ u0 \/ (t ∈ l /\ cache !! hash t = None)).
Proof.
  induction l as [|x l IH]; intros c0 u0 h0; cbn [fold_left].
  - split.
    + intros t. rewrite bool_decide_eq_false_2; [reflexivity|]. inversion 1.
    + intros t. split; [auto|]. intros [H|[H _]]; [assumption|inversion H].
  - unfold cache_step at 2. destruct (cache !! hash x) as [e|] eqn:Ex.
    + specialize (IH (<[x:=e]> c0) u0 (S h0)).
      destruct (fold_left _ l _) as [[c u] h]. destruct IH as [IHc IHu].
      split.
      * intros t. rewrite IHc.
        destruct (decide (t = x)) as [->|Hne].
        -- rewrite (bool_decide_eq_true_2 (x ∈ x :: l)) by apply list_elem_of_here.
           rewrite Ex, lookup_insert_eq. now destruct (bool_decide _).
        -- rewrite lookup_insert_ne by congruence.
           destruct (bool_decide (t ∈ l)) eqn:El.
           ++ apply bool_decide_eq_true in El.
              rewrite bool_decide_eq_true_2; [reflexivity|].
              now apply list_elem_of_further.
           ++ apply bool_decide_eq_false in El.
              rewrite bool_decide_eq_false_2; [reflexivity|].
              intros H. apply elem_of_cons in H as [H|H]; tauto.
      * intros t. rewrite IHu. split.
        -- intros [H|[H ?]]; [auto|]. right. split; [|assumption].
           now apply list_elem_of_further.
        -- intros [H|[H Hn]]; [auto|]. apply elem_of_cons in H as [->|H].
           ++ congruence.
           ++ auto.
    + specialize (IH c0 (u0 ++ [x]) h0).
      destruct (fold_left _ l _) as [[c u] h]. destruct IH as [IHc IHu].
      split.
      * intros t. rewrite IHc.
        destruct (decide (t = x)) as [->|Hne].
        -- rewrite (bool_decide_eq_true_2 (x ∈ x :: l)) by apply list_elem_of_here.
           rewrite Ex. now destruct (bool_decide _).
        -- destruct (bool_decide (t ∈ l)) eqn:El.
           ++ apply bool_decide_eq_true in El.
              rewrite bool_decide_eq_true_2; [reflexivity|].
              now apply list_elem_of_further.
           ++ apply bool_decide_eq_false in El.
              rewrite bool_decide_eq_false_2; [reflexivity|].
              intros H. apply elem_of_cons in H as [H|H]; tauto.
      * intros t. rewrite IHu, elem_of_app, list_elem_of_singleton. split.
        -- intros [[H| ->]|[H ?]]; [auto| |].
           ++ right. split; [apply list_elem_of_here|assumption].
           ++ right. split; [now apply list_elem_of_further|assumption].
        -- intros [H|[H Hn]]; [auto|]. apply elem_of_cons in H as [->|H]; auto.
Qed.

Lemma cache_partition_spec (st : state) (batch : list string) :
  let '(c, u, _) := cache_partition hash st batch in
  (forall t, c !! t = if bool_decide (t ∈ valid_texts batch)
                      then embedding_cache st !! hash t else None) /\
  (forall t, t ∈ u <->
             t ∈ valid_texts batch /\ embedding_cache st !! hash t = None).
Proof.
  unfold cache_partition.
  pose proof (cache_fold_spec (embedding_cache st) (valid_texts batch)
                ∅ [] (cache_hits st)) as H.
  destruct (fold_left _ _ _) as [[c u] h]. destruct H as [Hc Hu]. split.
  - intros t. rewrite Hc, lookup_empty.
    destruct (bool_decide _); [|reflexivity]. now destruct (_ !! _).
  - intros t. rewrite Hu. split; [intros [H|H]; [inversion H|assumption]|auto].
Qed.



Lemma process_batch_length (api : backend) (st : state) (batch : list string) :
  length (process_batch hash api st batch).1 = length batch.
Proof.
  unfold process_batch.
  destruct (valid_texts batch); cbn -[zero_vector fold_left].
  - apply length_replicate.
  - destruct (cache_partition hash st batch) as [[c u] h].
    destruct u as [|x u]; [cbn; apply length_map|].
    destruct (try_except _ _) as [[n cache] misses].
    cbn -[zero_vector fold_left]. apply length_map.
Qed.









(** *** The loop over the batches *)

Variable client : nat -> backend.
Variable texts : list string.
Variable n : nat.

Lemma batch_starts_S (k : nat) :
  batch_starts n (S k) = batch_starts n k ++ [k * n].
Proof. unfold batch_starts. now rewrite seq_S, map_app. Qed.

Lemma batch_loop_app (s1 s2 : list nat) :
  forall (acc : list embedding) (st : state),
    batch_loop hash client texts n (s1 ++ s2) acc st
    = batch_loop hash client texts n s2
        (batch_loop hash client texts n s1 acc st).1
        (batch_loop hash client texts n s1 acc st).2.
Proof.
  induction s1 as [|i s1 IH]; intros acc st; cbn [batch_loop app].
  - reflexivity.
  - destruct (process_batch _ _ _ _) as [b st']. apply IH.
Qed.

(** The first [k + 1] batches: the first [k], then the batch that
    starts at [k * n], processed in the state that those left. *)
Lemma batch_loop_S (st : state) (k : nat) :
  let before := batch_loop hash client texts n (batch_starts n k) [] st in
  let this := process_batch hash (client (k * n)) before.2
                (firstn n (skipn (k * n) texts)) in
  batch_loop hash client texts n (batch_starts n (S k)) [] st
  = (before.1 ++ this.1, this.2).
Proof.
  cbv zeta. rewrite batch_starts_S, batch_loop_app. cbn [batch_loop].
  now destruct (process_batch _ _ _ _).
Qed.

Lemma batch_loop_length (st : state) (k : nat) :
  length (batch_loop hash client texts n (batch_starts n k) [] st).1
  = Nat.min (k * n) (length texts).
Proof.
  induction k as [|k IH]; [reflexivity|].
  rewrite batch_loop_S. cbn [fst].
  rewrite length_app, IH, process_batch_length, length_take, length_drop.
  rewrite Nat.mul_succ_l. lia.
Qed.





End Embedding.


Section EmbedBatch.

Import EmbeddingService Specification Samples.

Lemma effective_batch_size_pos (batch_size : option Z) :
  (forall b, batch_size = Some b -> (0 <= b)%Z) ->
  (0 < effective_batch_size batch_size)%Z.
Proof.
  intros H. unfold effective_batch_size, max_batch_size.
  destruct batch_size as [b|]; [|lia].
  specialize (H b eq_refl). destruct (Z.eqb_spec b 0); lia.
Qed.

Lemma batches_cover (len size : nat) :
  0 < size -> len <= (len + size - 1) / size * size.
Proof.
  intros H.
  pose proof (Nat.div_mod_eq (len + size - 1) size) as E.
  pose proof (Nat.mod_upper_bound (len + size - 1) size) as U.
  rewrite (Nat.mul_comm _ size). lia.
Qed.

(** With a batch size that is not negative, the call is the loop over
    all the batches of the texts. *)
Lemma generate_as_loop (hash : string -> Z) (client : nat -> backend)
    (st : state) (texts : list string) (batch_size : option Z) :
  (forall b, batch_size = Some b -> (0 <= b)%Z) ->
  let size := Z.to_nat (effective_batch_size batch_size) in
  let k := (length texts + size - 1) / size in
  0 < size /\ length texts <= k * size /\
  generate_batch_embeddings hash client st texts batch_size
  = batch_loop hash client texts size (batch_starts size k) [] st.
Proof.
  intros H. cbv zeta. apply effective_batch_size_pos in H.
  assert (Hs : 0 < Z.to_nat (effective_batch_size batch_size)) by lia.
  split; [assumption|]. split; [now apply batches_cover|].
  unfold generate_batch_embeddings, range_step.
  destruct texts as [|t ts].
  { cbn [length]. rewrite Nat.div_small by lia. reflexivity. }
  destruct (Z.ltb_spec 0 (effective_batch_size batch_size)); [reflexivity|lia].
Qed.




End EmbedBatch.

(** ** Words of a text *)

Section WordFacts.

Import Words.

Lemma append_cons (c : ascii) (a b : string) :
  String c a +:+ b = String c (a +:+ b).
Proof. reflexivity. Qed.

Lemma append_assoc (a b c : string) : (a +:+ b) +:+ c = a +:+ (b +:+ c).
Proof.
  induction a as [|x a IH]; [reflexivity|].
  rewrite !append_cons. now rewrite IH.
Qed.

Lemma rev_app_rev_app (a b c : string) :
  String.rev_app (String.rev_app a b) c = String.rev_app b (a +:+ c).
Proof.
  revert b c. induction a as [|x a IH]; intros b c; [reflexivity|].
  cbn [String.rev_app]. rewrite IH. reflexivity.
Qed.

Lemma rev_involutive (a : string) : String.rev (String.rev a) = a.
Proof.
  unfold String.rev. rewrite rev_app_rev_app. cbn [String.rev_app].
  apply append_empty_r.
Qed.

Lemma no_space_rev_app (a b : string) :
  no_space (String.rev_app a b) = no_space a && no_space b.
Proof.
  revert b. induction a as [|x a IH]; intros b; [reflexivity|].
  cbn [String.rev_app no_space]. rewrite IH. cbn [no_space].
  destruct (Py.isspace x), (no_space a), (no_space b); reflexivity.
Qed.

Lemma truthy_rev_app (a b : string) :
  truthy (String.rev_app a b) = truthy a || truthy b.
Proof.
  revert b. induction a as [|x a IH]; intros b; [reflexivity|].
  cbn [String.rev_app]. rewrite IH. cbn. now rewrite orb_true_r.
Qed.

Lemma is_word_rev (a : string) : is_word (String.rev a) = is_word a.
Proof.
  unfold is_word, String.rev. rewrite truthy_rev_app, no_space_rev_app.
  cbn. now rewrite orb_false_r, andb_true_r.
Qed.

(** Reading a run without white space extends the word being read. *)
Lemma split_go_run (w s cur : string) :
  no_space w = true ->
  Py.split_go (Some cur) (w +:+ s) = Py.split_go (Some (String.rev_app w cur)) s.
Proof.
  revert cur. induction w as [|c w IH]; intros cur Hw; [reflexivity|].
  cbn [no_space] in Hw. apply andb_true_iff in Hw as [Hc Hw].
  apply negb_true_iff in Hc.
  rewrite append_cons. cbn [Py.split_go]. rewrite Hc. cbn [default].
  now rewrite IH.
Qed.

Lemma split_go_word (w s : string) :
  is_word w = true ->
  Py.split_go None (w +:+ s) = Py.split_go (Some (String.rev w)) s.
Proof.
  unfold is_word. intros H. apply andb_true_iff in H as [Hne Hw].
  destruct w as [|c w]; [discriminate|].
  cbn [no_space] in Hw. apply andb_true_iff in Hw as [Hc Hw].
  apply negb_true_iff in Hc.
  rewrite append_cons. cbn [Py.split_go]. rewrite Hc. cbn [default].
  now rewrite split_go_run.
Qed.

(** [s.split()] yields words. *)
Lemma split_go_words (s : string) :
  forall cur : option string,
    (forall a, cur = Some a -> is_word a = true) ->
    Forall (fun w => is_word w = true) (Py.split_go cur s).
Proof.
  induction s as [|c s IH]; intros cur Hcur; cbn [Py.split_go].
  - destruct cur as [a|]; [|constructor].
    constructor; [|constructor]. rewrite is_word_rev. now apply Hcur.
  - destruct (Py.isspace c) eqn:Ec.
    + destruct cur as [a|].
      * constructor; [rewrite is_word_rev; now apply Hcur|].
        apply IH. discriminate.
      * apply IH. discriminate.
    + apply IH. intros a [= <-]. unfold is_word. cbn [truthy no_space].
      rewrite Ec. cbn [negb andb].
      destruct cur as [a|]; [|reflexivity].
      specialize (Hcur a eq_refl). unfold is_word in Hcur.
      apply andb_true_iff in Hcur as [_ Hcur]. exact Hcur.
Qed.

Lemma split_words (s : string) :
  Forall (fun w => is_word w = true) (Py.split s).
Proof. apply split_go_words. discriminate. Qed.

(** Round trip: the words joined by single spaces split into the same
    words. *)
Lemma split_join (ws : list string) :
  Forall (fun w => is_word w = true) ws ->
  Py.split (Py.join " " ws) = ws.
Proof.
  unfold Py.split. induction 1 as [|w ws Hw Hws IH]; [reflexivity|].
  cbn [Py.join]. destruct ws as [|w' ws].
  - pose proof (split_go_word w EmptyString Hw) as E.
    rewrite append_empty_r in E. rewrite E.
    cbn [Py.split_go]. now rewrite rev_involutive.
  - rewrite split_go_word by assumption.
    change (" " +:+ ?x) with (String " "%char x).
    cbn [Py.split_go]. change (Py.isspace " ") with true. cbn iota.
    rewrite rev_involutive. f_equal. exact IH.
Qed.

Lemma join_snoc (sep a b : string) (l : list string) :
  Py.join sep (l ++ [a; b]) = Py.join sep (l ++ [a]) +:+ sep +:+ b.
Proof.
  induction l as [|x l IH]; [reflexivity|].
  cbn [app]. destruct l as [|y l].
  - cbn [app Py.join]. now rewrite !append_assoc.
  - change (Py.join sep (x :: (y :: l) ++ [a; b]))
      with (x +:+ sep +:+ Py.join sep ((y :: l) ++ [a; b])).
    change (Py.join sep (x :: (y :: l) ++ [a]))
      with (x +:+ sep +:+ Py.join sep ((y :: l) ++ [a])).
    rewrite IH. now rewrite !append_assoc.
Qed.

Lemma join_last_append (sep a t : string) (l : list string) :
  Py.join sep (l ++ [a]) +:+ t = Py.join sep (l ++ [a +:+ t]).
Proof.
  induction l as [|x l IH]; [reflexivity|].
  cbn [app]. destruct l as [|y l].
  - cbn [app Py.join]. now rewrite !append_assoc.
  - change (Py.join sep (x :: (y :: l) ++ [a]))
      with (x +:+ sep +:+ Py.join sep ((y :: l) ++ [a])).
    change (Py.join sep (x :: (y :: l) ++ [a +:+ t]))
      with (x +:+ sep +:+ Py.join sep ((y :: l) ++ [a +:+ t])).
    rewrite <- IH. now rewrite !append_assoc.
Qed.

Lemma no_space_append (a b : string) :
  no_space (a +:+ b) = no_space a && no_space b.
Proof.
  induction a as [|x a IH]; [reflexivity|].
  rewrite append_cons. cbn [no_space]. rewrite IH. now rewrite andb_assoc.
Qed.

Lemma is_word_append (a b : string) :
  is_word a = true -> no_space b = true -> is_word (a +:+ b) = true.
Proof.
  unfold is_word. intros Ha Hb. apply andb_true_iff in Ha as [Hne Ha].
  rewrite no_space_append, Ha, Hb. destruct a; [discriminate|reflexivity].
Qed.

End WordFacts.

(** ** Sorting by a key, largest first *)

Section SortFacts.

Import Orders.

Context {A : Type}.
Variable key : A -> Q.

Lemma insert_desc_perm (x : A) (l : list A) :
  Permutation (x :: l) (Py.insert_desc key x l).
Proof.
  induction l as [|y l IH]; [reflexivity|].
  cbn [Py.insert_desc]. destruct (Py.lt (key x) (key y)); [|reflexivity].
  rewrite perm_swap. now constructor.
Qed.

Lemma sorted_desc_perm (l : list A) : Permutation l (Py.sorted_desc key l).
Proof.
  induction l as [|x l IH]; [reflexivity|].
  cbn [Py.sorted_desc fold_right]. rewrite <- insert_desc_perm.
  now constructor.
Qed.

Lemma sorted_desc_length (l : list A) :
  length (Py.sorted_desc key l) = length l.
Proof. symmetry. apply Permutation_length, sorted_desc_perm. Qed.

Lemma sorted_desc_elem (x : A) (l : list A) :
  x ∈ Py.sorted_desc key l <-> x ∈ l.
Proof. now rewrite <- sorted_desc_perm. Qed.

Lemma sorted_desc_Forall (P : A -> Prop) (l : list A) :
  Forall P l -> Forall P (Py.sorted_desc key l).
Proof. intros H. now rewrite <- sorted_desc_perm. Qed.

Lemma insert_desc_sorted (x : A) (l : list A) :
  descending key l -> descending key (Py.insert_desc key x l).
Proof.
  unfold descending.
  induction 1 as [|y l Hl IH Hy]; cbn [Py.insert_desc].
  - constructor; constructor.
  - destruct (Py.lt (key x) (key y)) eqn:E.
    + constructor; [exact IH|].
      rewrite <- insert_desc_perm. constructor; [|exact Hy].
      apply lt_spec in E. now apply Qlt_le_weak.
    + apply lt_false in E. constructor.
      * now constructor.
      * constructor; [exact E|].
        eapply List.Forall_impl; [|exact Hy].
        intros z Hz. cbn beta in Hz. now apply Qle_trans with (key y).
Qed.

Lemma sorted_desc_sorted (l : list A) : descending key (Py.sorted_desc key l).
Proof.
  induction l as [|x l IH]; [constructor|].
  cbn [Py.sorted_desc fold_right]. now apply insert_desc_sorted.
Qed.

End SortFacts.

(** ** More on the confidence score and on context assembly *)

Section ConfidenceFloor.

Import VectorSearchService RAGPipeline.

Lemma fold_sum_nonneg (l : list Q) (a : Q) :
  (0 <= a)%Q -> Forall (fun x => (0 <= x)%Q) l ->
  (0 <= fold_left Qplus l a)%Q.
Proof.
  revert a. induction l as [|x l IH]; intros a Ha Hl; [exact Ha|].
  inversion Hl; subst. cbn [fold_left]. apply IH; [Lqa.lra|assumption].
Qed.

Lemma sum_nonneg (l : list Q) :
  Forall (fun x => (0 <= x)%Q) l -> (0 <= Py.sum l)%Q.
Proof. apply fold_sum_nonneg. Lqa.lra. Qed.

Lemma of_nat_pos (n : nat) : 0 < n -> (0 < Py.of_nat n)%Q.
Proof.
  intros H. unfold Py.of_nat.
  change 0%Q with (inject_Z 0). rewrite <- Zlt_Qlt. lia.
Qed.

Lemma average_nonneg (r : SearchResult) (rs : list SearchResult) :
  Forall (fun x => (0 <= similarity x)%Q) (r :: rs) ->
  (0 <= Py.sum (map similarity (firstn 5 (r :: rs)))
        / Py.of_nat (length (firstn 5 (r :: rs))))%Q.
Proof.
  intros H. apply Qle_shift_div_l.
  - apply of_nat_pos. cbn. lia.
  - rewrite Qmult_0_l. apply sum_nonneg.
    apply List.Forall_map. now apply Forall_take.
Qed.

Lemma diversity_nonneg (n : nat) :
  (0 <= Py.min (Py.of_nat n / 10) 0.2)%Q.
Proof.
  assert (Hd : (0 <= Py.of_nat n / 10)%Q).
  { apply Qle_shift_div_l; [reflexivity|].
    pose proof (of_nat_nonneg n). Lqa.lra. }
  set (d := (Py.of_nat n / 10)%Q) in *.
  destruct (min_cases d 0.2%Q) as [[-> H]|[-> H]]; Lqa.lra.
Qed.

Lemma clamp_lower (c w : Q) :
  (c <= w)%Q -> (c <= 1)%Q -> (c <= Py.min (Py.max w 0.0) 1.0)%Q.
Proof.
  intros Hw H1.
  destruct (max_cases w 0.0%Q) as [[-> Hm]|[-> Hm]];
    destruct (min_cases w 1.0%Q) as [[Hn ?]|[Hn ?]];
    destruct (min_cases 0.0%Q 1.0%Q) as [[Hz ?]|[Hz ?]];
    rewrite ?Hn, ?Hz; Lqa.lra.
Qed.

(** X1. When no result carries a negative similarity, the confidence
    of [_calculate_confidence] is at least 0.13, whatever the training
    context, the results and the query are. In exact arithmetic the
    least value is 0.14, taken without training data for results of
    similarity 0 and a query of ten words or more; the bound leaves
    room for the rounding of the doubles. The 0.1 and 0.0 of the
    failure paths lie below every score of the normal path. *)
Theorem confidence_floor (t : string) (rs : list SearchResult) (q : string) :
  Forall (fun r => (0 <= similarity r)%Q) rs ->
  (0.13 <= calculate_confidence t rs q)%Q.
Proof.
  intros Hrs. pose proof (simplicity_bounds q) as Hs.
  unfold calculate_confidence, confidence_factors.
  destruct rs as [|r rs].
  - destruct (truthy t);
      cbn [app is_nil pad length weights Nat.sub replicate firstn zip_with];
      unfold Py.sum; cbn [fold_left];
      apply clamp_lower; Lqa.lra.
  - pose proof (average_nonneg r rs Hrs) as Ha.
    pose proof (diversity_nonneg
      (length (filter (fun r => Py.lt 0.8%Q (similarity r)) (r :: rs)))) as Hd.
    set (avg := (Py.sum _ / _)%Q) in *.
    set (dv := Py.min _ 0.2%Q) in *.
    destruct (truthy t);
      cbn [app is_nil pad length weights Nat.sub replicate firstn zip_with];
      unfold Py.sum; cbn [fold_left];
      apply clamp_lower; Lqa.lra.
Qed.

Lemma confidence_floor_witness :
  Forall (fun r => (0 <= similarity r)%Q) [MoreSamples.cold_passage] /\
  (calculate_confidence EmptyString [MoreSamples.cold_passage]
     MoreSamples.ten_words == 0.14)%Q /\
  (0.13 <= calculate_confidence EmptyString [MoreSamples.cold_passage]
             MoreSamples.ten_words)%Q.
Proof.
  assert (H : Forall (fun r => (0 <= similarity r)%Q)
                     [MoreSamples.cold_passage]).
  { constructor; [|constructor]. vm_compute. discriminate. }
  split; [exact H|]. split; [vm_compute; reflexivity|].
  exact (confidence_floor _ _ _ H).
Defined.

Lemma confidence_training_only (t q : string) :
  truthy t = true ->
  (calculate_confidence t [] q == 0.36 + 0.3 * simplicity_factor q)%Q.
Proof.
  intros Ht. pose proof (simplicity_bounds q) as Hs.
  unfold calculate_confidence, confidence_factors. rewrite Ht.
  cbn [app is_nil pad length weights Nat.sub replicate firstn zip_with].
  unfold Py.sum. cbn [fold_left].
  rewrite clamp_id; Lqa.lra.
Qed.

End ConfidenceFloor.

Section ExactOnly.

Import VectorSearchService RAGPipeline.

(** X2. When the training service returns a text that is not empty
    and fits the budget, and the search returns no result, the context
    is the training section alone, the one source is training_data,
    and the confidence is 0.36 + 0.3 * simplicity of the query, a value
    between 0.57 and 0.66. *)
Theorem exact_match_only (fmt : Q -> string) (sv : services) (f : faults)
    (elapsed : Q)
    (q : string) (assistant_key tenant_id : option string)
    (use_hybrid_search : bool) (max_chunks : Z) (t : string) :
  get_training_context sv 0 q assistant_key tenant_id = Ok t ->
  truthy t = true ->
  Py.le (approx_tokens (training_section_of t))
        (inject_Z max_context_tokens) = true ->
  search_documents sv q assistant_key tenant_id use_hybrid_search max_chunks
    = Ok [] ->
  assemble_raises f = false ->
  score_raises f = false ->
  let ctx := retrieve_context fmt sv f elapsed q assistant_key tenant_id
               use_hybrid_search max_chunks in
  context_text ctx = training_section_of t /\
  context_sources ctx = ["training_data"] /\
  retrieved_chunks ctx = [] /\
  source_count ctx = 0 /\
  (confidence_score ctx == 0.36 + 0.3 * simplicity_factor q)%Q /\
  (0.57 <= confidence_score ctx <= 0.66)%Q.
Proof.
  intros Ht Hne Hfit Hs Ha Hc ctx.
  assert (E : ctx =
    {| query := q; retrieved_chunks := [];
       context_text := training_section_of t;
       source_count := 0;
       confidence_score := calculate_confidence t [] q;
       processing_time := elapsed;
       context_sources := ["training_data"];
       token_count := Py.int (approx_tokens (training_section_of t)) |}).
  { subst ctx. unfold retrieve_context, retrieve_body.
    rewrite Ht. cbn [Py.bind]. rewrite Hs. cbn [Py.bind].
    rewrite Ha, Hc, Hne. cbn [step Py.bind is_nil Py.try_except length].
    unfold build_comprehensive_context. rewrite Hne.
    rewrite le_zero_plus, Hfit. cbn [is_nil negb andb Py.join]. reflexivity. }
  rewrite E. cbn [context_text context_sources retrieved_chunks source_count
                  confidence_score].
  pose proof (confidence_training_only t q Hne) as Hcf.
  pose proof (simplicity_bounds q) as Hb.
  repeat (split; [reflexivity|]). split; [exact Hcf|].
  rewrite Hcf. split; Lqa.lra.
Qed.

Lemma exact_match_only_witness :
  let ctx := retrieve_context Samples.two_decimals MoreSamples.exact_only_services Samples.no_faults
               0 "what are the hours" None None true 5 in
  context_text ctx = training_section_of "Q: hours? A: nine to five" /\
  context_sources ctx = ["training_data"] /\
  retrieved_chunks ctx = [] /\
  source_count ctx = 0 /\
  (confidence_score ctx == 0.36 + 0.3 * simplicity_factor "what are the hours")%Q /\
  (0.57 <= confidence_score ctx <= 0.66)%Q.
Proof.
  apply (exact_match_only Samples.two_decimals MoreSamples.exact_only_services Samples.no_faults
           0 "what are the hours" None None true 5
           "Q: hours? A: nine to five");
    reflexivity.
Defined.

End ExactOnly.

Section Truncation.

Import VectorSearchService RAGPipeline Words ContextBlocks.

Lemma firstn_snoc {A} (l : list A) (k : nat) (x : A) :
  l !! k = Some x -> firstn (S k) l = firstn k l ++ [x].
Proof.
  revert k. induction l as [|y l IH]; intros [|k] H; try discriminate.
  - now injection H as ->.
  - cbn [firstn app]. f_equal. now apply IH.
Qed.

(** X3. [_truncate_content] on a content of more than [max_words]
    words, for [max_words] at least 1, keeps the first [max_words]
    words and appends the marker, and the text returned has
    [max_words + 1] words: the three dots join the last word kept, and
    [truncated] is one word more. *)
Theorem truncate_content_words (content : string) (max_words : Z) :
  (1 <= max_words)%Z ->
  Z.to_nat max_words < length (Py.split content) ->
  exists w,
    Py.split content !! (Z.to_nat max_words - 1) = Some w /\
    Py.split (truncate_content content max_words)
      = firstn (Z.to_nat max_words - 1) (Py.split content)
        ++ [w +:+ "..."; "[truncated]"] /\
    length (Py.split (truncate_content content max_words))
      = Z.to_nat max_words + 1.
Proof.
  intros Hk Hlt. unfold truncate_content.
  set (words := Py.split content) in *. set (k := Z.to_nat max_words) in *.
  destruct (Z.leb_spec (Z.of_nat (length words)) max_words); [lia|].
  destruct (lookup_lt_is_Some_2 words (k - 1)) as [w Hw]; [lia|].
  exists w. split; [exact Hw|].
  assert (Hs : Py.slice_to words max_words = firstn (k - 1) words ++ [w]).
  { unfold Py.slice_to. destruct (Z.leb_spec 0 max_words); [|lia].
    fold k. replace k with (S (k - 1)) at 1 by lia.
    now apply firstn_snoc. }
  assert (Hall : Forall (fun w => is_word w = true) words)
    by apply split_words.
  assert (E : Py.split (Py.join " " (Py.slice_to words max_words)
                         +:+ "... [truncated]")
              = firstn (k - 1) words ++ [w +:+ "..."; "[truncated]"]).
  { rewrite Hs.
    change "... [truncated]" with ("..." +:+ " " +:+ "[truncated]").
    rewrite <- append_assoc, join_last_append, <- join_snoc.
    apply split_join. apply Forall_app. split.
    - now apply Forall_take.
    - constructor; [|constructor; [reflexivity|constructor]].
      apply is_word_append; [|reflexivity].
      exact (Forall_lookup_1 _ _ _ _ Hall Hw). }
  split; [exact E|].
  rewrite E, length_app, length_firstn. cbn [length]. lia.
Qed.

Lemma truncate_content_words_witness :
  exists w,
    Py.split "one two three four" !! (Z.to_nat 2 - 1) = Some w /\
    Py.split (truncate_content "one two three four" 2)
      = firstn (Z.to_nat 2 - 1) (Py.split "one two three four")
        ++ [w +:+ "..."; "[truncated]"] /\
    length (Py.split (truncate_content "one two three four" 2))
      = Z.to_nat 2 + 1.
Proof.
  apply (truncate_content_words "one two three four" 2); [lia|].
  vm_compute. lia.
Defined.

(** Within the limit the content is returned as it is. *)
Lemma truncate_content_short (content : string) (max_words : Z) :
  (Z.of_nat (length (Py.split content)) <= max_words)%Z ->
  truncate_content content max_words = content.
Proof.
  intros H. unfold truncate_content.
  destruct (Z.leb_spec (Z.of_nat (length (Py.split content))) max_words);
    [reflexivity|lia].
Qed.

(** X4. The loop of [_build_comprehensive_context] takes the results
    in the order given. It adds the block of a result (its source line
    and its content) as long as the tokens used stay below 0.9 of the
    budget and the block fits the budget, and it stops at the first
    result for which one of the two fails, or after the last result.
    When it stops because the block does not fit, it adds that block
    truncated to the tokens left if more than 50 are left, and
    nothing otherwise; when it stops at 0.9 of the budget it adds
    nothing more. *)
Theorem add_results_stops (fmt : Q -> string) (max_tokens : Q)
    (results : list SearchResult) :
  forall (vector_content : list string) (current_tokens : Q),
  exists k : nat,
    k <= length results /\
    (forall i r,
       i < k -> results !! i = Some r ->
       Py.le (max_tokens * 0.9)%Q (tokens_after fmt results current_tokens i)
       = false /\
       Py.le (tokens_after fmt results current_tokens i
              + approx_tokens (content_block fmt r))%Q max_tokens = true) /\
    match results !! k with
    | None =>
        add_results fmt max_tokens results vector_content current_tokens
        = vector_content ++ map (content_block fmt) results
    | Some r =>
        let used := tokens_after fmt results current_tokens k in
        if Py.le (max_tokens * 0.9)%Q used then
          add_results fmt max_tokens results vector_content current_tokens
          = vector_content ++ map (content_block fmt) (firstn k results)
        else
          Py.le (used + approx_tokens (content_block fmt r))%Q max_tokens
          = false /\
          add_results fmt max_tokens results vector_content current_tokens
          = vector_content ++ map (content_block fmt) (firstn k results)
            ++ (if Py.lt 50%Q (max_tokens - used)%Q
                then [truncate_content (content_block fmt r)
                        (Py.int ((max_tokens - used) / 1.3)%Q)]
                else [])
    end.
Proof.
  induction results as [|r rs IH]; intros vc c.
  - exists 0. split; [reflexivity|]. split; [intros; lia|].
    cbn. now rewrite app_nil_r.
  - cbn [add_results]. fold (content_block fmt r).
    destruct (Py.le (max_tokens * 0.9) c) eqn:Ecap.
    { exists 0. split; [cbn; lia|]. split; [intros; lia|].
      cbn [lookup list_lookup]. cbv zeta.
      unfold tokens_after. cbn [firstn map fold_left]. rewrite Ecap.
      now rewrite app_nil_r. }
    destruct (Py.le (c + approx_tokens (content_block fmt r)) max_tokens)
      eqn:Efit.
    + destruct (IH (vc ++ [content_block fmt r])
                   (c + approx_tokens (content_block fmt r))%Q)
        as (k & Hk & Hall & Hout).
      exists (S k). split; [cbn [length]; lia|]. split.
      * intros [|i] x Hi Hx.
        -- cbn in Hx. injection Hx as <-.
           unfold tokens_after. cbn [firstn map fold_left]. auto.
        -- apply (Hall i x); [lia|exact Hx].
      * change ((r :: rs) !! S k) with (rs !! k).
        change (tokens_after fmt (r :: rs) c (S k))
          with (tokens_after fmt rs
                  (c + approx_tokens (content_block fmt r))%Q k).
        cbn [firstn map]. destruct (rs !! k) as [x|].
        -- cbv zeta in *. destruct (Py.le _ (tokens_after _ _ _ _)).
           ++ rewrite Hout. now rewrite <- app_assoc.
           ++ destruct Hout as [Hno Hout]. split; [exact Hno|].
              rewrite Hout. now rewrite <- app_assoc.
        -- rewrite Hout. now rewrite <- app_assoc.
    + exists 0. split; [cbn; lia|]. split; [intros; lia|].
      cbn [lookup list_lookup]. cbv zeta.
      unfold tokens_after. cbn [firstn map fold_left]. rewrite Ecap.
      split; [exact Efit|].
      cbn [app]. destruct (Py.lt 50 (max_tokens - c)); [reflexivity|].
      now rewrite app_nil_r.
Qed.

(** A run of the loop on a budget of 100 tokens: the first block, of
    7 words, or 9.1 tokens, is added whole; the second, of 105 words,
    does not fit the 90.9 tokens left and is cut to 69 words, to which
    the marker adds one. *)
Lemma add_results_stops_sample :
  map (fun block => length (Py.split block))
      (add_results Samples.two_decimals 100
         [Samples.passage; MoreSamples.long_passage] [] 0)
  = [7; 70].
Proof. vm_compute. reflexivity. Qed.

End Truncation.

Section RetrievalCounts.

Import VectorSearchService RAGPipeline.

Lemma int_nonneg (x : Q) : (0 <= x)%Q -> (0 <= Py.int x)%Z.
Proof.
  destruct x as [n d]. unfold Qle, Py.int. cbn [Qnum Qden].
  intros H. apply Z.quot_pos; lia.
Qed.

Lemma approx_tokens_nonneg (s : string) : (0 <= approx_tokens s)%Q.
Proof.
  unfold approx_tokens. pose proof (of_nat_nonneg (length (Py.split s))).
  Lqa.lra.
Qed.

(** X23. On every path of [retrieve_context], failures included, the
    context counts its chunks: source_count is the number of retrieved
    chunks, the chunks are those that the search returned or none, and
    token_count is not negative. *)
Theorem context_counts_its_chunks (fmt : Q -> string) (sv : services)
    (f : faults) (elapsed : Q)
    (q : string) (assistant_key tenant_id : option string)
    (use_hybrid_search : bool) (max_chunks : Z) :
  let ctx := retrieve_context fmt sv f elapsed q assistant_key tenant_id
               use_hybrid_search max_chunks in
  source_count ctx = length (retrieved_chunks ctx) /\
  (retrieved_chunks ctx = [] \/
   search_documents sv q assistant_key tenant_id use_hybrid_search max_chunks
   = Ok (retrieved_chunks ctx)) /\
  (0 <= token_count ctx)%Z.
Proof.
  intros ctx. subst ctx. unfold retrieve_context, retrieve_body.
  assert (Hfb : let ctx := retrieve_fallback sv elapsed q assistant_key
                             tenant_id in
                source_count ctx = length (retrieved_chunks ctx) /\
                (retrieved_chunks ctx = [] \/
                 search_documents sv q assistant_key tenant_id
                   use_hybrid_search max_chunks = Ok (retrieved_chunks ctx)) /\
                (0 <= token_count ctx)%Z).
  { unfold retrieve_fallback.
    destruct (get_training_context sv 1 q assistant_key tenant_id) as [t|];
      cbn; (split; [reflexivity|]); (split; [now left|]); [|lia].
    destruct (truthy t); lia. }
  destruct (get_training_context sv 0 q assistant_key tenant_id) as [t|];
    cbn [Py.bind Py.try_except]; [|exact Hfb].
  destruct (search_documents sv q assistant_key tenant_id use_hybrid_search
              max_chunks) as [rs|] eqn:Es;
    cbn [Py.bind Py.try_except]; [|exact Hfb].
  unfold step.
  destruct (assemble_raises f); cbn [Py.bind Py.try_except]; [exact Hfb|].
  destruct (score_raises f); cbn [Py.bind Py.try_except]; [exact Hfb|].
  cbn [source_count retrieved_chunks token_count].
  split; [reflexivity|]. split; [now right|].
  apply int_nonneg, approx_tokens_nonneg.
Qed.

End RetrievalCounts.

(** ** The embedding cache *)

Section CacheFacts.

Import EmbeddingService EmbeddingQueries.

Variable hash : string -> Z.

(** Storing a response keeps every entry whose key is not a hash of
    the request. *)
Lemma store_fold_keeps (ps : list (string * embedding)) :
  forall (n0 : gmap string embedding) (c0 : gmap Z embedding) (m0 : nat)
         (k : Z) (e : embedding),
    c0 !! k = Some e ->
    Forall (fun p => hash p.1 <> k) ps ->
    (fold_left (store_step hash) ps (n0, c0, m0)).1.2 !! k = Some e.
Proof.
  induction ps as [|p ps IH]; intros n0 c0 m0 k e Hk Hps; cbn [fold_left].
  - exact Hk.
  - inversion Hps as [|? ? Hp Hrest]; subst. unfold store_step at 2.
    apply IH; [|exact Hrest]. now rewrite lookup_insert_ne.
Qed.

Lemma zip_fst_elem {A B} (u : list A) (d : list B) (p : A * B) :
  p ∈ zip u d -> p.1 ∈ u.
Proof. destruct p as [a b]. apply elem_of_zip_l. Qed.

Lemma process_batch_cache_incl (api : backend) (st : state)
    (batch : list string) :
  embedding_cache st ⊆ embedding_cache (process_batch hash api st batch).2.
Proof.
  apply map_subseteq_spec. intros k e Hk. unfold process_batch.
  destruct (valid_texts batch) as [|v vs]; [exact Hk|].
  pose proof (cache_partition_spec hash st batch) as Hspec.
  destruct (cache_partition hash st batch) as [[c u] h].
  destruct Hspec as [_ Hu].
  destruct u as [|x u]; [exact Hk|].
  destruct (api (x :: u)) as [data|]; cbn -[zero_vector fold_left zip];
    [|exact Hk].
  pose proof (store_fold_keeps (zip (x :: u) data) ∅ (embedding_cache st)
                (cache_misses st) k e Hk) as H.
  destruct (fold_left _ _ _) as [[n cache] misses].
  cbn -[zero_vector fold_left zip] in *. apply H.
  apply Forall_forall. intros p Hp Heq.
  apply zip_fst_elem, Hu in Hp as [_ Hp]. congruence.
Qed.

Lemma batch_loop_cache_incl (client : nat -> backend) (texts : list string)
    (size : nat) (starts : list nat) :
  forall (embeddings : list embedding) (st : state),
    embedding_cache st
    ⊆ embedding_cache (batch_loop hash client texts size starts embeddings st).2.
Proof.
  induction starts as [|i rest IH]; intros embeddings st; cbn [batch_loop].
  - reflexivity.
  - pose proof (process_batch_cache_incl (client i) st
                  (firstn size (skipn i texts))) as H.
    destruct (process_batch _ _ _ _) as [vs st'].
    etransitivity; [exact H|]. apply IH.
Qed.

(** X5. The cache only grows. After [generate_batch_embeddings], for
    every batch size, and after [generate_embedding], every entry that
    the cache held is still there with the same vector; a failure of
    the backend removes nothing and overwrites nothing. *)
Theorem cache_only_grows (client : nat -> backend)
    (api : single_backend) (st : state) (texts : list string)
    (batch_size : option Z) (text : string) :
  embedding_cache st
  ⊆ embedding_cache (generate_batch_embeddings hash client st texts batch_size).2
  /\
  embedding_cache st
  ⊆ embedding_cache (generate_embedding hash api st text).2.
Proof.
  split.
  - unfold generate_batch_embeddings. destruct texts as [|t ts]; [reflexivity|].
    apply batch_loop_cache_incl.
  - unfold generate_embedding.
    destruct (negb (truthy text) || negb (truthy (Py.strip text)));
      [reflexivity|].
    destruct (embedding_cache st !! hash (Py.strip text)) as [e|] eqn:E;
      [reflexivity|].
    destruct (api (Py.strip text)) as [e|]; cbn; [|reflexivity].
    now apply insert_subseteq.
Qed.

Lemma generate_embedding_hit (api : single_backend) (st : state)
    (text : string) (e : embedding) :
  truthy (Py.strip text) = true ->
  embedding_cache st !! hash (Py.strip text) = Some e ->
  generate_embedding hash api st text
  = (e, {| embedding_cache := embedding_cache st;
           cache_hits := S (cache_hits st);
           cache_misses := cache_misses st |}).
Proof.
  intros Ht He. unfold generate_embedding.
  rewrite Ht, (strip_truthy _ Ht), He. reflexivity.
Qed.

(** After a call that the cache or the backend answered, the cache
    holds the vector returned. *)
Lemma generate_embedding_stores (api : single_backend) (st : state)
    (text : string) :
  truthy (Py.strip text) = true ->
  (embedding_cache st !! hash (Py.strip text) = None ->
   api (Py.strip text) <> Raise) ->
  embedding_cache (generate_embedding hash api st text).2
    !! hash (Py.strip text)
  = Some (generate_embedding hash api st text).1.
Proof.
  intros Ht Hup. unfold generate_embedding.
  rewrite Ht, (strip_truthy _ Ht). cbn [negb orb].
  destruct (embedding_cache st !! hash (Py.strip text)) as [e|] eqn:E.
  - exact E.
  - specialize (Hup eq_refl).
    destruct (api (Py.strip text)) as [e|]; [|congruence].
    cbn. apply lookup_insert_eq.
Qed.

Lemma process_batch_single_hit (api : backend) (st : state)
    (text : string) (e : embedding) :
  truthy (Py.strip text) = true ->
  embedding_cache st !! hash (Py.strip text) = Some e ->
  uncached_texts hash st [text] = [] /\
  (process_batch hash api st [text]).1 = [e].
Proof.
  intros Ht He.
  assert (Hv : valid_texts [text] = [Py.strip text]).
  { unfold valid_texts. cbn [filter list_filter].
    rewrite (strip_truthy _ Ht), Ht. reflexivity. }
  unfold uncached_texts, process_batch, cache_partition.
  rewrite Hv. cbn [fold_left cache_step]. rewrite He.
  split; [reflexivity|].
  cbn [map]. rewrite pick_key, lookup_insert_eq. reflexivity.
Qed.

(** X6. A vector that [generate_embedding] obtained from the cache or
    from the backend is what every later call returns for a text with
    the same stripped form, whatever the backend does then: a single
    call returns it, and a batch call of that one text sends nothing
    to the backend and returns it. *)
Theorem cached_after_single (api : single_backend) (st : state)
    (text text' : string) :
  truthy (Py.strip text) = true ->
  (embedding_cache st !! hash (Py.strip text) = None ->
   api (Py.strip text) <> Raise) ->
  Py.strip text' = Py.strip text ->
  let e := (generate_embedding hash api st text).1 in
  let st1 := (generate_embedding hash api st text).2 in
  (forall api', (generate_embedding hash api' st1 text').1 = e) /\
  uncached_texts hash st1 [text'] = [] /\
  (forall api', (process_batch hash api' st1 [text']).1 = [e]).
Proof.
  intros Ht Hup Hs e st1.
  pose proof (generate_embedding_stores api st text Ht Hup) as Hc.
  fold e st1 in Hc. rewrite <- Hs in Ht, Hc.
  split; [|split].
  - intros api'. now rewrite (generate_embedding_hit api' st1 text' e Ht Hc).
  - apply (process_batch_single_hit (fun _ => Raise) st1 text' e Ht Hc).
  - intros api'. apply (process_batch_single_hit api' st1 text' e Ht Hc).
Qed.

(** Under a hash without collisions the loop that stores a response
    keeps the new embeddings and the cache in step. *)
Lemma store_fold_agree (hash_inj : forall a b, hash a = hash b -> a = b)
    (cache0 : gmap Z embedding) (ps : list (string * embedding)) :
  forall (n0 : gmap string embedding) (c0 : gmap Z embedding) (m0 : nat),
    (forall t, n0 !! t = c0 !! hash t \/
               (n0 !! t = None /\ c0 !! hash t = cache0 !! hash t)) ->
    let r := fold_left (store_step hash) ps (n0, c0, m0) in
    forall t, r.1.1 !! t = r.1.2 !! hash t \/
              (r.1.1 !! t = None /\ r.1.2 !! hash t = cache0 !! hash t).
Proof.
  induction ps as [|p ps IH]; intros n0 c0 m0 H0; cbn [fold_left].
  - exact H0.
  - unfold store_step at 2. apply IH. intros t.
    destruct (decide (t = p.1)) as [->|Hne].
    + left. now rewrite !lookup_insert_eq.
    + assert (hash p.1 <> hash t) by (intros E; apply hash_inj in E; congruence).
      rewrite !lookup_insert_ne by congruence. apply H0.
Qed.

(** Every text of a response that is stored is in the cache
    afterwards. *)
Lemma store_fold_cached (ps : list (string * embedding)) :
  forall (n0 : gmap string embedding) (c0 : gmap Z embedding) (m0 : nat)
         (k : Z),
    is_Some (c0 !! k) \/ k ∈ map (fun p => hash p.1) ps ->
    is_Some ((fold_left (store_step hash) ps (n0, c0, m0)).1.2 !! k).
Proof.
  induction ps as [|p ps IH]; intros n0 c0 m0 k H; cbn [fold_left].
  - destruct H as [H|H]; [exact H|inversion H].
  - unfold store_step at 2. apply IH.
    destruct (decide (k = hash p.1)) as [->|Hne].
    + left. rewrite lookup_insert_eq. eauto.
    + rewrite lookup_insert_ne by congruence.
      destruct H as [H|H]; [now left|]. cbn [map] in H.
      apply elem_of_cons in H as [H|H]; [congruence|now right].
Qed.

Lemma zip_complete {A B} (u : list A) (d : list B) (a : A) :
  length d = length u -> a ∈ u -> exists b, (a, b) ∈ zip u d.
Proof.
  revert d. induction u as [|x u IH]; intros [|y d] Hlen Ha;
    try discriminate; [inversion Ha|].
  apply elem_of_cons in Ha as [->|Ha].
  - exists y. apply list_elem_of_here.
  - destruct (IH d) as [b Hb]; [now injection Hlen|exact Ha|].
    exists b. now apply list_elem_of_further.
Qed.

(** X7. Under a hash without collisions, when the backend answers a
    batch with one embedding for each text sent, the vector that
    [_process_batch] returns for a text that is not blank is the
    vector that a later [generate_embedding] of that text returns,
    whatever the backend does then. *)
Theorem batch_then_single (hash_inj : forall a b, hash a = hash b -> a = b)
    (api : backend) (st : state) (batch : list string)
    (data : list embedding) (i : nat) (t : string) :
  api (uncached_texts hash st batch) = Ok data ->
  length data = length (uncached_texts hash st batch) ->
  batch !! i = Some t ->
  truthy (Py.strip t) = true ->
  exists e,
    (process_batch hash api st batch).1 !! i = Some e /\
    forall api' : single_backend,
      (generate_embedding hash api' (process_batch hash api st batch).2 t).1
      = e.
Proof.
  intros Hapi Hlen Hi Ht.
  assert (Hv : Py.strip t ∈ valid_texts batch).
  { apply valid_texts_spec. exists t. split; [|auto].
    eapply list_elem_of_lookup_2. exact Hi. }
  assert (Hgoal : exists e,
    (process_batch hash api st batch).1 !! i = Some e /\
    embedding_cache (process_batch hash api st batch).2 !! hash (Py.strip t)
    = Some e).
  { pose proof (process_batch_cache_incl api st batch) as Hincl.
    rewrite map_subseteq_spec in Hincl.
    revert Hincl. unfold process_batch.
    unfold uncached_texts in Hapi, Hlen.
    destruct (valid_texts batch) as [|v vs] eqn:Ev; [inversion Hv|].
    rewrite <- Ev in Hv. clear Ev v vs.
    pose proof (cache_partition_spec hash st batch) as Hspec.
    destruct (cache_partition hash st batch) as [[c u] h].
    destruct Hspec as [Hc Hu]. cbn [fst snd] in Hapi, Hlen.
    assert (Hcs : c !! Py.strip t = embedding_cache st !! hash (Py.strip t)).
    { rewrite Hc. now rewrite bool_decide_eq_true_2. }
    destruct (embedding_cache st !! hash (Py.strip t)) as [e0|] eqn:E0.
    - (* served from the cache *)
      intros Hincl. exists e0.
      assert (Hp : forall n : gmap string embedding,
                 map (pick c n) batch !! i = Some e0).
      { intros n. change (map ?g batch) with (g <$> batch).
        rewrite list_lookup_fmap, Hi. cbn [fmap option_fmap option_map].
        now rewrite pick_key, Hcs. }
      destruct u as [|x u].
      + cbn -[zero_vector fold_left zip] in *.
        split; [apply Hp|now apply Hincl].
      + rewrite Hapi in *. cbn -[zero_vector fold_left zip] in *.
        destruct (fold_left (store_step hash) _ _) as [[n cache] misses].
        cbn -[zero_vector fold_left zip] in *.
        split; [apply Hp|now apply Hincl].
    - (* sent to the backend *)
      intros _.
      assert (Hin : Py.strip t ∈ u) by (apply Hu; auto).
      destruct u as [|x u]; [inversion Hin|].
      rewrite Hapi. cbn -[zero_vector fold_left zip].
      destruct (zip_complete (x :: u) data (Py.strip t) Hlen Hin) as [d Hd].
      pose proof (store_fold_agree hash_inj (embedding_cache st)
                    (zip (x :: u) data) ∅ (embedding_cache st)
                    (cache_misses st)) as Hag.
      pose proof (store_fold_cached (zip (x :: u) data) ∅ (embedding_cache st)
                    (cache_misses st) (hash (Py.strip t))) as Hst.
      destruct (fold_left _ _ _) as [[n cache] misses].
      cbn -[zero_vector fold_left zip] in *.
      destruct Hst as [e He].
      { right. change (map ?g ?l) with (g <$> l).
        apply list_elem_of_fmap. exists (Py.strip t, d). auto. }
      exists e. split; [|exact He].
      change (map ?g batch) with (g <$> batch).
      rewrite list_lookup_fmap, Hi. cbn [fmap option_fmap option_map].
      rewrite pick_key, Hcs.
      destruct (Hag (fun s => or_intror (conj (lookup_empty s) eq_refl))
                  (Py.strip t)) as [Hn|[_ Hn]].
      + now rewrite Hn, He.
      + congruence. }
  destruct Hgoal as (e & He & Hc). exists e. split; [exact He|].
  intros api'. now rewrite (generate_embedding_hit api' _ t e Ht Hc).
Qed.

End CacheFacts.

Section CacheInstances.

Import EmbeddingService EmbeddingQueries Samples MoreSamples.

Lemma sample_hash_inj (a b : string) : sample_hash a = sample_hash b -> a = b.
Proof. unfold sample_hash. intros H. injection H as H. exact (encode_inj _ _ H). Qed.

Lemma cached_after_single_witness :
  let e := (generate_embedding sample_hash answering_single empty_state
              " tea ").1 in
  let st1 := (generate_embedding sample_hash answering_single empty_state
                " tea ").2 in
  (forall api', (generate_embedding sample_hash api' st1 "tea").1 = e) /\
  uncached_texts sample_hash st1 ["tea"] = [] /\
  (forall api', (process_batch sample_hash api' st1 ["tea"]).1 = [e]).
Proof.
  apply (cached_after_single sample_hash answering_single empty_state
           " tea " "tea").
  - reflexivity.
  - intros _. discriminate.
  - reflexivity.
Defined.

Lemma batch_then_single_witness :
  exists e,
    (process_batch sample_hash answering_backend empty_state ["tea"; " "]).1
      !! 0 = Some e /\
    forall api' : single_backend,
      (generate_embedding sample_hash api'
         (process_batch sample_hash answering_backend empty_state
            ["tea"; " "]).2 "tea").1 = e.
Proof.
  apply (batch_then_single sample_hash sample_hash_inj answering_backend
           empty_state ["tea"; " "] [ones] 0 "tea").
  - vm_compute. reflexivity.
  - vm_compute. reflexivity.
  - reflexivity.
  - reflexivity.
Defined.

End CacheInstances.

(** ** The query filter and the cache statistics *)

Section QueryFilter.

Import EmbeddingService EmbeddingQueries Words.

Lemma filtered_words_words (query : string) :
  Forall (fun w => is_word w = true) (filtered_words query).
Proof.
  unfold filtered_words. apply Forall_forall. intros w Hw.
  apply list_elem_of_filter in Hw as [_ Hw].
  pose proof (split_words (Py.lower (Py.strip query))) as H.
  rewrite Forall_forall in H. now apply H.
Qed.

Lemma filtered_words_clean (query : string) :
  Forall (fun w => w ∉ question_words) (filtered_words query).
Proof.
  unfold filtered_words. apply Forall_forall. intros w Hw.
  apply list_elem_of_filter in Hw as [Hp _].
  apply Is_true_true, negb_true_iff, bool_decide_eq_false in Hp. exact Hp.
Qed.

Lemma keeps_enough (f n : nat) :
  Py.lt (Py.of_nat f) (Py.of_nat n * 0.3)%Q = true <-> 10 * f < 3 * n.
Proof.
  rewrite lt_spec. unfold Py.of_nat, Qlt. cbn [Qnum Qden Qmult inject_Z].
  lia.
Qed.

(** X8. When the filter of [embed_query] keeps at least 0.3 of the
    words of a query, the text that is embedded consists of exactly
    the words kept, in their order: it holds none of the question
    words. *)
Theorem final_query_filtered (query : string) :
  3 * length (Py.split (Py.lower (Py.strip query)))
    <= 10 * length (filtered_words query) ->
  Py.split (final_query query) = filtered_words query /\
  Forall (fun w => w ∉ question_words) (Py.split (final_query query)).
Proof.
  intros H. unfold final_query.
  destruct (Py.lt _ _) eqn:E; [apply keeps_enough in E; lia|].
  rewrite split_join by apply filtered_words_words.
  split; [reflexivity|apply filtered_words_clean].
Qed.

Lemma final_query_filtered_witness :
  Py.split (final_query "What is the Opening time") = ["opening"; "time"] /\
  Forall (fun w => w ∉ question_words)
         (Py.split (final_query "What is the Opening time")).
Proof.
  apply (final_query_filtered "What is the Opening time").
  vm_compute. lia.
Defined.

(** X9. A query of one word or more whose words are all question
    words is embedded as it was typed, not as the empty text that the
    filter leaves. *)
Theorem question_words_only (hash : string -> Z) (api : single_backend)
    (st : state) (query : string) :
  filtered_words query = [] ->
  Py.split (Py.lower (Py.strip query)) <> [] ->
  embed_query hash api st query = generate_embedding hash api st query.
Proof.
  intros Hf Hw. unfold embed_query, final_query. rewrite Hf.
  destruct (Py.split (Py.lower (Py.strip query))) as [|w ws]; [congruence|].
  destruct (Py.lt _ _) eqn:E; [reflexivity|].
  assert (H : Py.lt (Py.of_nat 0) (Py.of_nat (length (w :: ws)) * 0.3)%Q = true)
    by (apply keeps_enough; cbn [length]; lia).
  cbn [length] in H, E. congruence.
Qed.

Lemma question_words_only_witness :
  embed_query Samples.sample_hash MoreSamples.answering_single
    Samples.empty_state "Who is the"
  = generate_embedding Samples.sample_hash MoreSamples.answering_single
      Samples.empty_state "Who is the".
Proof.
  apply (question_words_only Samples.sample_hash MoreSamples.answering_single
           Samples.empty_state "Who is the").
  - reflexivity.
  - discriminate.
Defined.

End QueryFilter.

Section CacheStatistics.

Import EmbeddingService EmbeddingQueries.

Lemma round_half_even_range (y : Q) (n : Z) :
  (0 <= y)%Q -> (y <= inject_Z n)%Q ->
  (0 <= Py.round_half_even y <= n)%Z.
Proof.
  intros H0 Hn. unfold Py.round_half_even.
  pose proof (Qfloor_le y) as Hfl. pose proof (Qlt_floor y) as Hlt.
  set (fl := Qfloor y) in *.
  assert (Hfl0 : (0 <= fl)%Z).
  { assert (H : (inject_Z 0 < inject_Z (fl + 1))%Q)
      by (eapply Qle_lt_trans; [exact H0|exact Hlt]).
    rewrite <- Zlt_Qlt in H. lia. }
  assert (Hfln : (fl <= n)%Z).
  { rewrite Zle_Qle. now apply Qle_trans with y. }
  assert (Hup : Py.lt (y - inject_Z fl) 0.5 = false -> (fl + 1 <= n)%Z).
  { intros E. apply lt_false in E.
    assert (H : (inject_Z fl < inject_Z n)%Q) by Lqa.lra.
    rewrite <- Zlt_Qlt in H. lia. }
  destruct (Py.lt (y - inject_Z fl) 0.5) eqn:E; [lia|].
  specialize (Hup eq_refl).
  destruct (Py.lt 0.5 _); [lia|]. destruct (Z.even fl); lia.
Qed.

(** X10. The hit rate that [get_cache_stats] reports is a percentage:
    it lies between 0 and 100 for every state of the counters, also
    before the first request. *)
Theorem hit_rate_percentage (st : state) :
  (0 <= hit_rate (get_cache_stats st) <= 100)%Q.
Proof.
  unfold get_cache_stats. cbn [hit_rate]. unfold round2.
  set (rate := if 0 <? _ then _ else 0%Q).
  assert (Hr : (0 <= rate <= 100)%Q).
  { subst rate. destruct (Nat.ltb_spec 0 (cache_hits st + cache_misses st))
      as [Hpos|Hz]; [|split; Lqa.lra].
    pose proof (of_nat_pos _ Hpos) as Ht.
    pose proof (of_nat_nonneg (cache_hits st)) as Hh.
    assert (Hle : (Py.of_nat (cache_hits st)
                   <= Py.of_nat (cache_hits st + cache_misses st))%Q)
      by (apply of_nat_le; lia).
    assert (H0 : (0 <= Py.of_nat (cache_hits st)
                       / Py.of_nat (cache_hits st + cache_misses st))%Q)
      by (apply Qle_shift_div_l; [exact Ht|Lqa.lra]).
    assert (H1 : (Py.of_nat (cache_hits st)
                  / Py.of_nat (cache_hits st + cache_misses st) <= 1)%Q)
      by (apply Qle_shift_div_r; [exact Ht|Lqa.lra]).
    set (x := (Py.of_nat (cache_hits st) / _)%Q) in *.
    split; Lqa.lra. }
  destruct (round_half_even_range (rate * 100) 10000) as [Hlo Hhi].
  { Lqa.lra. }
  { change (inject_Z 10000) with 10000%Q. Lqa.lra. }
  rewrite Zle_Qle in Hlo, Hhi.
  set (m := inject_Z (Py.round_half_even (rate * 100))) in *.
  change (inject_Z 0) with 0%Q in Hlo.
  change (inject_Z 10000) with 10000%Q in Hhi.
  split.
  - apply Qle_shift_div_l; [reflexivity|Lqa.lra].
  - apply Qle_shift_div_r; [reflexivity|Lqa.lra].
Qed.

End CacheStatistics.

(** ** Search: fusion, scope, ranking *)

Section Dictionaries.

Import VectorSearchService HybridSearch Fusion.

Lemma dict_get_elem (k : result_key) (d : ordered_dict) (v : scored) :
  dict_get k d = Some v -> (k, v) ∈ d.
Proof.
  induction d as [|[k' v'] d IH]; cbn [dict_get]; [discriminate|].
  destruct (bool_decide (k = k')) eqn:E.
  - apply bool_decide_eq_true in E. subst k'. intros [= ->].
    apply list_elem_of_here.
  - intros H. apply list_elem_of_further. now apply IH.
Qed.

Lemma dict_get_None (k : result_key) (d : ordered_dict) :
  dict_get k d = None -> k ∉ d.*1.
Proof.
  induction d as [|[k' v'] d IH]; cbn [dict_get].
  - intros _ H. inversion H.
  - destruct (bool_decide (k = k')) eqn:E; [discriminate|].
    apply bool_decide_eq_false in E. intros H Hin. cbn in Hin.
    apply elem_of_cons in Hin as [Hin|Hin]; [congruence|]. now apply IH.
Qed.

Lemma dict_set_keys (k : result_key) (v : scored) (d : ordered_dict)
    (k' : result_key) :
  k' ∈ (dict_set k v d).*1 <-> k' = k \/ k' ∈ d.*1.
Proof.
  induction d as [|[k0 v0] d IH]; cbn [dict_set].
  - cbn. rewrite list_elem_of_singleton. split; [auto|].
    intros [H|H]; [exact H|inversion H].
  - destruct (bool_decide (k = k0)) eqn:E.
    + apply bool_decide_eq_true in E. subst k0. cbn.
      rewrite !elem_of_cons. tauto.
    + cbn. rewrite !elem_of_cons, IH. tauto.
Qed.

Lemma dict_set_NoDup (k : result_key) (v : scored) (d : ordered_dict) :
  NoDup d.*1 -> NoDup (dict_set k v d).*1.
Proof.
  induction d as [|[k0 v0] d IH]; cbn [dict_set].
  - intros _. cbn. apply NoDup_singleton.
  - destruct (bool_decide (k = k0)) eqn:E.
    + apply bool_decide_eq_true in E. now subst k0.
    + apply bool_decide_eq_false in E. cbn. rewrite !NoDup_cons.
      intros [Hn Hd]. split; [|now apply IH].
      rewrite dict_set_keys. intros [H|H]; [congruence|tauto].
Qed.

Lemma dict_set_elem (k : result_key) (v : scored) (d : ordered_dict)
    (p : result_key * scored) :
  NoDup d.*1 ->
  p ∈ dict_set k v d -> p = (k, v) \/ (p ∈ d /\ p.1 <> k).
Proof.
  induction d as [|[k0 v0] d IH]; cbn [dict_set].
  - intros _ H. apply list_elem_of_singleton in H. now left.
  - cbn. rewrite NoDup_cons. intros [Hn Hd].
    destruct (bool_decide (k = k0)) eqn:E.
    + apply bool_decide_eq_true in E. subst k0. intros H.
      apply elem_of_cons in H as [H|H]; [now left|].
      right. split; [now apply list_elem_of_further|].
      intros <-. apply Hn. apply list_elem_of_fmap. now exists p.
    + apply bool_decide_eq_false in E. intros H.
      apply elem_of_cons in H as [->|H].
      * right. split; [apply list_elem_of_here|]. cbn. congruence.
      * apply IH in H as [H|[H Hk]]; [now left| |exact Hd].
        right. split; [now apply list_elem_of_further|exact Hk].
Qed.

Lemma leg_score_snoc (leg : list SearchResult) (r : SearchResult)
    (k : result_key) (s : Q) :
  leg_score leg k s -> k <> key_of r -> leg_score (leg ++ [r]) k s.
Proof.
  intros [(x & Hx & Hk & Hs)|[Hs Hn]] Hne.
  - left. exists x. split; [|auto]. apply elem_of_app. now left.
  - right. split; [exact Hs|]. rewrite fmap_app, elem_of_app.
    intros [H|H]; [tauto|]. cbn in H. apply list_elem_of_singleton in H.
    congruence.
Qed.

Lemma leg_score_here (leg : list SearchResult) (r : SearchResult) :
  leg_score (leg ++ [r]) (key_of r) (similarity r).
Proof.
  left. exists r. split; [|auto]. apply elem_of_app. right.
  apply list_elem_of_here.
Qed.

Lemma leg_score_kept (leg : list SearchResult) (r : SearchResult)
    (k : result_key) (s : Q) :
  (exists x, x ∈ leg /\ key_of x = k /\ s = similarity x) ->
  leg_score (leg ++ [r]) k s.
Proof.
  intros (x & Hx & Hk & Hs). left. exists x. split; [|auto].
  apply elem_of_app. now left.
Qed.

Lemma vector_step (vs : list SearchResult) (r : SearchResult)
    (d : ordered_dict) :
  map_ok vs [] d -> map_ok (vs ++ [r]) [] (add_vector_result d r).
Proof.
  intros (Hnd & Hkeys & Hall). unfold add_vector_result.
  split; [now apply dict_set_NoDup|]. split.
  - intros k. rewrite dict_set_keys, Hkeys, !app_nil_r, fmap_app, elem_of_app.
    cbn. rewrite list_elem_of_singleton. tauto.
  - apply Forall_forall. intros p Hp.
    apply dict_set_elem in Hp as [->|[Hp Hne]]; [| |exact Hnd].
    + split; [reflexivity|]. cbn [fst snd hit vector_score keyword_score].
      split; [|split].
      * rewrite app_nil_r. apply elem_of_app. right. apply list_elem_of_here.
      * apply leg_score_here.
      * right. split; [reflexivity|]. intros H. inversion H.
    + rewrite Forall_forall in Hall.
      destruct (Hall p Hp) as (Hk & Hin & Hv & Hkw).
      split; [exact Hk|]. split; [|split].
      * rewrite app_nil_r in *. apply elem_of_app. now left.
      * now apply leg_score_snoc.
      * exact Hkw.
Qed.

Lemma vector_loop (rs : list SearchResult) :
  forall (vs : list SearchResult) (d : ordered_dict),
    map_ok vs [] d ->
    map_ok (vs ++ rs) [] (fold_left add_vector_result rs d).
Proof.
  induction rs as [|r rs IH]; intros vs d H; cbn [fold_left].
  - now rewrite app_nil_r.
  - rewrite cons_middle, app_assoc. apply IH. now apply vector_step.
Qed.

Lemma keyword_step (vs ks : list SearchResult) (r : SearchResult)
    (d : ordered_dict) :
  map_ok vs ks d -> map_ok vs (ks ++ [r]) (add_keyword_result d r).
Proof.
  intros (Hnd & Hkeys & Hall). rewrite Forall_forall in Hall.
  assert (Hold : forall p, p ∈ d -> p.1 <> key_of r ->
                           entry_ok vs (ks ++ [r]) p).
  { intros p Hp Hne. destruct (Hall p Hp) as (Hk & Hin & Hv & Hkw).
    split; [exact Hk|]. split; [|split].
    - rewrite app_assoc. apply elem_of_app. now left.
    - exact Hv.
    - now apply leg_score_snoc. }
  assert (Hkeys' : forall v k,
             k ∈ (dict_set (key_of r) v d).*1
             <-> k ∈ key_of <$> (vs ++ ks ++ [r])).
  { intros v k.
    rewrite dict_set_keys, Hkeys, !fmap_app, !elem_of_app.
    cbn. rewrite list_elem_of_singleton. tauto. }
  unfold add_keyword_result.
  destruct (dict_get (key_of r) d) as [data|] eqn:E.
  - apply dict_get_elem in E.
    destruct (Hall _ E) as (Hk & Hin & Hv & Hkw). cbn [fst snd] in *.
    split; [now apply dict_set_NoDup|]. split; [apply Hkeys'|].
    apply Forall_forall. intros p Hp.
    apply dict_set_elem in Hp as [->|[Hp Hne]]; [|now apply Hold|exact Hnd].
    split; [exact Hk|]. cbn [fst snd hit vector_score keyword_score].
    split; [|split].
    + rewrite app_assoc. apply elem_of_app. now left.
    + exact Hv.
    + apply leg_score_here.
  - apply dict_get_None in E.
    split; [now apply dict_set_NoDup|]. split; [apply Hkeys'|].
    apply Forall_forall. intros p Hp.
    apply dict_set_elem in Hp as [->|[Hp Hne]]; [|now apply Hold|exact Hnd].
    split; [reflexivity|]. cbn [fst snd hit vector_score keyword_score].
    split; [|split].
    + rewrite app_assoc. apply elem_of_app. right. apply list_elem_of_here.
    + right. split; [reflexivity|]. intros H. apply E, Hkeys.
      rewrite fmap_app, elem_of_app. now left.
    + apply leg_score_here.
Qed.

Lemma keyword_loop (rs : list SearchResult) (vs : list SearchResult) :
  forall (ks : list SearchResult) (d : ordered_dict),
    map_ok vs ks d ->
    map_ok vs (ks ++ rs) (fold_left add_keyword_result rs d).
Proof.
  induction rs as [|r rs IH]; intros ks d H; cbn [fold_left].
  - now rewrite app_nil_r.
  - rewrite cons_middle, app_assoc. apply IH. now apply keyword_step.
Qed.

Lemma combined_map_ok (vector_results keyword_results : list SearchResult) :
  map_ok vector_results keyword_results
    (combined_map vector_results keyword_results).
Proof.
  unfold combined_map.
  apply (keyword_loop keyword_results vector_results []).
  apply (vector_loop vector_results []).
  split; [constructor|]. split; [|constructor].
  intros k. cbn. tauto.
Qed.

End Dictionaries.

Section SliceFacts.

Import Orders.

Lemma slice_to_Forall {A} (P : A -> Prop) (l : list A) (k : Z) :
  Forall P l -> Forall P (Py.slice_to l k).
Proof. intros H. unfold Py.slice_to. destruct (0 <=? k)%Z; now apply Forall_take. Qed.

Lemma slice_to_length {A} (l : list A) (k : Z) :
  (0 <= k)%Z -> length (Py.slice_to l k) <= Z.to_nat k.
Proof.
  intros H. unfold Py.slice_to. destruct (Z.leb_spec 0 k); [|lia].
  rewrite length_firstn. lia.
Qed.

Lemma slice_to_all {A} (l : list A) (k : Z) :
  (Z.of_nat (length l) <= k)%Z -> Py.slice_to l k = l.
Proof.
  intros H. unfold Py.slice_to. destruct (Z.leb_spec 0 k); [|lia].
  apply firstn_all2. lia.
Qed.

Lemma firstn_descending {A} (key : A -> Q) (n : nat) (l : list A) :
  descending key l -> descending key (firstn n l).
Proof.
  unfold descending. intros H. revert n.
  induction H as [|x l Hl IH Hx]; intros [|n]; cbn [firstn]; try constructor.
  - apply IH.
  - now apply Forall_take.
Qed.

Lemma slice_to_descending {A} (key : A -> Q) (l : list A) (k : Z) :
  descending key l -> descending key (Py.slice_to l k).
Proof.
  intros H. unfold Py.slice_to. destruct (0 <=? k)%Z;
    now apply firstn_descending.
Qed.

End SliceFacts.

Section FusionFacts.

Import VectorSearchService EmbeddingService EmbeddingQueries HybridSearch.
Import Fusion Orders.

Variable render : Q -> string.

Lemma final_result_key (vw kw : Q) (data : scored) :
  key_of (final_result render vw kw data) = key_of (hit data).
Proof. reflexivity. Qed.

Lemma combined_keys (vector_results keyword_results : list SearchResult)
    (vw kw : Q) :
  key_of <$> map (fun p => final_result render vw kw p.2)
                 (combined_map vector_results keyword_results)
  = (combined_map vector_results keyword_results).*1.
Proof.
  destruct (combined_map_ok vector_results keyword_results) as (_ & _ & Hall).
  induction Hall as [|p d Hp Hd IH]; [reflexivity|].
  cbn [map fmap list_fmap]. f_equal; [|exact IH].
  destruct Hp as (Hk & _). exact Hk.
Qed.

(** X11. [_combine_search_results] scores a chunk by
    [vector_score * vector_weight + keyword_score * keyword_weight],
    where the score of a leg is the similarity of a result of that
    leg with the key (chunk_id, doc_id) of the chunk, and 0.0 when the
    leg did not return the chunk. *)
Theorem fused_score (vector_results keyword_results : list SearchResult)
    (vector_weight keyword_weight : Q) :
  Forall (fun r =>
            exists vs ks,
              similarity r = (vs * vector_weight + ks * keyword_weight)%Q /\
              leg_score vector_results (key_of r) vs /\
              leg_score keyword_results (key_of r) ks)
    (combine_search_results render vector_results keyword_results
       vector_weight keyword_weight).
Proof.
  unfold combine_search_results. apply sorted_desc_Forall.
  apply List.Forall_map.
  destruct (combined_map_ok vector_results keyword_results) as (_ & _ & Hall).
  eapply List.Forall_impl; [|exact Hall].
  intros p (Hk & _ & Hv & Hkw).
  exists (vector_score p.2), (keyword_score p.2).
  rewrite final_result_key, Hk. auto.
Qed.

(** The keys of the fusion are those of the two legs, each once. *)
Lemma combine_keys (vector_results keyword_results : list SearchResult)
    (vw kw : Q) :
  NoDup (key_of <$> combine_search_results render vector_results
                      keyword_results vw kw) /\
  (forall k, k ∈ key_of <$> combine_search_results render vector_results
                              keyword_results vw kw
             <-> k ∈ key_of <$> (vector_results ++ keyword_results)).
Proof.
  unfold combine_search_results.
  destruct (combined_map_ok vector_results keyword_results)
    as (Hnd & Hkeys & _).
  pose proof (combined_keys vector_results keyword_results vw kw) as Hk.
  set (l := map _ (combined_map vector_results keyword_results)) in *.
  assert (Hp : key_of <$> Py.sorted_desc similarity l ≡ₚ key_of <$> l).
  { apply fmap_Permutation. symmetry. apply sorted_desc_perm. }
  split.
  - rewrite Hp, Hk. exact Hnd.
  - intros k. rewrite Hp, Hk. apply Hkeys.
Qed.

Lemma dict_set_length (k : result_key) (v : scored) (d : ordered_dict) :
  length (dict_set k v d) <= S (length d).
Proof.
  induction d as [|[k0 v0] d IH]; cbn [dict_set]; [cbn; lia|].
  destruct (bool_decide (k = k0)); cbn [length]; lia.
Qed.

Lemma combined_map_length (vector_results keyword_results : list SearchResult) :
  length (combined_map vector_results keyword_results)
  <= length vector_results + length keyword_results.
Proof.
  unfold combined_map.
  assert (Hv : forall rs d, length (fold_left add_vector_result rs d)
                            <= length d + length rs).
  { induction rs as [|r rs IH]; intros d; cbn [fold_left length]; [lia|].
    etransitivity; [apply IH|]. unfold add_vector_result.
    pose proof (dict_set_length (key_of r)
                  {| hit := r; vector_score := similarity r;
                     keyword_score := 0.0 |} d). lia. }
  assert (Hk : forall rs d, length (fold_left add_keyword_result rs d)
                            <= length d + length rs).
  { induction rs as [|r rs IH]; intros d; cbn [fold_left length]; [lia|].
    etransitivity; [apply IH|]. unfold add_keyword_result.
    destruct (dict_get (key_of r) d) as [data|];
      match goal with
      | |- context [dict_set ?k ?v d] =>
          pose proof (dict_set_length k v d)
      end; lia. }
  etransitivity; [apply Hk|]. specialize (Hv vector_results []).
  cbn [length] in Hv. lia.
Qed.

Lemma combine_length (vector_results keyword_results : list SearchResult)
    (vw kw : Q) :
  length (combine_search_results render vector_results keyword_results vw kw)
  <= length vector_results + length keyword_results.
Proof.
  unfold combine_search_results.
  rewrite sorted_desc_length, length_map. apply combined_map_length.
Qed.

(** X12. [_combine_search_results] returns one result for each key
    (chunk_id, doc_id) that occurs in one of the two legs: no key
    twice, none lost, none made up; and the results are in descending
    order of the combined score. *)
Theorem fused_keys (vector_results keyword_results : list SearchResult)
    (vector_weight keyword_weight : Q) :
  let out := combine_search_results render vector_results keyword_results
               vector_weight keyword_weight in
  NoDup (key_of <$> out) /\
  (forall k, k ∈ key_of <$> out
             <-> k ∈ key_of <$> (vector_results ++ keyword_results)) /\
  descending similarity out.
Proof.
  intros out. subst out. unfold combine_search_results.
  destruct (combined_map_ok vector_results keyword_results)
    as (Hnd & Hkeys & _).
  pose proof (combined_keys vector_results keyword_results
                vector_weight keyword_weight) as Hk.
  set (l := map _ (combined_map vector_results keyword_results)) in *.
  assert (Hp : key_of <$> Py.sorted_desc similarity l ≡ₚ key_of <$> l).
  { apply fmap_Permutation. symmetry. apply sorted_desc_perm. }
  split; [|split].
  - rewrite Hp, Hk. exact Hnd.
  - intros k. rewrite Hp, Hk. apply Hkeys.
  - apply sorted_desc_sorted.
Qed.

(** Every result of the fusion is made of an entry of
    [combined_map]. *)
Lemma fused_entries (vector_results keyword_results : list SearchResult)
    (vw kw : Q) :
  Forall (fun r =>
            exists p, entry_ok vector_results keyword_results p /\
                      r = final_result render vw kw p.2)
    (combine_search_results render vector_results keyword_results vw kw).
Proof.
  unfold combine_search_results. apply sorted_desc_Forall.
  apply List.Forall_map.
  destruct (combined_map_ok vector_results keyword_results) as (_ & _ & Hall).
  eapply List.Forall_impl; [|exact Hall].
  intros p Hp. now exists p.
Qed.

End FusionFacts.

Section SearchFacts.

Import VectorSearchService EmbeddingService EmbeddingQueries HybridSearch.
Import Fusion Orders.

Variable hash : string -> Z.
Variable api : single_backend.
Variable rpc : rpc_params -> outcome (list match_row).
Variable search_training_data :
  embedding -> option string -> option string -> Z -> Q -> list SearchResult.
Variable render : Q -> string.

Lemma other_assistant_false (k : string) (md : gmap string string) :
  truthy k = true ->
  other_assistant (Some k) md = false ->
  md !! "assistant_key" = Some k.
Proof.
  unfold other_assistant. intros -> H. cbn [andb] in H.
  apply negb_false_iff, bool_decide_eq_true in H. exact H.
Qed.

Lemma keyword_search_scope (db : outcome (list chunk_row)) (query k : string) :
  truthy k = true ->
  Forall (fun r => metadata r !! "assistant_key" = Some k)
         (keyword_search db query (Some k)).
Proof.
  intros Hk. unfold keyword_search. destruct db as [data|]; cbn;
    [|constructor].
  apply omap_Forall. intros item r. unfold keyword_result.
  destruct (other_assistant _ _) eqn:E; [discriminate|].
  intros [= <-]. cbn. now apply other_assistant_false.
Qed.

Lemma document_search_scope (e : embedding) (k : string)
    (tenant_id : option string) (limit : Z) (threshold : Q) :
  truthy k = true ->
  Forall (fun r => metadata r !! "assistant_key" = Some k)
         (search_document_chunks rpc e (Some k) tenant_id limit threshold).
Proof.
  intros Hk. unfold search_document_chunks. destruct (rpc _) as [data|]; cbn;
    [|constructor].
  apply omap_Forall. intros item r. unfold document_result.
  destruct (other_assistant _ _) eqn:E; [discriminate|].
  intros [= <-]. cbn. now apply other_assistant_false.
Qed.

(** With the default sources the one leg of [semantic_search] is the
    table of document chunks. *)
Lemma semantic_search_default (st : state) (query : string)
    (assistant_key tenant_id : option string) (limit : Z)
    (similarity_threshold : option Q) :
  semantic_search hash api rpc search_training_data st query assistant_key
    tenant_id limit similarity_threshold None
  = let '(query_embedding, st') := embed_query hash api st query in
    if RAGPipeline.is_nil query_embedding || forallb is_zero query_embedding
    then ([], st')
    else
      (Py.slice_to
         (Py.sorted_desc similarity
            (search_document_chunks rpc query_embedding assistant_key
               tenant_id (limit * 2)
               (effective_threshold similarity_threshold)))
         limit, st').
Proof.
  unfold semantic_search. destruct (embed_query hash api st query) as [e st'].
  destruct (_ || _); [reflexivity|].
  cbn [effective_sources].
  rewrite bool_decide_eq_true_2 by apply list_elem_of_here.
  rewrite bool_decide_eq_false_2.
  - now rewrite app_nil_r.
  - intros H. apply list_elem_of_singleton in H. discriminate.
Qed.

Lemma semantic_search_scope (st : state) (query k : string)
    (tenant_id : option string) (limit : Z) (similarity_threshold : option Q) :
  truthy k = true ->
  Forall (fun r => metadata r !! "assistant_key" = Some k)
    (semantic_search hash api rpc search_training_data st query (Some k)
       tenant_id limit similarity_threshold None).1.
Proof.
  intros Hk. rewrite semantic_search_default.
  destruct (embed_query hash api st query) as [e st'].
  destruct (_ || _); cbn [fst]; [constructor|].
  apply slice_to_Forall, sorted_desc_Forall.
  now apply document_search_scope.
Qed.

(** X13. Scope. With an assistant key that is not empty, every result
    of [semantic_search] on its default sources, of [_keyword_search]
    and of [hybrid_search] is a chunk whose metadata name that
    assistant: a row of another assistant that the store returns is
    dropped. *)
Theorem assistant_scope (db : outcome (list chunk_row)) (st : state)
    (query k : string) (tenant_id : option string) (limit : Z)
    (similarity_threshold : option Q) (vector_weight keyword_weight : Q) :
  truthy k = true ->
  Forall (fun r => metadata r !! "assistant_key" = Some k)
    (semantic_search hash api rpc search_training_data st query (Some k)
       tenant_id limit similarity_threshold None).1 /\
  Forall (fun r => metadata r !! "assistant_key" = Some k)
    (keyword_search db query (Some k)) /\
  Forall (fun r => metadata r !! "assistant_key" = Some k)
    (hybrid_search hash api rpc search_training_data render db st query
       (Some k) tenant_id limit vector_weight keyword_weight).1.
Proof.
  intros Hk. split; [now apply semantic_search_scope|].
  split; [now apply keyword_search_scope|].
  unfold hybrid_search.
  pose proof (semantic_search_scope st query k tenant_id (limit * 2)
                (Some 0.5%Q) Hk) as Hv.
  pose proof (keyword_search_scope db query k Hk) as Hkw.
  destruct (semantic_search _ _ _ _ _ _ _ _ _ _ _) as [vs st'].
  cbn [fst] in *. apply slice_to_Forall.
  eapply List.Forall_impl; [|apply fused_entries].
  intros r (p & (_ & Hin & _) & ->). cbn [metadata final_result].
  rewrite !lookup_insert_ne by discriminate.
  assert (Hall : Forall (fun r => metadata r !! "assistant_key" = Some k)
                        (vs ++ keyword_search db query (Some k)))
    by (apply Forall_app; auto).
  rewrite Forall_forall in Hall. now apply Hall.
Qed.

Lemma zero_vector_zero :
  RAGPipeline.is_nil zero_vector || forallb is_zero zero_vector = true.
Proof. vm_compute. reflexivity. Qed.

(** When the embedding of the query fails, the vector function of the
    store is not called. *)
Lemma semantic_search_outage (st : state) (query : string)
    (assistant_key tenant_id : option string) (limit : Z)
    (similarity_threshold : option Q) (search_sources : option (list string)) :
  embedding_cache st !! hash (Py.strip (final_query query)) = None ->
  api (Py.strip (final_query query)) = Raise ->
  semantic_search hash api rpc search_training_data st query assistant_key
    tenant_id limit similarity_threshold search_sources = ([], st).
Proof.
  intros Hmiss Hraise. unfold semantic_search, embed_query.
  assert (E : generate_embedding hash api st (final_query query)
              = (zero_vector, st)).
  { unfold generate_embedding. destruct (_ || _); [reflexivity|].
    rewrite Hmiss, Hraise. reflexivity. }
  rewrite E. now rewrite zero_vector_zero.
Qed.

(** X14. When the embedding of the query fails (the cache does not
    hold it and the backend raises), [hybrid_search] answers from the
    keyword leg. The state is as before. For a limit that the number
    of keyword results does not exceed, the results are the chunks of
    the keyword leg, one for each key (chunk_id, doc_id) of a keyword
    result and no other; and each is scored by the similarity of a
    keyword result of its key times the keyword weight, the vector
    score counting as 0.0. *)
Theorem hybrid_keyword_only (db : outcome (list chunk_row)) (st : state)
    (query : string) (assistant_key tenant_id : option string) (limit : Z)
    (vector_weight keyword_weight : Q) :
  embedding_cache st !! hash (Py.strip (final_query query)) = None ->
  api (Py.strip (final_query query)) = Raise ->
  (Z.of_nat (length (keyword_search db query assistant_key)) <= limit)%Z ->
  let out := hybrid_search hash api rpc search_training_data render db st
               query assistant_key tenant_id limit vector_weight
               keyword_weight in
  out.2 = st /\
  NoDup (key_of <$> out.1) /\
  (forall k, k ∈ key_of <$> out.1
             <-> k ∈ key_of <$> keyword_search db query assistant_key) /\
  Forall (fun r =>
            exists kr,
              kr ∈ keyword_search db query assistant_key /\
              key_of kr = key_of r /\
              similarity r
              = (0.0 * vector_weight + similarity kr * keyword_weight)%Q)
    out.1.
Proof.
  intros Hmiss Hraise Hlimit out. subst out. unfold hybrid_search.
  rewrite (semantic_search_outage st query assistant_key tenant_id
             (limit * 2) (Some 0.5%Q) None Hmiss Hraise).
  cbn [fst snd]. split; [reflexivity|].
  set (K := keyword_search db query assistant_key) in *.
  rewrite slice_to_all.
  2:{ pose proof (combine_length render [] K vector_weight keyword_weight)
        as Hl. cbn [length] in Hl. lia. }
  destruct (combine_keys render [] K vector_weight keyword_weight)
    as [Hnd Hkeys].
  split; [exact Hnd|]. split; [exact Hkeys|].
  eapply List.Forall_impl; [|apply fused_entries].
  intros r (p & (Hk & Hin & Hv & Hkw) & ->).
  rewrite final_result_key, Hk. cbn [similarity final_result].
  unfold combined_score.
  destruct Hv as [(x & Hx & _)|[Hv _]]; [inversion Hx|].
  destruct Hkw as [(kr & Hkr & Hkk & Hks)|[_ Hn]].
  - exists kr. rewrite Hv, Hks. auto.
  - exfalso. apply Hn. rewrite <- Hk. cbn [app] in Hin.
    apply list_elem_of_fmap. now exists (hit p.2).
Qed.

(** X15. For a limit that is not negative, [semantic_search] and
    [hybrid_search] return at most [limit] results, in descending
    order of similarity. *)
Theorem ranked_and_limited (db : outcome (list chunk_row)) (st : state)
    (query : string) (assistant_key tenant_id : option string) (limit : Z)
    (similarity_threshold : option Q) (search_sources : option (list string))
    (vector_weight keyword_weight : Q) :
  (0 <= limit)%Z ->
  let found :=
    (semantic_search hash api rpc search_training_data st query assistant_key
       tenant_id limit similarity_threshold search_sources).1 in
  let fused :=
    (hybrid_search hash api rpc search_training_data render db st query
       assistant_key tenant_id limit vector_weight keyword_weight).1 in
  (descending similarity found /\ length found <= Z.to_nat limit) /\
  (descending similarity fused /\ length fused <= Z.to_nat limit).
Proof.
  intros Hl found fused. split.
  - subst found. unfold semantic_search.
    destruct (embed_query hash api st query) as [e st'].
    destruct (_ || _); cbn [fst].
    + split; [constructor|cbn; lia].
    + split; [apply slice_to_descending, sorted_desc_sorted|].
      now apply slice_to_length.
  - clear found. subst fused. unfold hybrid_search.
    destruct (semantic_search _ _ _ _ _ _ _ _ _ _ _) as [vs st'].
    cbn [fst]. split; [|now apply slice_to_length].
    apply slice_to_descending. unfold combine_search_results.
    apply sorted_desc_sorted.
Qed.

(** X16. [search_similar_chunks] with a document to exclude returns no
    chunk of that document, and for a limit that is not negative at
    most [limit] chunks. *)
Theorem similar_chunks_exclude (api0 : single_backend) (st : state)
    (reference_text : string) (assistant_key tenant_id : option string)
    (limit : Z) (d : string) :
  truthy d = true ->
  (0 <= limit)%Z ->
  let out :=
    (search_similar_chunks hash api rpc search_training_data api0 st
       reference_text assistant_key tenant_id limit (Some d)).1 in
  Forall (fun r => doc_id r <> Some d) out /\ length out <= Z.to_nat limit.
Proof.
  intros Hd Hl out. subst out. unfold search_similar_chunks.
  destruct (generate_embedding hash api0 st reference_text) as [e0 st0].
  destruct (semantic_search _ _ _ _ _ _ _ _ _ _ _) as [rs st'].
  cbn [given]. rewrite Hd. cbn [fst].
  split; [|now apply slice_to_length].
  apply slice_to_Forall. apply List.Forall_forall. intros r Hr.
  apply filter_In in Hr as [_ Hr].
  apply negb_true_iff, bool_decide_eq_false in Hr. exact Hr.
Qed.

End SearchFacts.

Section SearchInstances.

Import VectorSearchService EmbeddingService EmbeddingQueries HybridSearch.
Import Fusion Orders Samples MoreSamples.

Lemma assistant_scope_witness :
  Forall (fun r => metadata r !! "assistant_key" = Some "a1")
    (semantic_search sample_hash answering_single rpc_down no_training_search
       empty_state "tea" (Some "a1") None 5 None None).1 /\
  Forall (fun r => metadata r !! "assistant_key" = Some "a1")
    (keyword_search (Ok [tea_row]) "tea" (Some "a1")) /\
  Forall (fun r => metadata r !! "assistant_key" = Some "a1")
    (hybrid_search sample_hash answering_single rpc_down no_training_search
       render_blank (Ok [tea_row]) empty_state "tea" (Some "a1") None 5
       0.7 0.3).1.
Proof.
  apply (assistant_scope sample_hash answering_single rpc_down
           no_training_search render_blank (Ok [tea_row]) empty_state
           "tea" "a1" None 5 None 0.7 0.3).
  reflexivity.
Defined.

(** The embedding backend is down and the keyword leg finds two
    chunks: both are returned, the one that holds the query ten times
    first. *)
Lemma hybrid_keyword_only_witness :
  let out := hybrid_search sample_hash failing_single rpc_down
               no_training_search render_blank (Ok [mint_row; tea_row])
               empty_state "tea" None None 5 0.7 0.3 in
  chunk_id <$> out.1 = [Some 7%Z; Some 8%Z] /\
  out.2 = empty_state /\
  NoDup (key_of <$> out.1) /\
  (forall k, k ∈ key_of <$> out.1
             <-> k ∈ key_of <$> keyword_search (Ok [mint_row; tea_row]) "tea"
                                  None) /\
  Forall (fun r =>
            exists kr,
              kr ∈ keyword_search (Ok [mint_row; tea_row]) "tea" None /\
              key_of kr = key_of r /\
              similarity r = (0.0 * 0.7 + similarity kr * 0.3)%Q)
    out.1.
Proof.
  cbv zeta. split; [vm_compute; reflexivity|].
  apply (hybrid_keyword_only sample_hash failing_single rpc_down
           no_training_search render_blank (Ok [mint_row; tea_row])
           empty_state "tea" None None 5 0.7 0.3).
  - reflexivity.
  - reflexivity.
  - vm_compute. discriminate.
Defined.

(** The store returns four chunks, in no order; with the limit 2 the
    semantic search returns the two most similar, and the hybrid
    search the two with the highest combined score, of which the
    first is the chunk that both legs found. *)
Lemma ranked_and_limited_witness :
  let found :=
    (semantic_search sample_hash answering_single rpc_up no_training_search
       empty_state "tea" None None 2 None None).1 in
  let fused :=
    (hybrid_search sample_hash answering_single rpc_up no_training_search
       render_blank (Ok [tea_row]) empty_state "tea" None None 2 0.7 0.3).1 in
  (chunk_id <$> found = [Some 12%Z; Some 7%Z] /\
   chunk_id <$> fused = [Some 7%Z; Some 12%Z]) /\
  (descending similarity found /\ length found <= Z.to_nat 2) /\
  (descending similarity fused /\ length fused <= Z.to_nat 2).
Proof.
  cbv zeta. split; [split; vm_compute; reflexivity|].
  apply (ranked_and_limited sample_hash answering_single rpc_up
           no_training_search render_blank (Ok [tea_row]) empty_state
           "tea" None None 2 None None 0.7 0.3).
  lia.
Defined.

(** The store returns chunks of three documents; without doc-1 the two
    most similar are the chunks 12 and 13, where the chunk 7 of doc-1
    would have come second. *)
Lemma similar_chunks_exclude_witness :
  let out :=
    (search_similar_chunks sample_hash answering_single rpc_up
       no_training_search answering_single empty_state "green tea" None None
       2 (Some "doc-1")).1 in
  (chunk_id <$> out = [Some 12%Z; Some 13%Z] /\
   chunk_id <$> (search_similar_chunks sample_hash answering_single rpc_up
                   no_training_search answering_single empty_state
                   "green tea" None None 2 None).1
   = [Some 12%Z; Some 7%Z]) /\
  Forall (fun r => doc_id r <> Some "doc-1") out /\
  length out <= Z.to_nat 2.
Proof.
  cbv zeta. split; [split; vm_compute; reflexivity|].
  apply (similar_chunks_exclude sample_hash answering_single rpc_up
           no_training_search answering_single empty_state "green tea"
           None None 2 "doc-1").
  - reflexivity.
  - lia.
Defined.

End SearchInstances.

(** ** Chunking: strategies, chunk invariants, statistics *)

Section CleanText.

Import Words ChunkProcessor.

Lemma inline_not_break (c : ascii) :
  inline_char c = true ->
  Py.is_char c Py.LF = false /\ Py.is_char c Py.CR = false.
Proof.
  destruct c as [[] [] [] [] [] [] [] []]; vm_compute; intros H; split;
    first [reflexivity | discriminate H].
Qed.

Lemma all_chars_impl (p q : ascii -> bool) (s : string) :
  (forall c, p c = true -> q c = true) ->
  all_chars p s = true -> all_chars q s = true.
Proof.
  intros Hpq. induction s as [|c s IH]; [reflexivity|].
  cbn [all_chars]. rewrite !andb_true_iff. intros [Hc Hs]. auto.
Qed.

Lemma collapse_spaces_inline (s : string) (in_run : bool) :
  all_chars inline_char (Re.collapse_spaces in_run s) = true.
Proof.
  revert in_run. induction s as [|c s IH]; intros in_run; [reflexivity|].
  cbn [Re.collapse_spaces]. destruct (Py.isspace c) eqn:E.
  - destruct in_run; [apply IH|]. cbn [all_chars]. now rewrite IH.
  - cbn [all_chars]. unfold inline_char at 1. now rewrite E, IH.
Qed.

Lemma normalize_breaks_inline (s : string) :
  all_chars inline_char s = true -> Re.normalize_breaks s = s.
Proof.
  induction s as [|c s IH]; [reflexivity|].
  cbn [all_chars]. rewrite andb_true_iff. intros [Hc Hs].
  cbn [Re.normalize_breaks].
  destruct (inline_not_break c Hc) as [_ ->]. now rewrite IH.
Qed.

Lemma squeeze_runs_chars (p : ascii -> bool) (x : ascii) (s : string) :
  forall n, all_chars p s = true -> all_chars p (Re.squeeze_runs x n s) = true.
Proof.
  induction s as [|c s IH]; intros n; [reflexivity|].
  cbn [all_chars]. rewrite andb_true_iff. intros [Hc Hs].
  cbn [Re.squeeze_runs].
  destruct (Py.is_char c x); [destruct (n <? 3)|];
    cbn [all_chars]; rewrite ?Hc; now apply IH.
Qed.

Lemma replace_char_chars (p : ascii -> bool) (x y : ascii) (s : string) :
  p y = true ->
  all_chars p s = true -> all_chars p (Re.replace_char x y s) = true.
Proof.
  intros Hy. induction s as [|c s IH]; [reflexivity|].
  cbn [all_chars]. rewrite andb_true_iff. intros [Hc Hs].
  cbn [Re.replace_char all_chars]. rewrite (IH Hs).
  destruct (Py.is_char c x); now rewrite ?Hy, ?Hc.
Qed.

Lemma lstrip_chars (p : ascii -> bool) (s : string) :
  all_chars p s = true -> all_chars p (Py.lstrip s) = true.
Proof.
  induction s as [|c s IH]; [reflexivity|].
  cbn [Py.lstrip]. destruct (Py.isspace c); [|auto].
  cbn [all_chars]. rewrite andb_true_iff. intros [_ Hs]. auto.
Qed.

Lemma rev_app_chars (p : ascii -> bool) (a b : string) :
  all_chars p (String.rev_app a b) = all_chars p a && all_chars p b.
Proof.
  revert b. induction a as [|x a IH]; intros b; [reflexivity|].
  cbn [String.rev_app all_chars]. rewrite IH. cbn [all_chars].
  destruct (p x), (all_chars p a), (all_chars p b); reflexivity.
Qed.

Lemma rev_chars (p : ascii -> bool) (s : string) :
  all_chars p (String.rev s) = all_chars p s.
Proof. unfold String.rev. rewrite rev_app_chars. cbn. apply andb_true_r. Qed.

Lemma strip_chars (p : ascii -> bool) (s : string) :
  all_chars p s = true -> all_chars p (Py.strip s) = true.
Proof.
  intros H. unfold Py.strip, Py.rstrip.
  rewrite rev_chars. apply lstrip_chars. rewrite rev_chars.
  now apply lstrip_chars.
Qed.

(** The cleaned text is one line: white space is the single space. *)
Lemma clean_text_inline (s : string) :
  all_chars inline_char (clean_text s) = true.
Proof.
  unfold clean_text. apply strip_chars.
  apply replace_char_chars; [reflexivity|].
  apply replace_char_chars; [reflexivity|].
  apply squeeze_runs_chars, squeeze_runs_chars.
  rewrite normalize_breaks_inline; apply collapse_spaces_inline.
Qed.

(** A pattern anchored at the start of a line matches a text of one
    line at its start only. *)
Lemma finditer_one_line (m : Re.matcher) (s : string) :
  (forall prev t, Re.at_line_start prev = false -> m prev t = None) ->
  all_chars inline_char s = true ->
  forall prev pos skip,
    (Re.at_line_start prev = false -> Re.finditer_go m prev pos skip s = []) /\
    length (Re.finditer_go m prev pos skip s) <= 1.
Proof.
  intros Hm. induction s as [|c s IH]; intros Hs prev pos skip.
  - cbn. split; [reflexivity|lia].
  - cbn [all_chars] in Hs. apply andb_true_iff in Hs as [Hc Hs].
    assert (Hnext : forall pos' skip',
               Re.finditer_go m (Some c) pos' skip' s = []).
    { intros pos' skip'. apply (IH Hs). cbn.
      now destruct (inline_not_break c Hc) as [-> _]. }
    cbn [Re.finditer_go]. destruct skip as [|k].
    + split.
      * intros Hp. rewrite (Hm _ _ Hp). apply Hnext.
      * destruct (m prev (String c s)) as [[|n]|]; rewrite Hnext; cbn; lia.
    + rewrite Hnext. split; [reflexivity|cbn; lia].
Qed.

Lemma header_pattern_anchored (prev : option ascii) (t : string) :
  Re.at_line_start prev = false -> Re.header_pattern prev t = None.
Proof.
  intros H. unfold Re.header_pattern.
  destruct (Re.span Re.is_hash t) as [h r].
  destruct (Re.span Py.isspace r) as [w r'].
  destruct (Re.span Re.not_LF r') as [d r'']. now rewrite H.
Qed.

Lemma list_pattern_anchored (prev : option ascii) (t : string) :
  Re.at_line_start prev = false -> Re.list_pattern prev t = None.
Proof.
  intros H. unfold Re.list_pattern.
  destruct (Re.span Py.isspace t) as [w0 r].
  destruct (Re.one Re.is_bullet r) as [r'|]; [|reflexivity].
  destruct (Re.span Py.isspace r') as [w r''].
  destruct (Re.span Re.not_LF r'') as [d r''']. now rewrite H.
Qed.

Lemma dialogue_marker_anchored (prev : option ascii) (t : string) :
  Re.at_line_start prev = false -> Re.dialogue_marker prev t = None.
Proof.
  intros H. unfold Re.dialogue_marker.
  destruct (Re.span Py.isspace t) as [w0 r].
  destruct (Re.one Py.isupper r) as [r'|]; [|reflexivity].
  destruct (Re.span Py.islower r') as [l r''].
  destruct (Re.one Re.is_colon r'') as [r'''|]; [|reflexivity].
  destruct (Re.span Py.isspace r''') as [w r4]. now rewrite H.
Qed.

(** X17. On the text that [_clean_text] returns, [_determine_strategy]
    never answers structured: the cleaning turns every line break
    into a space, so the patterns for headers, list items and speaker
    names, anchored at the start of a line, match once at most. The
    strategy is conversational when the text holds more than three
    markers Q: or A:, and semantic otherwise, so
    [smart_chunk_document] chunks by dialogue or by sentences and
    never by structure. *)
Theorem structured_never_chosen (encoding : option (string -> outcome nat))
    (s : string) :
  determine_strategy (clean_text s) <> Structured /\
  determine_strategy (clean_text s)
  = (if 3 <? length (Re.finditer Re.qa_marker (clean_text s))
     then Conversational else Semantic) /\
  raw_chunks_of encoding s
  = (if 3 <? length (Re.finditer Re.qa_marker (clean_text s))
     then chunk_by_dialogue encoding (clean_text s)
     else map RawStr (chunk_by_sentences encoding (clean_text s))).
Proof.
  pose proof (clean_text_inline s) as Hc.
  assert (Hh : length (Re.finditer Re.header_pattern (clean_text s)) <= 1)
    by apply (finditer_one_line _ _ header_pattern_anchored Hc None 0 0).
  assert (Hl : length (Re.finditer Re.list_pattern (clean_text s)) <= 1)
    by apply (finditer_one_line _ _ list_pattern_anchored Hc None 0 0).
  assert (Hd : length (Re.finditer Re.dialogue_marker (clean_text s)) <= 1)
    by apply (finditer_one_line _ _ dialogue_marker_anchored Hc None 0 0).
  assert (E : determine_strategy (clean_text s)
              = if 3 <? length (Re.finditer Re.qa_marker (clean_text s))
                then Conversational else Semantic).
  { unfold determine_strategy.
    set (h := length (Re.finditer Re.header_pattern _)) in *.
    set (l := length (Re.finditer Re.list_pattern _)) in *.
    set (d := length (Re.finditer Re.dialogue_marker _)) in *.
    set (q := length (Re.finditer Re.qa_marker _)).
    replace (5 <? d) with false by (symmetry; apply Nat.ltb_ge; lia).
    replace (2 <? h) with false by (symmetry; apply Nat.ltb_ge; lia).
    replace (5 <? l) with false by (symmetry; apply Nat.ltb_ge; lia).
    rewrite orb_false_r. cbn [orb]. now destruct (3 <? q). }
  unfold raw_chunks_of. rewrite E.
  destruct (3 <? _); (split; [discriminate|]); split; reflexivity.
Qed.

End CleanText.

Section ChunkInvariants.

Import ChunkProcessor.

Variable encoding : option (string -> outcome nat).

(** The metadata that a chunking strategy gives a raw chunk hold the
    one key chunk_method. *)
Local Abbreviation own_key rc :=
  (match rc with
   | RawStr _ => True
   | RawDict _ cmd _ _ =>
       forall k : string, k <> "chunk_method" -> cmd !! k = None
   end).

Lemma method_key (name k : string) :
  k <> "chunk_method" -> method name !! k = None.
Proof. intros H. unfold method. now apply lookup_singleton_ne. Qed.

Lemma strings_own_key (l : list string) : Forall (fun rc => own_key rc) (map RawStr l).
Proof. apply List.Forall_map. apply Forall_forall. intros x _. exact I. Qed.

Lemma section_fold_own_key (sections : list string) :
  forall st : list raw_chunk * nat,
    Forall (fun rc => own_key rc) st.1 ->
    Forall (fun rc => own_key rc)
           (fold_left (section_step encoding) sections st).1.
Proof.
  induction sections as [|x sections IH]; intros [acc pos] H; [exact H|].
  cbn [fold_left]. apply IH. unfold section_step.
  destruct (negb (truthy (Py.strip x))); [exact H|].
  destruct (Py.le _ _); cbn [fst] in *; apply Forall_app; split;
    try exact H.
  - constructor; [|constructor]. intros k. apply method_key.
  - apply List.Forall_map. apply Forall_forall. intros y _ k.
    apply method_key.
Qed.

Lemma dialogue_flush_own_key (st : dialogue_state) :
  Forall (fun rc => own_key rc) (d_chunks st) ->
  Forall (fun rc => own_key rc) (dialogue_flush st).
Proof.
  intros H. unfold dialogue_flush. destruct (truthy _); [|exact H].
  apply Forall_app. split; [exact H|].
  constructor; [|constructor]. intros k. apply method_key.
Qed.

Lemma dialogue_fold_own_key (s : string) (ms : list (nat * nat)) :
  forall st : dialogue_state,
    Forall (fun rc => own_key rc) (d_chunks st) ->
    Forall (fun rc => own_key rc)
           (d_chunks (fold_left (dialogue_step encoding s) ms st)).
Proof.
  induction ms as [|m ms IH]; intros st H; [exact H|].
  cbn [fold_left]. apply IH. unfold dialogue_step.
  destruct (Py.le _ _); cbn [d_chunks]; [exact H|].
  now apply dialogue_flush_own_key.
Qed.

Lemma raw_chunks_own_key (s : string) :
  Forall (fun rc => own_key rc) (raw_chunks_of encoding s).
Proof.
  unfold raw_chunks_of. destruct (determine_strategy _).
  - unfold chunk_by_structure. apply section_fold_own_key. constructor.
  - unfold chunk_by_dialogue.
    destruct (Re.finditer Re.qa_pair _) as [|m ms]; [apply strings_own_key|].
    apply dialogue_flush_own_key, dialogue_fold_own_key. constructor.
  - apply strings_own_key.
Qed.

Lemma make_chunk_kept (md : gmap string string) (i : nat)
    (rc : raw_chunk) (c : DocumentChunk) :
  own_key rc ->
  make_chunk encoding md i rc = Some c ->
  (min_chunk_tokens <= token_count c)%Q /\
  forall k : string, k <> "chunk_method" -> metadata c !! k = md !! k.
Proof.
  intros Hrc. unfold make_chunk.
  destruct (Py.lt _ _) eqn:E; [discriminate|]. apply lt_false in E.
  intros [= <-]. cbn [token_count metadata]. split; [exact E|].
  intros k Hk. destruct rc as [t|t cmd a b]; [reflexivity|].
  apply lookup_union_r. now apply Hrc.
Qed.

Lemma process_chunks_kept (md : gmap string string)
    (raw_chunks : list raw_chunk) :
  Forall (fun rc => own_key rc) raw_chunks ->
  forall i,
    Forall (fun c =>
              (min_chunk_tokens <= token_count c)%Q /\
              forall k : string,
                k <> "chunk_method" -> metadata c !! k = md !! k)
      (process_chunks encoding md i raw_chunks).
Proof.
  induction 1 as [|rc rest Hrc Hrest IH]; intros i; cbn [process_chunks].
  - constructor.
  - destruct (make_chunk encoding md i rc) as [c|] eqn:E; [|apply IH].
    constructor; [|apply IH]. exact (make_chunk_kept md i rc c Hrc E).
Qed.

(** X18. Every chunk that [smart_chunk_document] returns counts at
    least [min_chunk_tokens] tokens, and carries the metadata of the
    caller: under every key but chunk_method, which the chunking
    strategy sets, the chunk holds what the caller gave. *)
Theorem chunks_keep_metadata (s : string) (md : option (gmap string string)) :
  Forall (fun c =>
            (min_chunk_tokens <= token_count c)%Q /\
            forall k : string,
              k <> "chunk_method" -> metadata c !! k = default ∅ md !! k)
    (smart_chunk_document encoding s md).
Proof.
  unfold smart_chunk_document. destruct (_ || _); [constructor|].
  apply process_chunks_kept, raw_chunks_own_key.
Qed.

End ChunkInvariants.

Section Statistics.

Import ChunkProcessor ChunkStatistics.

Lemma count_types_fold (chunks : list DocumentChunk) :
  forall (init : gmap string nat) (ty : string),
    default 0
      (fold_left (fun counts t => <[t := default 0 (counts !! t) + 1]> counts)
                 (map chunk_type chunks) init !! ty)
    = default 0 (init !! ty)
      + length (List.filter (fun c => String.eqb (chunk_type c) ty) chunks).
Proof.
  induction chunks as [|c chunks IH]; intros init ty;
    cbn [map fold_left List.filter]; [cbn; lia|].
  rewrite IH. destruct (String.eqb_spec (chunk_type c) ty) as [->|Hne].
  - rewrite lookup_insert_eq. cbn. lia.
  - rewrite lookup_insert_ne by exact Hne. reflexivity.
Qed.

Lemma min_list_le (l : list Q) :
  forall m, (min_list m l <= m)%Q /\ Forall (fun y => (min_list m l <= y)%Q) l.
Proof.
  induction l as [|y l IH]; intros m; cbn [min_list fold_left].
  - split; [Lqa.lra|constructor].
  - fold (min_list (if Py.lt y m then y else m) l).
    destruct (IH (if Py.lt y m then y else m)) as [H1 H2].
    destruct (Py.lt y m) eqn:E.
    + apply lt_spec in E. split; [Lqa.lra|]. constructor; [exact H1|exact H2].
    + apply lt_false in E. split; [exact H1|].
      constructor; [Lqa.lra|exact H2].
Qed.

Lemma max_list_ge (l : list Q) :
  forall m, (m <= max_list m l)%Q /\ Forall (fun y => (y <= max_list m l)%Q) l.
Proof.
  induction l as [|y l IH]; intros m; cbn [max_list fold_left].
  - split; [Lqa.lra|constructor].
  - fold (max_list (if Py.lt m y then y else m) l).
    destruct (IH (if Py.lt m y then y else m)) as [H1 H2].
    destruct (Py.lt m y) eqn:E.
    + apply lt_spec in E. split; [Lqa.lra|]. constructor; [exact H1|exact H2].
    + apply lt_false in E. split; [exact H1|].
      constructor; [Lqa.lra|exact H2].
Qed.

Lemma min_list_elem (l : list Q) : forall m, min_list m l ∈ m :: l.
Proof.
  induction l as [|y l IH]; intros m; cbn [min_list fold_left].
  - apply list_elem_of_here.
  - fold (min_list (if Py.lt y m then y else m) l).
    specialize (IH (if Py.lt y m then y else m)).
    apply elem_of_cons in IH as [IH|IH].
    + rewrite IH. destruct (Py.lt y m).
      * apply list_elem_of_further, list_elem_of_here.
      * apply list_elem_of_here.
    + now apply list_elem_of_further, list_elem_of_further.
Qed.

Lemma max_list_elem (l : list Q) : forall m, max_list m l ∈ m :: l.
Proof.
  induction l as [|y l IH]; intros m; cbn [max_list fold_left].
  - apply list_elem_of_here.
  - fold (max_list (if Py.lt m y then y else m) l).
    specialize (IH (if Py.lt m y then y else m)).
    apply elem_of_cons in IH as [IH|IH].
    + rewrite IH. destruct (Py.lt m y).
      * apply list_elem_of_further, list_elem_of_here.
      * apply list_elem_of_here.
    + now apply list_elem_of_further, list_elem_of_further.
Qed.

(** X19. For a list of chunks that is not empty,
    [get_chunk_statistics] counts every chunk; min_tokens is the
    token count of one of the chunks and no chunk counts fewer tokens,
    max_tokens is the token count of one of the chunks and no chunk
    counts more; and the count of a chunk type is the number of
    chunks of that type. *)
Theorem chunk_statistics_summary (chunks : list DocumentChunk) :
  chunks <> [] ->
  exists s,
    get_chunk_statistics chunks = Summary s /\
    total_chunks s = length chunks /\
    (min_tokens s ∈ map token_count chunks /\
     Forall (fun c => (min_tokens s <= token_count c)%Q) chunks) /\
    (max_tokens s ∈ map token_count chunks /\
     Forall (fun c => (token_count c <= max_tokens s)%Q) chunks) /\
    forall ty : string,
      default 0 (chunk_types s !! ty)
      = length (List.filter (fun c => String.eqb (chunk_type c) ty) chunks).
Proof.
  intros Hne. destruct chunks as [|c chunks]; [congruence|].
  unfold get_chunk_statistics. cbn [map]. eexists. split; [reflexivity|].
  cbn [total_chunks min_tokens max_tokens avg_tokens_per_chunk chunk_types].
  split; [reflexivity|].
  set (x := token_count c). set (l := map token_count chunks).
  destruct (min_list_le l x) as [Hm1 Hm2].
  destruct (max_list_ge l x) as [HM1 HM2].
  split; [|split].
  - split; [apply min_list_elem|].
    constructor; [exact Hm1|]. unfold l in Hm2.
    rewrite List.Forall_map in Hm2. exact Hm2.
  - split; [apply max_list_elem|].
    constructor; [exact HM1|]. unfold l in HM2.
    rewrite List.Forall_map in HM2. exact HM2.
  - intros ty. unfold count_types.
    rewrite (count_types_fold (c :: chunks) ∅ ty).
    now rewrite lookup_empty.
Qed.

(** Three chunks of 60, 120 and 75.5 tokens, one a question and
    answer, two general. *)
Lemma chunk_statistics_summary_witness :
  match get_chunk_statistics MoreSamples.three_chunks with
  | Summary s =>
      (min_tokens s = 60 /\ max_tokens s = 120)%Q /\
      chunk_types s !! "general" = Some 2 /\
      chunk_types s !! "qa_pair" = Some 1
  | NoChunks => False
  end /\
  exists s,
    get_chunk_statistics MoreSamples.three_chunks = Summary s /\
    total_chunks s = length MoreSamples.three_chunks /\
    (min_tokens s ∈ map token_count MoreSamples.three_chunks /\
     Forall (fun c => (min_tokens s <= token_count c)%Q)
            MoreSamples.three_chunks) /\
    (max_tokens s ∈ map token_count MoreSamples.three_chunks /\
     Forall (fun c => (token_count c <= max_tokens s)%Q)
            MoreSamples.three_chunks) /\
    forall ty : string,
      default 0 (chunk_types s !! ty)
      = length (List.filter (fun c => String.eqb (chunk_type c) ty)
                  MoreSamples.three_chunks).
Proof.
  split.
  - vm_compute. repeat split; reflexivity.
  - apply (chunk_statistics_summary MoreSamples.three_chunks). discriminate.
Defined.

End Statistics.

(** ** Document upload *)

Section Upload.

Import ChunkProcessor EmbeddingService Ingestion.

Variable encoding : option (string -> outcome nat).
Variable hash : string -> Z.
Variable client : nat -> backend.
Variable db : store.
Variable show_float : Q -> string.
Variable show_int : nat -> string.

Lemma generate_default_length (st : state) (texts : list string) :
  length (generate_batch_embeddings hash client st texts None).1
  = length texts.
Proof.
  destruct (generate_as_loop hash client st texts None) as (Hs & Hk & ->).
  { discriminate. }
  rewrite batch_loop_length. lia.
Qed.

Lemma filter_length_le {A} (p : A -> bool) (l : list A) :
  length (List.filter p l) <= length l.
Proof.
  induction l as [|x l IH]; cbn [List.filter]; [lia|].
  destruct (p x); cbn [length]; lia.
Qed.

(** X20. What [process_document_upload] reports follows the chunking
    alone: success is true exactly when a chunk was created, whatever
    the embedding backend and the store do. Without a chunk the result
    is the failure with the message that no chunks were created, and
    the embedding cache is untouched; with chunks their number is
    reported, and the number of embeddings that are not zero vectors
    does not exceed it. *)
Theorem upload_reports_chunking (now_chunking now_storing : string)
    (elapsed : Q) (st : state) (content name assistant_key : string)
    (tenant_id file_type : option string) :
  let chunks := chunk_document encoding now_chunking content name
                  assistant_key in
  let out := process_document_upload encoding hash client db show_float
               show_int now_chunking now_storing elapsed st content name
               assistant_key tenant_id file_type in
  chunks_created out.1 = length chunks /\
  embeddings_generated out.1 <= chunks_created out.1 /\
  ((chunks <> [] /\ success out.1 = true /\ error_message out.1 = None) \/
   (chunks = [] /\ success out.1 = false /\
    error_message out.1 = Some "No chunks created from document" /\
    chunks_stored out.1 = 0 /\ doc_id out.1 = None /\ out.2 = st)).
Proof.
  intros chunks out. subst out. unfold process_document_upload.
  fold chunks. destruct chunks as [|c cs] eqn:E.
  - cbn. split; [reflexivity|]. split; [lia|]. right. auto 10.
  - pose proof (generate_default_length st (map text (c :: cs))) as Hlen.
    destruct (generate_batch_embeddings _ _ _ _ _) as [embeddings st'].
    destruct (store_document_with_chunks _ _ _ _ _ _ _ _ _ _ _)
      as [new_doc_id stored].
    cbn [fst snd success chunks_created embeddings_generated error_message]
      in *.
    split; [reflexivity|]. split.
    + rewrite length_map in Hlen. rewrite <- Hlen. apply filter_length_le.
    + left. split; [discriminate|]. auto.
Qed.

Lemma store_loop_raises (new_doc_id : string) (tenant_id : option string)
    (chunks : list DocumentChunk) (embeddings : list embedding) (i : nat)
    (starts : list nat) :
  i ∈ starts ->
  (forall records, insert_chunks db i records = Raise) ->
  forall stored,
    store_loop db show_float show_int new_doc_id tenant_id chunks embeddings
      starts stored = Raise.
Proof.
  intros Hin Hraise. induction starts as [|j starts IH]; intros stored;
    [inversion Hin|].
  cbn [store_loop]. apply elem_of_cons in Hin as [<-|Hin].
  - now rewrite Hraise.
  - destruct (insert_chunks db j _) as [n|]; [|reflexivity]. cbn [Py.bind].
    now apply IH.
Qed.

(** X21. A failure of the store is not reported as a failure. When
    chunks were created and the insert of the document raises or
    returns no row, or the insert of one of the batches of chunks
    raises, [process_document_upload] answers success with no doc_id,
    zero chunks stored and no error message, whatever was inserted
    before the failure. *)
Theorem storage_failure_is_silent (now_chunking now_storing : string)
    (elapsed : Q) (st : state) (content name assistant_key : string)
    (tenant_id file_type : option string) :
  chunk_document encoding now_chunking content name assistant_key <> [] ->
  ((forall row, insert_document db row = Raise \/
                insert_document db row = Ok []) \/
   exists i,
     i ∈ range_step
           (length (chunk_document encoding now_chunking content name
                      assistant_key))
           storage_batch_size /\
     forall records, insert_chunks db i records = Raise) ->
  let out := process_document_upload encoding hash client db show_float
               show_int now_chunking now_storing elapsed st content name
               assistant_key tenant_id file_type in
  success out.1 = true /\
  doc_id out.1 = None /\
  chunks_stored out.1 = 0 /\
  chunks_created out.1
  = length (chunk_document encoding now_chunking content name assistant_key)
  /\
  error_message out.1 = None.
Proof.
  intros Hne Hfail out. subst out. unfold process_document_upload.
  destruct (chunk_document encoding now_chunking content name assistant_key)
    as [|c cs] eqn:E; [congruence|].
  destruct (generate_batch_embeddings _ _ _ _ _) as [embeddings st'].
  assert (Hs : store_document_with_chunks db show_float show_int now_storing
                 (c :: cs) embeddings name content assistant_key tenant_id
                 file_type = (None, 0)).
  { unfold store_document_with_chunks.
    destruct Hfail as [Hdoc|(i & Hi & Hraise)].
    - destruct (Hdoc (document_row_of now_storing (c :: cs) name content
                        assistant_key tenant_id file_type)) as [-> | ->];
        reflexivity.
    - destruct (insert_document db _) as [[|new_doc_id rows]|];
        try reflexivity.
      cbn [Py.bind].
      now rewrite (store_loop_raises new_doc_id tenant_id (c :: cs)
                     embeddings i _ Hi Hraise 0). }
  rewrite Hs. cbn. auto.
Qed.




End Upload.

Section UploadInstances.

Import ChunkProcessor EmbeddingService Ingestion Samples MoreSamples.

Lemma storage_failure_is_silent_witness :
  let out := process_document_upload None sample_hash answering_client
               store_down render_blank (fun _ => EmptyString)
               "2024-01-01T00:00:00" "2024-01-01T00:00:01" 1 empty_state
               short_then_long "notes.txt" "a1" None None in
  success out.1 = true /\
  doc_id out.1 = None /\
  chunks_stored out.1 = 0 /\
  chunks_created out.1
  = length (chunk_document None "2024-01-01T00:00:00" short_then_long
              "notes.txt" "a1") /\
  error_message out.1 = None.
Proof.
  apply (storage_failure_is_silent None sample_hash answering_client
           store_down render_blank (fun _ => EmptyString)
           "2024-01-01T00:00:00" "2024-01-01T00:00:01" 1 empty_state
           short_then_long "notes.txt" "a1" None None).
  - vm_compute. discriminate.
  - left. intros row. left. reflexivity.
Defined.


End UploadInstances.
